(** * NYC taxi dashboard: filtered retrieval, derivation and caching

    A shallow embedding of [newapp.py] (predicate pushdown into the trip
    query, derived columns, [st.cache_data]) and of [app.py] (load everything,
    clean and filter in memory), followed by the properties of the
    specification that concern them.

    Modelling conventions
    - a timestamp is a [Z]: microseconds since 1970-01-01T00:00:00, the
      resolution of the TIMESTAMP column of the trip file;
    - a nullable cell is an [option] (SQL NULL, pandas NaT / None);
    - a cell of a DOUBLE column of the trip file (distance, fare, ...) is NULL,
      NaN or a number ([option float64]). A number is an exact rational [Q]
      and arithmetic on numbers is exact: of the floats the scripts compute
      (durations, speeds, means) only what rounding to the nearest double
      preserves is stated, that is signs, bounds, and values that are doubles.
      Infinities are not modelled;
    - the engine of the query orders NaN above every number, pandas reads NULL
      and NaN alike as its missing value. A frame keeps the cell of the file;
      whatever pandas computes from a float cell goes through
      [Pandas.number];
    - SQL predicates are three-valued ([option bool]); a row is selected when
      the WHERE clause is [Some true];
    - a pandas boolean mask is two-valued: a comparison with a missing value
      is [false];
    - the remote files are a fixed snapshot ([Remote]); the fetches and queries
      of [load_zones] and [get_filtered_df] are recorded in a log. *)

From Stdlib Require Import QArith.
From stdpp Require Import gmap strings list sorting.

#[local] Set Warnings "-clear-no-such-hyp".
Local Open Scope string_scope.
Local Open Scope list_scope.
Local Open Scope Z_scope.

(** ** Timestamps *)

Definition US_PER_SECOND : Z := 1000000.
Definition US_PER_HOUR : Z := 3600 * US_PER_SECOND.
Definition US_PER_DAY : Z := 24 * US_PER_HOUR.

(** Days since the epoch of a proleptic Gregorian date. *)
Definition days_from_civil (y m d : Z) : Z :=
  let y' := if bool_decide (m ≤ 2) then y - 1 else y in
  let era := y' `div` 400 in
  let yoe := y' - era * 400 in
  let mp := (m + 9) `mod` 12 in
  let doy := (153 * mp + 2) `div` 5 + d - 1 in
  let doe := yoe * 365 + yoe `div` 4 - yoe `div` 100 + doy in
  era * 146097 + doe - 719468.

(** [pd.Timestamp(year, month, day, hour, minute)] / [TIMESTAMP 'y-m-d h:m:00']. *)
Definition Timestamp (y m d hh mm : Z) : Z :=
  ((days_from_civil y m d * 24 + hh) * 60 + mm) * 60 * US_PER_SECOND.

(** [pd.Timedelta(days=n)]. *)
Definition Timedelta_days (n : Z) : Z := n * US_PER_DAY.

(** [.dt.hour] and [EXTRACT('hour' FROM ts)]. *)
Definition dt_hour (t : Z) : Z := (t `div` US_PER_HOUR) `mod` 24.

(** [.dt.date], as a day number. *)
Definition dt_date (t : Z) : Z := t `div` US_PER_DAY.

(** [.dt.weekday]: Monday is 0; 1970-01-01 was a Thursday. *)
Definition dt_weekday (t : Z) : Z := (dt_date t + 3) `mod` 7.

(** The English day names [.dt.day_name()] answers with. *)
Definition DAY_NAMES : list string :=
  ["Monday"; "Tuesday"; "Wednesday"; "Thursday"; "Friday"; "Saturday"; "Sunday"].

Definition dt_day_name (t : Z) : string :=
  default "" (DAY_NAMES !! Z.to_nat (dt_weekday t)).

(** [(b - a).total_seconds()]. *)
Definition total_seconds (delta : Z) : Q := Qred (delta # 1000000).

(** ** Floats *)

Definition Qltb (x y : Q) : bool := negb (Qle_bool y x).

#[global] Instance Q_eq_dec : EqDecision Q.
Proof. solve_decision. Defined.

(** A float64: NaN or a number. *)
Inductive float64 :=
  | NaN
  | Num (q : Q).

#[global] Instance float64_eq_dec : EqDecision float64.
Proof. solve_decision. Defined.

(** ** SQL three-valued logic *)

Module SQL.

Definition and3 (a b : option bool) : option bool :=
  match a, b with
  | Some false, _ | _, Some false => Some false
  | Some true, Some true => Some true
  | _, _ => None
  end.

Definition cmp {A} (f : A → A → bool) (a b : option A) : option bool :=
  match a, b with
  | Some x, Some y => Some (f x y)
  | _, _ => None
  end.

Definition geZ := cmp Z.geb.
Definition ltZ := cmp Z.ltb.
Definition gtZ := cmp Z.gtb.

(** Comparison of DOUBLE values. The engine has a total order on them in which
    NaN is equal to itself and greater than every number: [NaN > 0] is TRUE
    and [NaN <= 500] is FALSE. *)
Definition double_gt (x y : float64) : bool :=
  match x, y with
  | Num a, Num b => Qltb b a
  | NaN, Num _ => true
  | _, NaN => false
  end.

Definition double_le (x y : float64) : bool := negb (double_gt x y).

Definition gtF := cmp double_gt.
Definition leF := cmp double_le.

(** [e BETWEEN lo AND hi] is [e >= lo AND e <= hi]. *)
Definition between (e lo hi : option Z) : option bool :=
  and3 (cmp Z.geb e lo) (cmp Z.leb e hi).

(** [e IN (v1, ..., vn)] over non-null literals. *)
Definition in_list (e : option Z) (vs : list Z) : option bool :=
  match e with
  | Some x => Some (bool_decide (x ∈ vs))
  | None => None
  end.

Definition extract_hour (t : option Z) : option Z := dt_hour <$> t.

(** A WHERE clause keeps the rows on which it is TRUE. *)
Definition selected (w : option bool) : bool :=
  match w with Some true => true | _ => false end.


(** [MIN(e)] and [MAX(e)] over a column: NULLs are skipped, and the aggregate
    of no value is NULL. *)
Definition agg_min (vs : list (option Z)) : option Z :=
  match omap id vs with
  | [] => None
  | v :: rest => Some (foldr Z.min v rest)
  end.

Definition agg_max (vs : list (option Z)) : option Z :=
  match omap id vs with
  | [] => None
  | v :: rest => Some (foldr Z.max v rest)
  end.

End SQL.

(** ** pandas: masks, categoricals, left merge *)

Module Pandas.

(** A float cell as pandas reads it. [.to_df()] hands a NULL of a DOUBLE
    column over as NaN, and NaN is the missing value of a float column:
    comparisons with it are [False], [dropna] drops it, [mean] and [sum] skip
    it. *)
Definition number (cell : option float64) : option Q :=
  match cell with
  | Some (Num q) => Some q
  | Some NaN | None => None
  end.

(** Element-wise comparison of a column with a scalar or a column: missing
    values compare [false]. *)
Definition cmp {A} (f : A → A → bool) (a b : option A) : bool :=
  match a, b with
  | Some x, Some y => f x y
  | _, _ => false
  end.

Definition isin {A} `{EqDecision A} (a : option A) (vs : list A) : bool :=
  match a with
  | Some x => bool_decide (x ∈ vs)
  | None => false
  end.

(** [pd.Categorical(values, categories=cats, ordered=True)], cell by cell:
    the code of a value is its position among the categories; a value that
    is missing or not a category has no code (NaN). *)
Definition Categorical (cats : list string) (v : option string) : option nat :=
  v ≫= λ s, fst <$> list_find (λ c, c = s) cats.

(** [left.merge(right, left_on=.., right_on=.., how="left")]: every left row
    is paired with each right row of equal key, in the order of the right
    frame, and with no right row when there is none. pandas matches a
    missing key with a missing key. *)
Definition merge_left {L R K} `{EqDecision K}
    (left_on : L → K) (right_on : R → K)
    (left : list L) (right : list R) : list (L * option R) :=
  l ← left;
  match filter (λ r, left_on l = right_on r) right with
  | [] => [(l, None)]
  | ms => (λ r, (l, Some r)) <$> ms
  end.

(** [Series.unique()]: the distinct values, in order of first appearance. *)
Fixpoint unique {A} `{EqDecision A} (l : list A) : list A :=
  match l with
  | [] => []
  | x :: l => x :: filter (λ y, y ≠ x) (unique l)
  end.

(** The column index after [df[name] = ...]. *)
Definition assign (name : string) (cols : list string) : list string :=
  if bool_decide (name ∈ cols) then cols else cols ++ [name].

(** The column index after [df.rename(columns={old: new})]. *)
Definition rename (old new : string) (cols : list string) : list string :=
  (λ c, if bool_decide (c = old) then new else c) <$> cols.


(** [Series.min()] and [Series.max()] of a datetime column: missing values are
    skipped, and the result is missing when nothing is left. *)
Definition min (s : list (option Z)) : option Z :=
  match omap id s with
  | [] => None
  | v :: rest => Some (foldr Z.min v rest)
  end.

Definition max (s : list (option Z)) : option Z :=
  match omap id s with
  | [] => None
  | v :: rest => Some (foldr Z.max v rest)
  end.

(** [Series.sum()]: missing values are skipped; the sum of nothing is 0. *)
Definition sum (s : list (option Q)) : Q := foldr Qplus 0%Q (omap id s).

(** [Series.mean()]: the mean of the values present; missing (NaN) when there
    is none. *)
Definition mean (s : list (option Q)) : option Q :=
  match omap id s with
  | [] => None
  | vs => Some (foldr Qplus 0 vs / inject_Z (Z.of_nat (length vs)))%Q
  end.

(** [Series.value_counts()]: the values present with the number of times each
    occurs, the most frequent first. pandas leaves the order among equal
    counts open; the model takes the one of its sort. *)
Definition count_ge {A} (a b : A * nat) : Prop := (b.2 ≤ a.2)%nat.

#[global] Instance count_ge_dec {A} (a b : A * nat) : Decision (count_ge a b).
Proof. unfold count_ge. apply _. Defined.

Definition value_counts {A} `{EqDecision A} (s : list (option A)) : list (A * nat) :=
  let vs := omap id s in
  merge_sort count_ge
    ((λ v, (v, length (filter (λ x, x = v) vs))) <$> unique vs).

(** [df.head(n)] *)
Definition head {A} (n : nat) (l : list A) : list A := take n l.

(** [sorted(names)] for a list of [str]. *)
Definition str_le (a b : string) : Prop := String.leb a b = true.

#[global] Instance str_le_dec (a b : string) : Decision (str_le a b).
Proof. unfold str_le. apply _. Defined.

Definition sorted (l : list string) : list string := merge_sort str_le l.

End Pandas.

(** ** The remote data *)

(** The columns of the trip file that both programs select. *)
Record TripCols := mkTripCols {
  tpep_pickup_datetime : option Z;
  tpep_dropoff_datetime : option Z;
  PULocationID : option Z;
  DOLocationID : option Z;
  trip_distance : option float64;
  fare_amount : option float64;
  tip_amount : option float64;
  total_amount : option float64;
  payment_type : option Z
}.

(** A row of the trip file, as far as either program reads it. *)
Record Trip := mkTrip {
  cols : TripCols;
  passenger_count : option Q
}.

Module Zones.
(** A row of [zones_df[["LocationID", "Zone"]]]. *)
Record Row := mk {
  LocationID : option Z;
  Zone : option string
}.
End Zones.

Record Remote := mkRemote {
  TRIP_URL : list Trip;
  ZONE_URL : list Zones.Row
}.

#[global] Instance TripCols_eq_dec : EqDecision TripCols.
Proof. solve_decision. Defined.
#[global] Instance Trip_eq_dec : EqDecision Trip.
Proof. solve_decision. Defined.
#[global] Instance ZonesRow_eq_dec : EqDecision Zones.Row.
Proof. solve_decision. Defined.

(** ** The date control of the sidebar

    The two scripts turn the answer of [st.sidebar.date_input] into the
    datetime window of the filter with the same lines. *)

Module Sidebar.

(** What [date_input] hands back: one date, or a tuple of the dates picked so
    far (none, the start, or start and end). A date is a day number. *)
Inductive DateInput :=
  | one_date (d : Z)
  | date_tuple (ds : list Z).

(** [start_date, end_date]: [date_range[0]] and [date_range[-1]] of a tuple,
    which raise [IndexError] on the empty tuple ([None] here). *)
Definition selected_dates (date_range : DateInput) : option (Z * Z) :=
  match date_range with
  | date_tuple ds =>
      match ds !! 0%nat, last ds with
      | Some start_date, Some end_date => Some (start_date, end_date)
      | _, _ => None
      end
  | one_date d => Some (d, d)
  end.

(** [pd.to_datetime(date)]: midnight of that day. *)
Definition to_datetime (date : Z) : Z := date * US_PER_DAY.

(** [(start_datetime, end_datetime)] *)
Definition datetime_window (date_range : DateInput) : option (Z * Z) :=
  match selected_dates date_range with
  | Some (start_date, end_date) =>
      Some (to_datetime start_date, to_datetime end_date + Timedelta_days 1)
  | None => None
  end.

End Sidebar.

(** ** newapp.py *)

Module NewApp.

Definition PAYMENT_MAP : gmap Z string :=
  list_to_map
    [ (1, "Credit Card"); (2, "Cash"); (3, "No Charge");
      (4, "Dispute"); (5, "Unknown"); (6, "Voided Trip") ].

(** [{v: k for k, v in PAYMENT_MAP.items()}] *)
Definition LABEL_TO_CODE : gmap string Z :=
  list_to_map (prod_swap <$> map_to_list PAYMENT_MAP).

(** The parameters interpolated into the SQL text of [get_filtered_df];
    [q_zone_filter = None] is the empty [zone_filter_sql]. *)
Record TripQuery := mkTripQuery {
  q_start : Z;
  q_end : Z;
  q_hour_min : Z;
  q_hour_max : Z;
  q_payment_codes : list Z;
  q_zone_filter : option (list Z)
}.

Definition zone_clause (f : option (list Z)) (t : TripCols) : option bool :=
  match f with
  | Some loc_ids => SQL.in_list (PULocationID t) loc_ids
  | None => Some true
  end.

Notation "a 'AND' b" := (SQL.and3 a b) (at level 75, right associativity).

(** The WHERE clause of the query, on one row of the trip file. *)
Definition where_clause (q : TripQuery) (t : TripCols) : option bool :=
  SQL.geZ (tpep_pickup_datetime t) (Some (q_start q))
  AND SQL.ltZ (tpep_pickup_datetime t) (Some (q_end q))
  AND SQL.between (SQL.extract_hour (tpep_pickup_datetime t))
        (Some (q_hour_min q)) (Some (q_hour_max q))
  AND SQL.in_list (payment_type t) (q_payment_codes q)
  AND SQL.gtF (trip_distance t) (Some (Num 0))
  AND SQL.gtF (fare_amount t) (Some (Num 0))
  AND SQL.leF (fare_amount t) (Some (Num 500))
  AND SQL.gtZ (tpep_dropoff_datetime t) (tpep_pickup_datetime t)
  AND zone_clause (q_zone_filter q) t.

(** [SELECT <nine columns> FROM read_parquet(TRIP_URL) WHERE ...]. The engine
    promises no row order; the model answers in file order and the theorems
    below only state what holds for every order. *)
Definition run_query (remote : Remote) (q : TripQuery) : list TripCols :=
  cols <$> filter (λ t, SQL.selected (where_clause q (cols t)) = true) (TRIP_URL remote).

Definition SELECT_COLUMNS : list string :=
  [ "tpep_pickup_datetime"; "tpep_dropoff_datetime"; "PULocationID";
    "DOLocationID"; "trip_distance"; "fare_amount"; "tip_amount";
    "total_amount"; "payment_type" ].

Definition day_order : list string :=
  ["Monday"; "Tuesday"; "Wednesday"; "Thursday"; "Friday"; "Saturday"; "Sunday"].

Record DerivedRow := mkDerivedRow {
  raw : TripCols;
  trip_duration_minutes : option Q;
  pickup_hour : option Z;
  pickup_day_of_week : option nat;   (* code in the categories [day_order] *)
  pickup_date : option Z;
  LocationID : option Z;
  pickup_zone : option string;
  payment_label : string
}.

#[global] Instance DerivedRow_eq_dec : EqDecision DerivedRow.
Proof. solve_decision. Defined.

Record DataFrame := mkDataFrame {
  columns : list string;
  rows : list DerivedRow
}.

(** [pd.DataFrame()] *)
Definition pd_DataFrame : DataFrame := {| columns := []; rows := [] |}.

(** [df.empty] *)
Definition empty (df : DataFrame) : bool :=
  bool_decide (columns df = []) || bool_decide (rows df = []).

(** [(dropoff - pickup).dt.total_seconds() / 60]: the exact quotient, of
    which the float64 of the frame is the nearest double; missing (NaN) when
    a timestamp is. *)
Definition duration_minutes (dropoff pickup : option Z) : option Q :=
  match dropoff, pickup with
  | Some d, Some p => Some (Qred (total_seconds (d - p) / 60))
  | _, _ => None
  end.

(** [df["payment_type"].map(PAYMENT_MAP).fillna("Other/Missing")] *)
Definition label_of_code (code : option Z) : string :=
  default "Other/Missing" (code ≫= λ c, PAYMENT_MAP !! c).

(** One row of the frame after the assignments, the merge and the rename;
    [z] is the zone row the merge paired it with. *)
Definition derive_row (t : TripCols) (z : option Zones.Row) : DerivedRow :=
  {| raw := t;
     trip_duration_minutes :=
       duration_minutes (tpep_dropoff_datetime t) (tpep_pickup_datetime t);
     pickup_hour := dt_hour <$> tpep_pickup_datetime t;
     pickup_day_of_week :=
       Pandas.Categorical day_order (dt_day_name <$> tpep_pickup_datetime t);
     pickup_date := dt_date <$> tpep_pickup_datetime t;
     LocationID := z ≫= Zones.LocationID;
     pickup_zone := z ≫= Zones.Zone;
     payment_label := label_of_code (payment_type t) |}.

Definition derived_columns : list string :=
  Pandas.assign "pickup_day_of_week"
    (Pandas.assign "payment_label"
      (Pandas.rename "Zone" "pickup_zone"
        ((Pandas.assign "pickup_date"
           (Pandas.assign "pickup_day_of_week"
             (Pandas.assign "pickup_hour"
               (Pandas.assign "trip_duration_minutes" SELECT_COLUMNS))))
         ++ ["LocationID"; "Zone"]))).

(** The part of [get_filtered_df] after the query. The columns computed before
    the merge depend on the row alone, so they are computed per merged row. *)
Definition derive (df : list TripCols) (zones_df : list Zones.Row) : DataFrame :=
  {| columns := derived_columns;
     rows := (λ p, derive_row p.1 p.2)
               <$> Pandas.merge_left PULocationID Zones.LocationID df zones_df |}.

(** [zones_df[zones_df["Zone"].isin(names)]["LocationID"]
      .dropna().astype(int).unique().tolist()] *)
Definition resolve_zones (zones_df : list Zones.Row) (names : list string) : list Z :=
  Pandas.unique
    (omap Zones.LocationID
      (filter (λ z, Pandas.isin (Zones.Zone z) names = true) zones_df)).

Definition zone_filter_sql (zones_df : list Zones.Row) (selected_zone_names : list string)
    : option (list Z) :=
  if bool_decide (selected_zone_names = []) then None
  else
    let loc_ids := resolve_zones zones_df selected_zone_names in
    if bool_decide (loc_ids = []) then None else Some loc_ids.

Definition payment_codes_of (payment_labels : list string) : list Z :=
  omap (λ p, LABEL_TO_CODE !! p) payment_labels.

(** *** The session: memo tables of [st.cache_data] and the log of remote calls

    The session holds the memo tables of [load_zones] and [get_filtered_df]
    and the log of the remote calls these two make. A remote call always
    answers: a run in which a fetch or a query fails is not modelled. *)

Inductive Event :=
  | FetchZones
  | QueryTrips (q : TripQuery).

Definition is_trip_query (e : Event) : bool :=
  match e with QueryTrips _ => true | FetchZones => false end.

(** The arguments of [get_filtered_df], which [st.cache_data] hashes by value:
    numbers and strings by content, a list by its elements in order. *)
Definition Args : Type := Z * Z * Z * Z * list string * list string.

Record Session := mkSession {
  zones_memo : option (list Zones.Row);
  filtered_memo : gmap Args DataFrame;
  remote_log : list Event
}.

Definition fresh : Session :=
  {| zones_memo := None; filtered_memo := ∅; remote_log := [] |}.

Definition M (A : Type) : Type := Session → A * Session.

Definition ret {A} (a : A) : M A := λ σ, (a, σ).
Definition bind {A B} (m : M A) (k : A → M B) : M B :=
  λ σ, let '(a, σ') := m σ in k a σ'.

#[global] Instance M_ret : MRet M := @ret.
#[global] Instance M_bind : MBind M := λ A B k m, bind m k.

Definition emit (e : Event) : M unit :=
  λ σ, (tt, {| zones_memo := zones_memo σ;
               filtered_memo := filtered_memo σ;
               remote_log := remote_log σ ++ [e] |}).

Section Program.
Context (remote : Remote).

(** [@st.cache_data def load_zones()] *)
Definition load_zones : M (list Zones.Row) := λ σ,
  match zones_memo σ with
  | Some zones_df => (zones_df, σ)
  | None =>
      let zones_df := ZONE_URL remote in
      (zones_df, {| zones_memo := Some zones_df;
                    filtered_memo := filtered_memo σ;
                    remote_log := remote_log σ ++ [FetchZones] |})
  end.

(** [duckdb.query(sql).to_df()] *)
Definition duckdb_query (q : TripQuery) : M (list TripCols) :=
  emit (QueryTrips q);;
  mret (run_query remote q).

(** The body of [get_filtered_df]. *)
Definition get_filtered_df_body (args : Args) : M DataFrame :=
  let '(start_datetime, end_datetime, hour_min, hour_max,
        payment_labels, selected_zone_names) := args in
  zones_df ← load_zones;
  let payment_codes := payment_codes_of payment_labels in
  if bool_decide (payment_codes = []) then mret pd_DataFrame
  else
    let sql := {| q_start := start_datetime; q_end := end_datetime;
                  q_hour_min := hour_min; q_hour_max := hour_max;
                  q_payment_codes := payment_codes;
                  q_zone_filter := zone_filter_sql zones_df selected_zone_names |} in
    df ← duckdb_query sql;
    mret (derive df zones_df).

(** [@st.cache_data def get_filtered_df(...)]: the body runs on a miss only, and
    its result is stored under the arguments. *)
Definition get_filtered_df (args : Args) : M DataFrame := λ σ,
  match filtered_memo σ !! args with
  | Some df => (df, σ)
  | None =>
      let '(df, σ') := get_filtered_df_body args σ in
      (df, {| zones_memo := zones_memo σ';
              filtered_memo := <[args := df]> (filtered_memo σ');
              remote_log := remote_log σ' |})
  end.

End Program.

(** *** The heat map table (tab 5)

    [filtered_df.groupby(["pickup_day_of_week", "pickup_hour"]).size()
       .reset_index(name="Trips")]. Group keys come out sorted; an ordered
    categorical sorts by its codes. Rows with a missing key are left out. With
    [observed = false] (the default of older pandas for categorical keys) every
    category is listed with every hour that occurs; with [observed = true]
    only the pairs that occur. This is the table of a frame that has the two
    key columns: on [pd.DataFrame()], which has none, [groupby] raises
    [KeyError], and the script stops at [filtered_df.empty] before it gets
    there. *)

Definition lex_le (a b : nat * Z) : Prop :=
  (a.1 < b.1)%nat ∨ (a.1 = b.1 ∧ a.2 ≤ b.2).

#[global] Instance lex_le_dec a b : Decision (lex_le a b).
Proof. unfold lex_le. apply _. Defined.

Definition group_key (r : DerivedRow) : option (nat * Z) :=
  d ← pickup_day_of_week r; h ← pickup_hour r; Some (d, h).

Definition group_index (observed : bool) (keys : list (nat * Z)) : list (nat * Z) :=
  if observed then merge_sort lex_le (Pandas.unique keys)
  else
    d ← seq 0 (length day_order);
    (λ h, (d, h)) <$> merge_sort Z.le (Pandas.unique (snd <$> keys)).

Definition heatmap_data (observed : bool) (filtered_df : DataFrame)
    : list (nat * Z * nat) :=
  let keys := omap group_key (rows filtered_df) in
  (λ k, (k, length (filter (λ k', k' = k) keys))) <$> group_index observed keys.


(** *** The rest of the script *)

(** [get_min_max_dates()]: the answer to the MIN/MAX query on the pickup
    column. Only the value is modelled: the memo table [st.cache_data] keeps
    it in is not part of [Session], and the query is not written to
    [remote_log]. *)
Definition get_min_max_dates (remote : Remote) : option Z * option Z :=
  let pickups := (λ t, tpep_pickup_datetime (cols t)) <$> TRIP_URL remote in
  (SQL.agg_min pickups, SQL.agg_max pickups).

(** [(min_date, max_date)], the default and the bounds of the date control. *)
Definition default_date_range (remote : Remote) : option Sidebar.DateInput :=
  match get_min_max_dates remote with
  | (Some min_dt, Some max_dt) =>
      Some (Sidebar.date_tuple [dt_date min_dt; dt_date max_dt])
  | _ => None
  end.

(** [sorted(list(LABEL_TO_CODE.keys()))] *)
Definition payment_labels_all : list string :=
  Pandas.sorted (fst <$> map_to_list LABEL_TO_CODE).

(** [sorted(zones["Zone"].dropna().unique().tolist())] *)
Definition zones_list (zones : list Zones.Row) : list string :=
  Pandas.sorted (Pandas.unique (omap Zones.Zone zones)).

(** The numbers of the "Key Metrics" row, before formatting. *)
Record KeyMetrics := mkKeyMetrics {
  total_trips : nat;
  average_fare : option Q;
  total_revenue : Q;
  avg_distance : option Q;
  avg_duration : option Q
}.

Definition key_metrics (filtered_df : DataFrame) : KeyMetrics :=
  {| total_trips := length (rows filtered_df);
     average_fare :=
       Pandas.mean ((λ r, Pandas.number (fare_amount (raw r))) <$> rows filtered_df);
     total_revenue :=
       Pandas.sum ((λ r, Pandas.number (total_amount (raw r))) <$> rows filtered_df);
     avg_distance :=
       Pandas.mean ((λ r, Pandas.number (trip_distance (raw r))) <$> rows filtered_df);
     avg_duration := Pandas.mean (trip_duration_minutes <$> rows filtered_df) |}.

(** Tab 1: [filtered_df["pickup_zone"].value_counts().head(10)] *)
Definition top_zones (filtered_df : DataFrame) : list (string * nat) :=
  Pandas.head 10 (Pandas.value_counts (pickup_zone <$> rows filtered_df)).

(** Tab 2: [filtered_df.groupby("pickup_hour")["fare_amount"].mean()]; the
    groups come in ascending order of the hour, rows without an hour are left
    out. *)
Definition avg_fare_hour (filtered_df : DataFrame) : list (Z * option Q) :=
  (λ h, (h, Pandas.mean
              ((λ r, Pandas.number (fare_amount (raw r)))
                 <$> filter (λ r, pickup_hour r = Some h) (rows filtered_df))))
    <$> merge_sort Z.le (Pandas.unique (omap pickup_hour (rows filtered_df))).

(** Tab 4: [filtered_df["payment_label"].value_counts()] *)
Definition payment_counts (filtered_df : DataFrame) : list (string * nat) :=
  Pandas.value_counts ((λ r, Some (payment_label r)) <$> rows filtered_df).

End NewApp.

(** ** app.py *)

Module App.

Definition payment_map : gmap Z string :=
  list_to_map
    [ (1, "Credit Card"); (2, "Cash"); (3, "No Charge");
      (4, "Dispute"); (5, "Unknown"); (6, "Voided Trip") ].

Definition day_order : list string :=
  ["Monday"; "Tuesday"; "Wednesday"; "Thursday"; "Friday"; "Saturday"; "Sunday"].

Record DerivedRow := mkDerivedRow {
  raw : Trip;
  trip_duration_minutes : option Q;
  trip_speed_mph : option Q;
  pickup_hour : option Z;
  pickup_day_of_week : option nat;
  LocationID : option Z;
  pickup_zone : option string;
  payment_label : string;
  pickup_date : option Z
}.

(** [df.dropna(subset=[...])] *)
Definition dropna_subset (t : Trip) : bool :=
  bool_decide (is_Some (tpep_pickup_datetime (cols t)))
  && bool_decide (is_Some (tpep_dropoff_datetime (cols t)))
  && bool_decide (is_Some (PULocationID (cols t)))
  && bool_decide (is_Some (DOLocationID (cols t)))
  && bool_decide (is_Some (Pandas.number (fare_amount (cols t)))).

(** The cleaning mask of [load_data]. *)
Definition clean_mask (t : Trip) : bool :=
  Pandas.cmp (λ x y, Qltb y x) (Pandas.number (trip_distance (cols t))) (Some 0%Q)
  && Pandas.cmp (λ x y, Qltb y x) (Pandas.number (fare_amount (cols t))) (Some 0%Q)
  && Pandas.cmp Qle_bool (Pandas.number (fare_amount (cols t))) (Some 500%Q)
  && Pandas.cmp Z.gtb (tpep_dropoff_datetime (cols t)) (tpep_pickup_datetime (cols t)).

(** [(dropoff - pickup).dt.total_seconds() / 60], as in [newapp.py]. *)
Definition duration_minutes (dropoff pickup : option Z) : option Q :=
  match dropoff, pickup with
  | Some d, Some p => Some (Qred (total_seconds (d - p) / 60))
  | _, _ => None
  end.

(** [df["trip_distance"] / (df["trip_duration_minutes"].replace(0, pd.NA) / 60)],
    the exact quotient. *)
Definition speed_mph (distance minutes : option Q) : option Q :=
  match distance, minutes with
  | Some d, Some m =>
      if Qeq_bool m 0 then None else Some (Qred (d / (m / 60)))
  | _, _ => None
  end.

Definition label_of_code (code : option Z) : string :=
  default "Other/Missing" (code ≫= λ c, payment_map !! c).

Definition derive_row (t : Trip) (z : option Zones.Row) : DerivedRow :=
  let minutes :=
    duration_minutes (tpep_dropoff_datetime (cols t)) (tpep_pickup_datetime (cols t)) in
  {| raw := t;
     trip_duration_minutes := minutes;
     trip_speed_mph := speed_mph (Pandas.number (trip_distance (cols t))) minutes;
     pickup_hour := dt_hour <$> tpep_pickup_datetime (cols t);
     pickup_day_of_week :=
       Pandas.Categorical day_order (dt_day_name <$> tpep_pickup_datetime (cols t));
     LocationID := z ≫= Zones.LocationID;
     pickup_zone := z ≫= Zones.Zone;
     payment_label := label_of_code (payment_type (cols t));
     pickup_date := dt_date <$> tpep_pickup_datetime (cols t) |}.

(** [load_data()]: the whole file, cleaned and enriched. Only the rows are
    modelled; nothing below depends on the names of its columns. *)
Definition load_data (remote : Remote) : list DerivedRow :=
  let zones := ZONE_URL remote in
  let df := TRIP_URL remote in
  let df := filter (λ t, dropna_subset t = true) df in
  let df := filter (λ t, clean_mask t = true) df in
  (λ p, derive_row p.1 p.2)
    <$> Pandas.merge_left (λ t, PULocationID (cols t)) Zones.LocationID df zones.

(** The mask built from the sidebar selections. *)
Definition sidebar_mask (start_datetime end_datetime : Z) (hour_range : Z * Z)
    (selected_payments : list string) (r : DerivedRow) : bool :=
  Pandas.cmp Z.geb (tpep_pickup_datetime (cols (raw r))) (Some start_datetime)
  && Pandas.cmp Z.ltb (tpep_pickup_datetime (cols (raw r))) (Some end_datetime)
  && Pandas.cmp Z.geb (pickup_hour r) (Some hour_range.1)
  && Pandas.cmp Z.leb (pickup_hour r) (Some hour_range.2)
  && Pandas.isin (Some (payment_label r)) selected_payments.

(** [filtered_df], as the script computes it from [df = load_data()]. *)
Definition filtered_df (df : list DerivedRow) (start_datetime end_datetime : Z)
    (hour_range : Z * Z) (selected_payments selected_zones : list string)
    : list DerivedRow :=
  let filtered_df :=
    filter (λ r, sidebar_mask start_datetime end_datetime hour_range
                   selected_payments r = true) df in
  if bool_decide (selected_zones = []) then filtered_df
  else filter (λ r, Pandas.isin (pickup_zone r) selected_zones = true) filtered_df.


(** [pd.to_datetime(df["tpep_pickup_datetime"].min()).date()] and the same
    with [max()]. *)
Definition min_date (df : list DerivedRow) : option Z :=
  dt_date <$> Pandas.min ((λ r, tpep_pickup_datetime (cols (raw r))) <$> df).

Definition max_date (df : list DerivedRow) : option Z :=
  dt_date <$> Pandas.max ((λ r, tpep_pickup_datetime (cols (raw r))) <$> df).

(** [sorted(df["payment_label"].dropna().unique().tolist())] *)
Definition payment_labels (df : list DerivedRow) : list string :=
  Pandas.sorted (Pandas.unique (payment_label <$> df)).

(** [sorted(df["pickup_zone"].dropna().unique().tolist())] *)
Definition zones_list (df : list DerivedRow) : list string :=
  Pandas.sorted (Pandas.unique (omap pickup_zone df)).

End App.

(** * Specification-side definitions *)

(** ** The predicates of a filter specification, in the words of the
    specification *)

Definition satisfies (start_ end_ hour_lo hour_hi : Z) (codes zone_ids : list Z)
    (t : TripCols) : Prop :=
  ∃ pickup dropoff distance fare code,
    tpep_pickup_datetime t = Some pickup
    ∧ tpep_dropoff_datetime t = Some dropoff
    ∧ trip_distance t = Some (Num distance)
    ∧ fare_amount t = Some (Num fare)
    ∧ payment_type t = Some code
    ∧ start_ ≤ pickup < end_
    ∧ hour_lo ≤ dt_hour pickup ≤ hour_hi
    ∧ code ∈ codes
    ∧ (0 < distance)%Q
    ∧ (0 < fare)%Q ∧ (fare <= 500)%Q
    ∧ pickup < dropoff
    ∧ (zone_ids ≠ [] → ∃ loc, PULocationID t = Some loc ∧ loc ∈ zone_ids).

(** A distance the engine finds above 0: a positive number, or NaN. *)
Definition above_zero (distance : float64) : Prop :=
  match distance with
  | NaN => True
  | Num miles => (0 < miles)%Q
  end.

(** The same predicates as the engine evaluates them: they differ from
    [satisfies] in the distance, which may be NaN. *)
Definition selects (start_ end_ hour_lo hour_hi : Z) (codes zone_ids : list Z)
    (t : TripCols) : Prop :=
  ∃ pickup dropoff distance fare code,
    tpep_pickup_datetime t = Some pickup
    ∧ tpep_dropoff_datetime t = Some dropoff
    ∧ trip_distance t = Some distance
    ∧ fare_amount t = Some (Num fare)
    ∧ payment_type t = Some code
    ∧ start_ ≤ pickup < end_
    ∧ hour_lo ≤ dt_hour pickup ≤ hour_hi
    ∧ code ∈ codes
    ∧ above_zero distance
    ∧ (0 < fare)%Q ∧ (fare <= 500)%Q
    ∧ pickup < dropoff
    ∧ (zone_ids ≠ [] → ∃ loc, PULocationID t = Some loc ∧ loc ∈ zone_ids).

(** The label and zone fields of two argument tuples hold the same elements
    (equal as sets), the other fields are equal. *)
Definition same_spec (a b : NewApp.Args) : Prop :=
  let '(s1, e1, lo1, hi1, labels1, zones1) := a in
  let '(s2, e2, lo2, hi2, labels2, zones2) := b in
  s1 = s2 ∧ e1 = e2 ∧ lo1 = lo2 ∧ hi1 = hi2
  ∧ (∀ x, x ∈ labels1 ↔ x ∈ labels2)
  ∧ (∀ x, x ∈ zones1 ↔ x ∈ zones2).

(** What [get_filtered_df] computes for given arguments against the remote
    snapshot, without the session. *)
Definition result_of (remote : Remote) (args : NewApp.Args) : NewApp.DataFrame :=
  let '(start_datetime, end_datetime, hour_min, hour_max,
        payment_labels, selected_zone_names) := args in
  if bool_decide (NewApp.payment_codes_of payment_labels = []) then NewApp.pd_DataFrame
  else
    NewApp.derive
      (NewApp.run_query remote
         {| NewApp.q_start := start_datetime; NewApp.q_end := end_datetime;
            NewApp.q_hour_min := hour_min; NewApp.q_hour_max := hour_max;
            NewApp.q_payment_codes := NewApp.payment_codes_of payment_labels;
            NewApp.q_zone_filter :=
              NewApp.zone_filter_sql (ZONE_URL remote) selected_zone_names |})
      (ZONE_URL remote).

(** A session whose memo tables hold what the functions computed. *)
Definition cache_ok (remote : Remote) (σ : NewApp.Session) : Prop :=
  (NewApp.zones_memo σ = None ∨ NewApp.zones_memo σ = Some (ZONE_URL remote))
  ∧ ∀ args df, NewApp.filtered_memo σ !! args = Some df → df = result_of remote args.

(** The sessions a run of the script can be in. *)
Inductive reachable (remote : Remote) : NewApp.Session → Prop :=
  | reachable_fresh : reachable remote NewApp.fresh
  | reachable_load_zones σ :
      reachable remote σ → reachable remote (NewApp.load_zones remote σ).2
  | reachable_get_filtered_df σ args :
      reachable remote σ → reachable remote (NewApp.get_filtered_df remote args σ).2.

(** The trip queries among the logged remote calls. *)
Definition trip_queries (log : list NewApp.Event) : list NewApp.Event :=
  filter (λ e, NewApp.is_trip_query e = true) log.

(** The columns a row of [app.py] shares with a row of [newapp.py]
    ([app.py] also carries [passenger_count] and [trip_speed_mph]). *)
Definition shared_columns (r : App.DerivedRow) : NewApp.DerivedRow :=
  {| NewApp.raw := cols (App.raw r);
     NewApp.trip_duration_minutes := App.trip_duration_minutes r;
     NewApp.pickup_hour := App.pickup_hour r;
     NewApp.pickup_day_of_week := App.pickup_day_of_week r;
     NewApp.pickup_date := App.pickup_date r;
     NewApp.LocationID := App.LocationID r;
     NewApp.pickup_zone := App.pickup_zone r;
     NewApp.payment_label := App.payment_label r |}.

(** What one row of the trip file contributes to the frame [newapp.py]
    derives from the answer to the query [sql]. *)
Definition new_rows (zones_df : list Zones.Row) (sql : NewApp.TripQuery) (t : Trip)
    : list NewApp.DerivedRow :=
  (λ p, NewApp.derive_row p.1 p.2)
    <$> Pandas.merge_left PULocationID Zones.LocationID
          (cols <$> filter (λ t, SQL.selected (NewApp.where_clause sql (cols t)) = true) [t])
          zones_df.

(** What it contributes to [filtered_df] of [app.py] when zones are selected. *)
Definition app_rows (zones_df : list Zones.Row) (start_datetime end_datetime : Z)
    (hour_range : Z * Z) (selected_payments selected_zones : list string) (t : Trip)
    : list App.DerivedRow :=
  filter (λ r, Pandas.isin (App.pickup_zone r) selected_zones = true)
    (filter (λ r, App.sidebar_mask start_datetime end_datetime hour_range
                    selected_payments r = true)
       ((λ p, App.derive_row p.1 p.2)
          <$> Pandas.merge_left (λ t, PULocationID (cols t)) Zones.LocationID
                (filter (λ t, App.clean_mask t = true)
                   (filter (λ t, App.dropna_subset t = true) [t]))
                zones_df)).

(** The six labels of the payment selector of [newapp.py]. *)
Definition known_labels : list string :=
  ["Credit Card"; "Cash"; "No Charge"; "Dispute"; "Unknown"; "Voided Trip"].

(** The columns the consumers of the result read. *)
Definition consumer_columns : list string :=
  [ "tpep_pickup_datetime"; "tpep_dropoff_datetime"; "PULocationID";
    "DOLocationID"; "trip_distance"; "fare_amount"; "tip_amount";
    "total_amount"; "payment_type"; "trip_duration_minutes"; "pickup_hour";
    "pickup_day_of_week"; "pickup_zone"; "payment_label" ].

(** ** Sample data *)

Module Sample.

(** The trip of the concrete scenario: JFK Airport, Friday 2024-01-05 05:10. *)
Definition jfk_trip : TripCols :=
  {| tpep_pickup_datetime := Some (Timestamp 2024 1 5 5 10);
     tpep_dropoff_datetime := Some (Timestamp 2024 1 5 5 40);
     PULocationID := Some 132;
     DOLocationID := Some 236;
     trip_distance := Some (Num 12);
     fare_amount := Some (Num 45);
     tip_amount := Some (Num 9);
     total_amount := Some (Num 57);
     payment_type := Some 1 |}.

(** A cash trip from Newark on Monday 2024-01-01 whose dropoff location is
    missing. *)
Definition no_dropoff_trip : TripCols :=
  {| tpep_pickup_datetime := Some (Timestamp 2024 1 1 9 0);
     tpep_dropoff_datetime := Some (Timestamp 2024 1 1 9 20);
     PULocationID := Some 1;
     DOLocationID := None;
     trip_distance := Some (Num 3);
     fare_amount := Some (Num 15);
     tip_amount := None;
     total_amount := Some (Num 15);
     payment_type := Some 2 |}.

(** A card trip from JFK Airport on Tuesday 2024-01-02 whose distance is
    NaN. *)
Definition nan_distance_trip : TripCols :=
  {| tpep_pickup_datetime := Some (Timestamp 2024 1 2 9 0);
     tpep_dropoff_datetime := Some (Timestamp 2024 1 2 9 20);
     PULocationID := Some 132;
     DOLocationID := Some 236;
     trip_distance := Some NaN;
     fare_amount := Some (Num 15);
     tip_amount := Some (Num 3);
     total_amount := Some (Num 18);
     payment_type := Some 1 |}.

Definition zones : list Zones.Row :=
  [ Zones.mk (Some 1) (Some "Newark Airport");
    Zones.mk (Some 132) (Some "JFK Airport") ].

Definition remote : Remote :=
  {| TRIP_URL := [ {| cols := jfk_trip; passenger_count := Some 1%Q |} ];
     ZONE_URL := zones |}.

Definition remote_no_dropoff : Remote :=
  {| TRIP_URL := [ {| cols := no_dropoff_trip; passenger_count := Some 1%Q |} ];
     ZONE_URL := zones |}.

Definition remote_nan_distance : Remote :=
  {| TRIP_URL := [ {| cols := nan_distance_trip; passenger_count := Some 1%Q |} ];
     ZONE_URL := zones |}.

Definition january : Z * Z := (Timestamp 2024 1 1 0 0, Timestamp 2024 2 1 0 0).

Definition args (payment_labels selected_zone_names : list string) : NewApp.Args :=
  (january.1, january.2, 0, 23, payment_labels, selected_zone_names).

End Sample.

(** ** Further specification-side definitions *)

(** The fetches of the zone file among the logged remote calls. *)
Definition zone_fetches (log : list NewApp.Event) : list NewApp.Event :=
  filter (λ e, NewApp.is_trip_query e = false) log.

(** A logged call is a fetch of the zone file or a trip query whose two IN
    lists can be written in SQL: at least one payment code, all of them codes
    of [PAYMENT_MAP], and, when there is a zone clause, at least one id. *)
Definition writable (e : NewApp.Event) : Prop :=
  match e with
  | NewApp.FetchZones => True
  | NewApp.QueryTrips q =>
      NewApp.q_payment_codes q ≠ []
      ∧ Forall (λ c, 1 ≤ c ≤ 6) (NewApp.q_payment_codes q)
      ∧ NewApp.q_zone_filter q ≠ Some []
  end.

(** The zone file has been read from the remote source at most once, and the
    memo table of [load_zones] holds it from then on. *)
Definition fetched_once (remote : Remote) (σ : NewApp.Session) : Prop :=
  match NewApp.zones_memo σ with
  | None => zone_fetches (NewApp.remote_log σ) = []
  | Some zones_df =>
      zones_df = ZONE_URL remote
      ∧ length (zone_fetches (NewApp.remote_log σ)) = 1%nat
  end.

(** The sum of the counts of a table of counts. *)
Definition total_count {K} (table : list (K * nat)) : nat :=
  foldr (λ kc n, (kc.2 + n)%nat) 0%nat table.

(** The rows [load_data] of [app.py] keeps are clean. *)
Definition clean (t : TripCols) : Prop :=
  ∃ pickup dropoff distance fare,
    tpep_pickup_datetime t = Some pickup
    ∧ tpep_dropoff_datetime t = Some dropoff
    ∧ trip_distance t = Some (Num distance)
    ∧ fare_amount t = Some (Num fare)
    ∧ (0 < distance)%Q ∧ (0 < fare)%Q ∧ (fare <= 500)%Q
    ∧ pickup < dropoff.

(** The rows the cleaning predicates of the query of [newapp.py] keep: clean
    but for the distance, which may be NaN. *)
Definition clean_for_the_engine (t : TripCols) : Prop :=
  ∃ pickup dropoff distance fare,
    tpep_pickup_datetime t = Some pickup
    ∧ tpep_dropoff_datetime t = Some dropoff
    ∧ trip_distance t = Some distance
    ∧ fare_amount t = Some (Num fare)
    ∧ above_zero distance ∧ (0 < fare)%Q ∧ (fare <= 500)%Q
    ∧ pickup < dropoff.

(** ** A sample run *)

Module SampleRun.

(** The session after one call for January, all hours, credit card, JFK. *)
Definition args : NewApp.Args := Sample.args ["Credit Card"] ["JFK Airport"].

Definition session : NewApp.Session :=
  (NewApp.get_filtered_df Sample.remote args NewApp.fresh).2.

(** The query that call sends. *)
Definition query : NewApp.TripQuery :=
  {| NewApp.q_start := Sample.january.1; NewApp.q_end := Sample.january.2;
     NewApp.q_hour_min := 0; NewApp.q_hour_max := 23;
     NewApp.q_payment_codes := [1];
     NewApp.q_zone_filter := Some [132] |}.

(** The row it returns. *)
Definition jfk_row : NewApp.DerivedRow :=
  NewApp.derive_row Sample.jfk_trip (Some (Zones.mk (Some 132) (Some "JFK Airport"))).

End SampleRun.

(** * Properties *)

(** ** Three-valued logic and comparisons *)

Section Logic.

Lemma and3_true a b : SQL.and3 a b = Some true ↔ a = Some true ∧ b = Some true.
Proof. destruct a as [[]|], b as [[]|]; simpl; naive_solver. Qed.

Lemma selected_true w : SQL.selected w = true ↔ w = Some true.
Proof. destruct w as [[]|]; simpl; naive_solver. Qed.

Lemma Qltb_lt x y : Qltb x y = true ↔ (x < y)%Q.
Proof.
  unfold Qltb. rewrite negb_true_iff, <- not_true_iff_false, Qle_bool_iff.
  split; [apply Qnot_le_lt | apply Qlt_not_le].
Qed.

Lemma sql_cmp_true {A} (f : A → A → bool) a b :
  SQL.cmp f a b = Some true ↔ ∃ x y, a = Some x ∧ b = Some y ∧ f x y = true.
Proof.
  destruct a as [x|], b as [y|]; simpl; try naive_solver.
  split; [intros [= ?]; eauto | intros (? & ? & [= <-] & [= <-] & ->); done].
Qed.

Lemma sql_in_list_true e vs :
  SQL.in_list e vs = Some true ↔ ∃ x, e = Some x ∧ x ∈ vs.
Proof.
  destruct e; simpl; [|naive_solver].
  split.
  - intros [= ?%bool_decide_eq_true]. eauto.
  - intros (x & [= ->] & ?). by rewrite bool_decide_eq_true_2.
Qed.

Lemma pandas_cmp_true {A} (f : A → A → bool) a b :
  Pandas.cmp f a b = true ↔ ∃ x y, a = Some x ∧ b = Some y ∧ f x y = true.
Proof. destruct a, b; simpl; naive_solver. Qed.

Lemma pandas_isin_true {A} `{EqDecision A} (a : option A) vs :
  Pandas.isin a vs = true ↔ ∃ x, a = Some x ∧ x ∈ vs.
Proof.
  destruct a; simpl; [|naive_solver].
  rewrite bool_decide_eq_true. naive_solver.
Qed.

Lemma pandas_number_Some cell q : Pandas.number cell = Some q ↔ cell = Some (Num q).
Proof. destruct cell as [[|q']|]; simpl; naive_solver. Qed.

Lemma double_gt_zero x : SQL.double_gt x (Num 0) = true ↔ above_zero x.
Proof. destruct x as [|q]; simpl; [done|apply Qltb_lt]. Qed.

Lemma double_le_Num x b :
  SQL.double_le x (Num b) = true ↔ ∃ q, x = Num q ∧ (q <= b)%Q.
Proof.
  unfold SQL.double_le. destruct x as [|q]; simpl; [naive_solver|].
  rewrite negb_true_iff, <- not_true_iff_false, Qltb_lt. split.
  - intros Hn. exists q. split; [done|]. by apply Qnot_lt_le.
  - intros (? & [= <-] & Hle). by apply Qle_not_lt.
Qed.

End Logic.

Section Retrieval.
Import NewApp.

Lemma resolve_zones_nil zones_df : resolve_zones zones_df [] = [].
Proof.
  unfold resolve_zones.
  induction zones_df as [|z zones_df IH]; [done|].
  rewrite filter_cons_False; [done|].
  intros [x [_ Hx]]%pandas_isin_true. by apply not_elem_of_nil in Hx.
Qed.

Lemma zone_filter_sql_Some zones_df names ids :
  zone_filter_sql zones_df names = Some ids ↔
  ids = resolve_zones zones_df names ∧ ids ≠ [].
Proof.
  unfold zone_filter_sql. repeat case_bool_decide; try naive_solver.
  subst names. rewrite resolve_zones_nil. naive_solver.
Qed.

Lemma zone_filter_sql_None zones_df names :
  zone_filter_sql zones_df names = None ↔ resolve_zones zones_df names = [].
Proof.
  unfold zone_filter_sql. repeat case_bool_decide; try naive_solver.
  subst. by rewrite resolve_zones_nil.
Qed.

(** The WHERE clause is TRUE on a row exactly when the predicates hold as the
    engine evaluates them. *)
Lemma where_clause_selects start_ end_ lo hi codes zones_df names t :
  SQL.selected
    (where_clause
       {| q_start := start_; q_end := end_; q_hour_min := lo; q_hour_max := hi;
          q_payment_codes := codes;
          q_zone_filter := zone_filter_sql zones_df names |} t) = true
  ↔ selects start_ end_ lo hi codes (resolve_zones zones_df names) t.
Proof.
  rewrite selected_true. unfold where_clause, selects; simpl.
  rewrite !and3_true. unfold SQL.geZ, SQL.ltZ, SQL.gtZ, SQL.gtF, SQL.leF, SQL.between.
  rewrite and3_true, !sql_cmp_true, sql_in_list_true.
  unfold SQL.extract_hour.
  split.
  - intros ((p & ? & Hp & [= <-] & Hge) & (? & ? & Hp' & [= <-] & Hlt)
            & ((h & ? & Hh & [= <-] & Hlo) & (? & ? & Hh' & [= <-] & Hhi))
            & (c & Hc & Hin) & (d & ? & Hd & [= <-] & Hd0)
            & (f & ? & Hf & [= <-] & Hf0) & (? & ? & Hf' & [= <-] & Hf500)
            & (dr & ? & Hdr & Hp'' & Hgt) & Hz).
    simplify_eq. rewrite Hp in *. simplify_eq/=.
    apply double_le_Num in Hf500 as (fare & -> & Hf500).
    apply double_gt_zero in Hd0. apply double_gt_zero in Hf0.
    exists p, dr, d, fare, c. repeat split; try done; try lia.
    intros Hne. unfold zone_clause in Hz.
    destruct (zone_filter_sql zones_df names) as [ids|] eqn:Hzf.
    + apply zone_filter_sql_Some in Hzf as [-> _].
      by apply sql_in_list_true in Hz.
    + by apply zone_filter_sql_None in Hzf.
  - intros (p & dr & d & f & c & Hp & Hdr & Hd & Hf & Hc & [??] & [??] & Hin
            & Hd0 & Hf0 & Hf500 & Hlt & Hz).
    rewrite Hp, Hdr, Hd, Hf, Hc; simpl.
    split_and!.
    1-4, 9: by eexists _, _; split_and!; [done..|lia].
    1: by eauto.
    1-2: by eexists _, _; split_and!; [done..|apply double_gt_zero].
    1: by eexists _, _; split_and!; [done..|apply double_le_Num; eauto].
    unfold zone_clause.
    destruct (zone_filter_sql zones_df names) as [ids|] eqn:Hzf; [|done].
    apply zone_filter_sql_Some in Hzf as [-> Hne].
    apply sql_in_list_true. auto.
Qed.

(** The predicates in the words of the specification are those of the engine
    on a row whose distance is not NaN. *)
Lemma satisfies_selects start_ end_ lo hi codes ids t :
  satisfies start_ end_ lo hi codes ids t
  ↔ selects start_ end_ lo hi codes ids t ∧ trip_distance t ≠ Some NaN.
Proof.
  unfold satisfies, selects. split.
  - intros (p & dr & d & f & c & Hp & Hdr & Hd & Hrest). split.
    + exists p, dr, (Num d), f, c. simpl. tauto.
    + by rewrite Hd.
  - intros [(p & dr & d & f & c & Hp & Hdr & Hd & Hrest) Hnan].
    destruct d as [|miles]; [done|].
    exists p, dr, miles, f, c. simpl in Hrest. tauto.
Qed.

End Retrieval.

(** ** The positions a filter keeps *)

Section FilterIndices.
Context {A : Type} (P : A → Prop) `{!∀ x, Decision (P x)}.

(** The rows a filter keeps are the rows at the positions where the predicate
    holds, each position taken once. *)
Lemma filter_positions (l : list A) :
  ∃ idxs : list nat,
    NoDup idxs
    ∧ (∀ i, i ∈ idxs ↔ ∃ x, l !! i = Some x ∧ P x)
    ∧ filter P l = omap (λ i, l !! i) idxs.
Proof.
  induction l as [|x l (idxs & Hnd & Hin & Heq)].
  { exists []. split_and!; [constructor| |done].
    intros i. rewrite elem_of_nil. naive_solver. }
  assert (Hshift : omap (λ i, (x :: l) !! i) (S <$> idxs) = omap (λ i, l !! i) idxs).
  { clear. induction idxs as [|i idxs IH]; [done|]. csimpl. by rewrite IH. }
  assert (HndS : NoDup (S <$> idxs)) by by apply (NoDup_fmap_2 S).
  assert (HinS : ∀ i, i ∈ S <$> idxs ↔ ∃ j y, i = S j ∧ l !! j = Some y ∧ P y).
  { intros i. rewrite list_elem_of_fmap. setoid_rewrite Hin. naive_solver. }
  destruct (decide (P x)) as [HP|HP].
  - exists (0%nat :: (S <$> idxs)). split_and!.
    + constructor; [|done]. rewrite HinS. naive_solver.
    + intros [|i]; rewrite elem_of_cons, HinS; simpl; [naive_solver|].
      split; [intros [?|(j & y & [= <-] & ? & ?)]; [done|eauto] |].
      intros (y & ? & ?). right. eauto.
    + rewrite filter_cons_True, Heq, <- Hshift by done. done.
  - exists (S <$> idxs). split_and!; [done| |].
    + intros [|i]; rewrite HinS; simpl; [naive_solver|].
      split; [intros (j & y & [= <-] & ? & ?); eauto | intros (y & ? & ?); eauto].
    + rewrite filter_cons_False, Heq, <- Hshift by done. done.
Qed.

End FilterIndices.


(** ** The session *)

Section Session.
Import NewApp.
Context (remote : Remote).

Lemma load_zones_ok σ :
  cache_ok remote σ →
  (load_zones remote σ).1 = ZONE_URL remote
  ∧ cache_ok remote (load_zones remote σ).2
  ∧ filtered_memo (load_zones remote σ).2 = filtered_memo σ
  ∧ trip_queries (remote_log (load_zones remote σ).2) = trip_queries (remote_log σ).
Proof.
  intros [[Hz|Hz] Hm]; unfold load_zones; rewrite Hz; simpl.
  - split_and!; [done| |done|].
    + split; [by right|done].
    + unfold trip_queries. by rewrite filter_app, app_nil_r.
  - split_and!; [done| |done..]. split; [by right|done].
Qed.

Lemma body_result args σ :
  cache_ok remote σ →
  (get_filtered_df_body remote args σ).1 = result_of remote args
  ∧ cache_ok remote (get_filtered_df_body remote args σ).2.
Proof.
  intros Hok. destruct (load_zones_ok σ Hok) as (Hz & Hok' & Hm & _).
  destruct args as [[[[[s e] lo] hi] labels] names].
  unfold get_filtered_df_body, result_of, mbind, M_bind, bind.
  destruct (load_zones remote σ) as [zones_df σ1]; simpl in *. subst zones_df.
  case_bool_decide; [done|]. simpl. split; [done|].
  destruct Hok' as [??]. split; done.
Qed.

Lemma get_filtered_df_ok args σ :
  cache_ok remote σ →
  (get_filtered_df remote args σ).1 = result_of remote args
  ∧ cache_ok remote (get_filtered_df remote args σ).2.
Proof.
  intros Hok. unfold get_filtered_df.
  destruct (filtered_memo σ !! args) as [df|] eqn:Hhit; simpl.
  - split; [|done]. by apply Hok.
  - destruct (body_result args σ Hok) as [Hr [Hz Hm]].
    destruct (get_filtered_df_body remote args σ) as [df σ1]; simpl in *.
    split; [done|]. split; [done|]. simpl.
    intros a df' [[<- <-]|[_ ?]]%lookup_insert_Some; [done|by apply Hm].
Qed.

Lemma fresh_ok : cache_ok remote fresh.
Proof. split; [by left|]. intros a df. simpl. by rewrite lookup_empty. Qed.

Lemma reachable_ok σ : reachable remote σ → cache_ok remote σ.
Proof.
  induction 1 as [|σ _ IH|σ args _ IH].
  - apply fresh_ok.
  - by apply load_zones_ok.
  - by apply get_filtered_df_ok.
Qed.

End Session.

(** ** C1: a trip whose distance is NaN *)

Section C1.
Import NewApp.

(** C1 at a trip file whose one trip has a NaN distance and otherwise meets
    every predicate of the January selection with hours 0 to 23 and payment
    "Credit Card": the engine finds NaN above 0, so the query returns the
    trip and the frame of [get_filtered_df] holds it, although its distance is
    not above 0 and the predicates of the specification fail on it;
    [load_data] of [app.py], which compares in pandas, drops it. *)
Theorem C1_nan_distance_is_returned :
  let sql := {| q_start := Sample.january.1; q_end := Sample.january.2;
                q_hour_min := 0; q_hour_max := 23;
                q_payment_codes := payment_codes_of ["Credit Card"];
                q_zone_filter := zone_filter_sql Sample.zones [] |} in
  payment_codes_of ["Credit Card"] ≠ []
  ∧ SQL.gtF (trip_distance Sample.nan_distance_trip) (Some (Num 0)) = Some true
  ∧ run_query Sample.remote_nan_distance sql = [Sample.nan_distance_trip]
  ∧ raw <$> rows (get_filtered_df Sample.remote_nan_distance
                    (Sample.args ["Credit Card"] []) fresh).1
    = [Sample.nan_distance_trip]
  ∧ trip_distance Sample.nan_distance_trip = Some NaN
  ∧ ¬ satisfies Sample.january.1 Sample.january.2 0 23
        (payment_codes_of ["Credit Card"]) (resolve_zones Sample.zones [])
        Sample.nan_distance_trip
  ∧ App.load_data Sample.remote_nan_distance = [].
Proof.
  split_and!.
  - vm_compute. discriminate.
  - reflexivity.
  - vm_compute. reflexivity.
  - vm_compute. reflexivity.
  - reflexivity.
  - intros (p & d & dist & fare & c & _ & _ & Hdist & _). discriminate Hdist.
  - vm_compute. reflexivity.
Qed.

End C1.

(** ** C3, C4: empty payment selection, unresolvable zone names *)

Section ShortCircuit.
Import NewApp.
Context (remote : Remote).

Lemma zone_filter_sql_alt zones_df names :
  zone_filter_sql zones_df names =
    if bool_decide (resolve_zones zones_df names = []) then None
    else Some (resolve_zones zones_df names).
Proof.
  unfold zone_filter_sql. case_bool_decide as Hn; [|done].
  subst. by rewrite resolve_zones_nil.
Qed.

Lemma payment_codes_of_nil : payment_codes_of [] = [].
Proof. reflexivity. Qed.

(** C3. When the selected payment labels translate to no code (for instance
    when none is selected), the body of [get_filtered_df] does nothing beyond
    [load_zones()] and returns [pd.DataFrame()]; the cached function, in
    any session the script can be in, returns that empty frame and leaves
    the trip queries of the log as they were. *)
Theorem C3_empty_payment_selection_short_circuits
    (σ : Session) (start_datetime end_datetime hour_min hour_max : Z)
    (payment_labels selected_zone_names : list string) :
  reachable remote σ →
  payment_codes_of payment_labels = [] →
  let args := (start_datetime, end_datetime, hour_min, hour_max,
               payment_labels, selected_zone_names) in
  get_filtered_df_body remote args σ = (pd_DataFrame, (load_zones remote σ).2)
  ∧ (get_filtered_df remote args σ).1 = pd_DataFrame
  ∧ rows (get_filtered_df remote args σ).1 = []
  ∧ trip_queries (remote_log (get_filtered_df remote args σ).2)
    = trip_queries (remote_log σ).
Proof.
  intros Hok%reachable_ok Hcodes args.
  assert (Hbody : get_filtered_df_body remote args σ
                  = (pd_DataFrame, (load_zones remote σ).2)).
  { unfold args, get_filtered_df_body, mbind, M_bind, bind.
    destruct (load_zones remote σ) as [zones_df σ1]; simpl.
    by rewrite bool_decide_eq_true_2. }
  destruct (get_filtered_df_ok remote args σ Hok) as [Hres _].
  assert (Hr : result_of remote args = pd_DataFrame).
  { unfold args, result_of. by rewrite bool_decide_eq_true_2. }
  split_and!; [done|by rewrite Hres, Hr|by rewrite Hres, Hr|].
  unfold get_filtered_df.
  case_match; [reflexivity|].
  rewrite Hbody; simpl. by apply load_zones_ok.
Qed.

(** C4. When zone names are selected and none of them resolves to a location
    id, [get_filtered_df] runs the very query it runs with no zone selected,
    and returns the same frame. *)
Theorem C4_unresolved_zones_mean_all_zones
    (σ σ' : Session) (start_datetime end_datetime hour_min hour_max : Z)
    (payment_labels selected_zone_names : list string) :
  reachable remote σ → reachable remote σ' →
  selected_zone_names ≠ [] →
  resolve_zones (ZONE_URL remote) selected_zone_names = [] →
  get_filtered_df_body remote
      (start_datetime, end_datetime, hour_min, hour_max,
       payment_labels, selected_zone_names) σ
    = get_filtered_df_body remote
        (start_datetime, end_datetime, hour_min, hour_max, payment_labels, []) σ
  ∧ (get_filtered_df remote
       (start_datetime, end_datetime, hour_min, hour_max,
        payment_labels, selected_zone_names) σ).1
    = (get_filtered_df remote
         (start_datetime, end_datetime, hour_min, hour_max, payment_labels, []) σ').1.
Proof.
  intros Hok%reachable_ok Hok'%reachable_ok _ Hres. split.
  - destruct (load_zones_ok remote σ Hok) as (Hz & _).
    unfold get_filtered_df_body, mbind, M_bind, bind.
    destruct (load_zones remote σ) as [zones_df σ1]; simpl in *. subst zones_df.
    by rewrite !zone_filter_sql_alt, Hres, resolve_zones_nil.
  - destruct (get_filtered_df_ok remote
                (start_datetime, end_datetime, hour_min, hour_max,
                 payment_labels, selected_zone_names) σ Hok) as [-> _].
    destruct (get_filtered_df_ok remote
                (start_datetime, end_datetime, hour_min, hour_max,
                 payment_labels, []) σ' Hok') as [-> _].
    unfold result_of.
    by rewrite !zone_filter_sql_alt, Hres, resolve_zones_nil.
Qed.

End ShortCircuit.

(** ** C5: the result cache *)

Section Cache.
Import NewApp.
Context (remote : Remote).

Lemma payment_codes_same labels1 labels2 :
  (∀ x, x ∈ labels1 ↔ x ∈ labels2) →
  ∀ c, c ∈ payment_codes_of labels1 ↔ c ∈ payment_codes_of labels2.
Proof.
  intros Hl c. unfold payment_codes_of. rewrite !list_elem_of_omap.
  by setoid_rewrite Hl.
Qed.

Lemma same_elements_nil {A} (l1 l2 : list A) :
  (∀ x, x ∈ l1 ↔ x ∈ l2) → l1 = [] ↔ l2 = [].
Proof.
  intros H. split; intros ->.
  - destruct l2 as [|x l2]; [done|]. exfalso.
    eapply not_elem_of_nil, H. by left.
  - destruct l1 as [|x l1]; [done|]. exfalso.
    eapply not_elem_of_nil, H. by left.
Qed.

Lemma resolve_zones_same zones_df names1 names2 :
  (∀ x, x ∈ names1 ↔ x ∈ names2) →
  resolve_zones zones_df names1 = resolve_zones zones_df names2.
Proof.
  intros Hn. unfold resolve_zones. do 2 f_equal.
  apply list_filter_iff. intros z.
  rewrite !pandas_isin_true. by setoid_rewrite Hn.
Qed.

Lemma selects_same_codes s e lo hi codes1 codes2 ids t :
  (∀ c, c ∈ codes1 ↔ c ∈ codes2) →
  selects s e lo hi codes1 ids t ↔ selects s e lo hi codes2 ids t.
Proof. intros Hc. unfold selects. by setoid_rewrite Hc. Qed.

Lemma result_of_same a b : same_spec a b → result_of remote a = result_of remote b.
Proof.
  destruct a as [[[[[s1 e1] lo1] hi1] labels1] names1].
  destruct b as [[[[[s2 e2] lo2] hi2] labels2] names2].
  intros (<- & <- & <- & <- & Hl & Hn). unfold result_of.
  pose proof (payment_codes_same _ _ Hl) as Hc.
  pose proof (same_elements_nil _ _ Hc) as Hnil.
  repeat case_bool_decide; try done; try tauto.
  f_equal. unfold run_query. f_equal.
  apply list_filter_iff. intros t.
  rewrite !where_clause_selects.
  rewrite (resolve_zones_same _ _ _ Hn). by apply selects_same_codes.
Qed.

Lemma get_filtered_df_memo args σ :
  filtered_memo (get_filtered_df remote args σ).2 !! args
  = Some (get_filtered_df remote args σ).1.
Proof.
  unfold get_filtered_df.
  destruct (filtered_memo σ !! args) as [df|] eqn:Hhit; [done|].
  destruct (get_filtered_df_body remote args σ) as [df σ1]; simpl.
  by rewrite lookup_insert_eq.
Qed.

Lemma get_filtered_df_hit args σ df :
  filtered_memo σ !! args = Some df → get_filtered_df remote args σ = (df, σ).
Proof. intros Hhit. unfold get_filtered_df. by rewrite Hhit. Qed.

(** C5, as the code has it. In any session the script can be in, calling
    the cached [get_filtered_df] with two argument tuples that agree on the
    dates and hours and whose label and zone lists hold the same elements
    returns equal frames; when the two tuples are equal, lists element by
    element in the same order, the second call reaches no remote source. *)
Theorem C5_cached_call_with_equal_arguments (σ : Session) (a b : Args) :
  reachable remote σ →
  same_spec a b →
  (get_filtered_df remote a σ).1
    = (get_filtered_df remote b (get_filtered_df remote a σ).2).1
  ∧ (a = b →
     remote_log (get_filtered_df remote b (get_filtered_df remote a σ).2).2
     = remote_log (get_filtered_df remote a σ).2).
Proof.
  intros Hok%reachable_ok Hsame.
  destruct (get_filtered_df_ok remote a σ Hok) as [Ha Hok1].
  destruct (get_filtered_df_ok remote b _ Hok1) as [Hb _].
  split.
  - rewrite Ha, Hb. by apply result_of_same.
  - intros <-.
    by rewrite (get_filtered_df_hit a _ _ (get_filtered_df_memo a σ)).
Qed.

End Cache.

(** ** C2, C7, C8: the derivation stage *)

Section Derivation.
Import NewApp.

Lemma elem_of_merge_left {L R K} `{EqDecision K}
    (left_on : L → K) (right_on : R → K) (left : list L) (right : list R) l r :
  l ∈ left → r ∈ right → left_on l = right_on r →
  (l, Some r) ∈ Pandas.merge_left left_on right_on left right.
Proof.
  intros Hl Hr Hk. unfold Pandas.merge_left.
  apply list_elem_of_bind. exists l. split; [|done].
  assert (Hin : r ∈ filter (λ r, left_on l = right_on r) right)
    by by apply list_elem_of_filter.
  destruct (filter _ right) as [|m ms]; [by apply not_elem_of_nil in Hin|].
  apply list_elem_of_fmap. eauto.
Qed.

Lemma merge_left_matches {L R K} `{EqDecision K}
    (left_on : L → K) (right_on : R → K) (left : list L) (right : list R) l z :
  (l, z) ∈ Pandas.merge_left left_on right_on left right →
  l ∈ left
  ∧ match z with
    | Some r => r ∈ right ∧ left_on l = right_on r
    | None => ∀ r, r ∈ right → left_on l ≠ right_on r
    end.
Proof.
  unfold Pandas.merge_left. intros (l' & Hin & Hl)%list_elem_of_bind.
  destruct (filter _ right) as [|m ms] eqn:Hf.
  - apply list_elem_of_singleton in Hin as [= -> ->]. split; [done|].
    intros r Hr Hk. eapply (filter_nil_not_elem_of _ _ _ Hf); [exact Hk|done].
  - apply list_elem_of_fmap in Hin as (r & [= -> ->] & Hr). split; [done|].
    rewrite <- Hf in Hr. by apply list_elem_of_filter in Hr as [? ?].
Qed.

Lemma filter_key_length {R K} `{EqDecision K} (right_on : R → K) (right : list R) k :
  NoDup (right_on <$> right) →
  (length (filter (λ r, k = right_on r) right) ≤ 1)%nat.
Proof.
  induction right as [|r right IH]; [simpl; lia|].
  rewrite fmap_cons, NoDup_cons. intros [Hr Hnd].
  destruct (decide (k = right_on r)) as [->|Hne].
  - rewrite filter_cons_True by done. simpl.
    replace (filter _ right) with (@nil R); [simpl; lia|].
    symmetry. destruct (filter _ right) as [|r' ?] eqn:Hf; [done|].
    exfalso. apply Hr.
    assert (Hin : r' ∈ filter (λ r0, right_on r = right_on r0) right)
      by (rewrite Hf; by left).
    apply list_elem_of_filter in Hin as [-> ?].
    by apply list_elem_of_fmap_2.
  - rewrite filter_cons_False by done. auto.
Qed.

Lemma merge_left_length_ge {L R K} `{EqDecision K}
    (left_on : L → K) (right_on : R → K) (left : list L) (right : list R) :
  (length left ≤ length (Pandas.merge_left left_on right_on left right))%nat.
Proof.
  unfold Pandas.merge_left.
  induction left as [|l left IH]; [done|].
  rewrite bind_cons, length_app.
  match goal with
  | |- context [length (left ≫= ?f)] => set (n := length (left ≫= f)) in *
  end.
  destruct (filter _ right); simpl; lia.
Qed.

Lemma merge_left_length {L R K} `{EqDecision K}
    (left_on : L → K) (right_on : R → K) (left : list L) (right : list R) :
  NoDup (right_on <$> right) →
  length (Pandas.merge_left left_on right_on left right) = length left.
Proof.
  intros Hnd. unfold Pandas.merge_left.
  induction left as [|l left IH]; [done|].
  rewrite bind_cons, length_app, IH.
  pose proof (filter_key_length right_on right (left_on l) Hnd) as Hlen.
  destruct (filter _ right) as [|m [|m' ms]]; simpl in *; [done..|lia].
Qed.

(** C2. The derivation stage never drops a row and maps no rows to no rows;
    when the location id is a unique key of the zone table, that is when no
    entry of its [LocationID] column, the missing entry included, occurs
    twice, its output has exactly as many rows as its input. *)
Theorem C2_derive_keeps_row_count (df : list TripCols) (zones_df : list Zones.Row) :
  (length df ≤ length (rows (derive df zones_df)))%nat
  ∧ rows (derive [] zones_df) = []
  ∧ (NoDup (Zones.LocationID <$> zones_df) →
     length (rows (derive df zones_df)) = length df).
Proof.
  unfold derive; simpl. rewrite !length_fmap. split_and!.
  - apply merge_left_length_ge.
  - done.
  - apply merge_left_length.
Qed.

Lemma PAYMENT_MAP_lookup (c : Z) :
  PAYMENT_MAP !! c =
    if bool_decide (c = 1) then Some "Credit Card"
    else if bool_decide (c = 2) then Some "Cash"
    else if bool_decide (c = 3) then Some "No Charge"
    else if bool_decide (c = 4) then Some "Dispute"
    else if bool_decide (c = 5) then Some "Unknown"
    else if bool_decide (c = 6) then Some "Voided Trip"
    else None.
Proof.
  unfold PAYMENT_MAP. rewrite !list_to_map_cons, list_to_map_nil. simpl.
  repeat (rewrite lookup_insert; case_decide;
          [subst c; reflexivity|rewrite (bool_decide_eq_false_2 _) by congruence]).
  apply lookup_empty.
Qed.

(** C7. The payment label is a function of the payment code: codes 1 to 6 get
    their label, every other code and the missing code get "Other/Missing";
    every row of the derived frame carries the label of its code. *)
Theorem C7_payment_label_total (code : option Z) (df : list TripCols)
    (zones_df : list Zones.Row) :
  label_of_code code =
    match code with
    | Some 1 => "Credit Card"
    | Some 2 => "Cash"
    | Some 3 => "No Charge"
    | Some 4 => "Dispute"
    | Some 5 => "Unknown"
    | Some 6 => "Voided Trip"
    | _ => "Other/Missing"
    end
  ∧ Forall (λ r, payment_label r = label_of_code (payment_type (raw r)))
      (rows (derive df zones_df)).
Proof.
  split.
  - destruct code as [c|]; [|reflexivity].
    unfold label_of_code; simpl. rewrite PAYMENT_MAP_lookup.
    repeat (case_bool_decide; [subst c; reflexivity|]).
    destruct c as [|p|p]; try reflexivity.
    destruct p as [[[p|p|]|[p|p|]|]|[[p|p|]|[p|p|]|]|]; try reflexivity; congruence.
  - unfold derive; simpl. apply Forall_fmap, Forall_forall. by intros [t z] _.
Qed.

End Derivation.

(** ** C6, C8: what the returned frame holds *)

Section Result.
Import NewApp.

Lemma LABEL_TO_CODE_lookup (l : string) (c : Z) :
  LABEL_TO_CODE !! l = Some c ↔ PAYMENT_MAP !! c = Some l.
Proof.
  unfold LABEL_TO_CODE. rewrite <- elem_of_list_to_map.
  - rewrite list_elem_of_fmap. split.
    + intros ([c' l'] & [= -> ->] & Hin). by apply elem_of_map_to_list.
    + intros Hin. exists (c, l). split; [done|]. by apply elem_of_map_to_list.
  - apply (bool_decide_unpack _). vm_compute. exact I.
Qed.

Lemma payment_codes_known labels c :
  c ∈ payment_codes_of labels → 1 ≤ c ≤ 6 ∧ label_of_code (Some c) ∈ labels.
Proof.
  unfold payment_codes_of. intros (l & Hl & Hc)%list_elem_of_omap.
  apply LABEL_TO_CODE_lookup in Hc. unfold label_of_code; simpl. rewrite Hc; simpl.
  split; [|done]. rewrite PAYMENT_MAP_lookup in Hc.
  repeat (case_bool_decide; [lia|]). done.
Qed.

Lemma dt_hour_range t : 0 ≤ dt_hour t ≤ 23.
Proof. unfold dt_hour. pose proof (Z.mod_pos_bound (t `div` US_PER_HOUR) 24). lia. Qed.

Lemma dt_weekday_range t : 0 ≤ dt_weekday t ≤ 6.
Proof. unfold dt_weekday. pose proof (Z.mod_pos_bound (dt_date t + 3) 7). lia. Qed.

(** The ordered categorical gives a pickup on weekday [k] the code [k]. *)
Lemma day_code t :
  Pandas.Categorical day_order (Some (dt_day_name t)) = Some (Z.to_nat (dt_weekday t))
  ∧ day_order !! Z.to_nat (dt_weekday t) = Some (dt_day_name t).
Proof.
  unfold dt_day_name. pose proof (dt_weekday_range t) as Hr.
  assert (Hk : (Z.to_nat (dt_weekday t) < 7)%nat) by lia.
  destruct (Z.to_nat (dt_weekday t)) as [|[|[|[|[|[|[|k]]]]]]];
    [split; reflexivity..|lia].
Qed.

Lemma result_row_inv (remote : Remote) (start_ end_ lo hi : Z)
    (labels names : list string) (r : DerivedRow) :
  payment_codes_of labels ≠ [] →
  r ∈ rows (result_of remote (start_, end_, lo, hi, labels, names)) →
  ∃ t z,
    r = derive_row t z
    ∧ selects start_ end_ lo hi (payment_codes_of labels)
        (resolve_zones (ZONE_URL remote) names) t
    ∧ match z with
      | Some zr => zr ∈ ZONE_URL remote ∧ PULocationID t = Zones.LocationID zr
      | None => ∀ zr, zr ∈ ZONE_URL remote → PULocationID t ≠ Zones.LocationID zr
      end.
Proof.
  intros Hcodes. unfold result_of. rewrite bool_decide_eq_false_2 by done.
  unfold derive; simpl.
  intros ([t z] & -> & Hin)%list_elem_of_fmap. simpl.
  apply merge_left_matches in Hin as [Ht Hz].
  exists t, z. split_and!; [done| |done].
  unfold run_query in Ht.
  apply list_elem_of_fmap in Ht as (trip & -> & [Hw _]%list_elem_of_filter).
  by apply where_clause_selects in Hw.
Qed.

Lemma result_rows_nil (remote : Remote) (start_ end_ lo hi : Z) (labels names : list string) :
  payment_codes_of labels = [] →
  rows (result_of remote (start_, end_, lo, hi, labels, names)) = [].
Proof. intros Hc. unfold result_of. by rewrite bool_decide_eq_true_2. Qed.

(** A row of the result comes from a trip that passed the query. *)
Lemma result_row_inv' (remote : Remote) (start_ end_ lo hi : Z) (labels names : list string) r :
  r ∈ rows (result_of remote (start_, end_, lo, hi, labels, names)) →
  ∃ t z,
    r = derive_row t z
    ∧ selects start_ end_ lo hi (payment_codes_of labels)
        (resolve_zones (ZONE_URL remote) names) t
    ∧ match z with
      | Some zr => zr ∈ ZONE_URL remote ∧ PULocationID t = Zones.LocationID zr
      | None => ∀ zr, zr ∈ ZONE_URL remote → PULocationID t ≠ Zones.LocationID zr
      end.
Proof.
  destruct (decide (payment_codes_of labels = [])) as [Hc|Hc].
  - rewrite result_rows_nil by done. by intros ?%not_elem_of_nil.
  - by apply result_row_inv.
Qed.

(** C6, as the code has it. When the selected labels translate to at least
    one code, the returned frame has the columns the consumers read, among
    them [pickup_hour], [pickup_day_of_week], [pickup_zone] and
    [payment_label], and in each of its rows the hour is an integer from 0 to
    23, the weekday is one of the seven categories and the label is one of the
    selected labels. When they translate to no code the frame is
    [pd.DataFrame()]: it has no columns at all, and [.empty] says so. *)
Theorem C6_columns_of_the_result (remote : Remote) (σ : Session)
    (start_datetime end_datetime hour_min hour_max : Z)
    (payment_labels selected_zone_names : list string) :
  reachable remote σ →
  let df := (get_filtered_df remote
               (start_datetime, end_datetime, hour_min, hour_max,
                payment_labels, selected_zone_names) σ).1 in
  if bool_decide (payment_codes_of payment_labels = [])
  then columns df = [] ∧ empty df = true
  else
    columns df = derived_columns
    ∧ Forall (λ c, c ∈ columns df) consumer_columns
    ∧ Forall (λ r,
        (∃ h, pickup_hour r = Some h ∧ 0 ≤ h ≤ 23)
        ∧ (∃ k name, pickup_day_of_week r = Some k ∧ day_order !! k = Some name)
        ∧ payment_label r ∈ payment_labels) (rows df).
Proof.
  intros Hok%reachable_ok df. unfold df.
  destruct (get_filtered_df_ok remote
              (start_datetime, end_datetime, hour_min, hour_max,
               payment_labels, selected_zone_names) σ Hok) as [-> _].
  case_bool_decide as Hcodes.
  - unfold result_of. by rewrite bool_decide_eq_true_2.
  - split_and!.
    + unfold result_of. by rewrite bool_decide_eq_false_2.
    + unfold result_of. rewrite bool_decide_eq_false_2 by done.
      apply (bool_decide_unpack _). vm_compute. exact I.
    + apply Forall_forall. intros r Hr.
      apply result_row_inv in Hr as (t & z & -> & Hsat & _); [|done]. simpl.
      destruct Hsat as (p & d & dist & fare & c & Hp & _ & _ & _ & Hc & _ & _ & Hin & _).
      rewrite Hp, Hc; simpl. split_and!.
      * eexists. split; [done|]. apply dt_hour_range.
      * destruct (day_code p) as [Hcode Hname]. eauto.
      * by apply payment_codes_known.
Qed.

(** C6 as stated fails for the empty payment selection: the frame returned
    then has none of the four columns. *)
Lemma C6_counterexample :
  let df := (get_filtered_df Sample.remote (Sample.args [] []) fresh).1 in
  (("pickup_hour" ∉ columns df) ∧ ("pickup_day_of_week" ∉ columns df)
   ∧ ("pickup_zone" ∉ columns df) ∧ ("payment_label" ∉ columns df)).
Proof. vm_compute. split_and!; apply not_elem_of_nil. Qed.

(** C8. A trip picked up on 2024-01-05 at 05:10 and dropped off at 05:40, 12.0
    miles, fare 45.00, payment code 1, pickup location 132, in a trip file
    whose zone table names location 132 "JFK Airport": for a date window that
    holds the pickup, hours 0 to 23, payment selection "Credit Card" and no
    zone selection, the frame returned holds a row for that trip with a
    duration of 30 minutes, pickup hour 5, weekday Friday, zone
    "JFK Airport" and label "Credit Card". *)
Theorem C8_jfk_scenario (remote : Remote) (σ : Session) (t : TripCols)
    (passengers : option Q) (start_datetime end_datetime : Z) :
  reachable remote σ →
  tpep_pickup_datetime t = Some (Timestamp 2024 1 5 5 10) →
  tpep_dropoff_datetime t = Some (Timestamp 2024 1 5 5 40) →
  trip_distance t = Some (Num 12) →
  fare_amount t = Some (Num 45) →
  payment_type t = Some 1 →
  PULocationID t = Some 132 →
  {| cols := t; passenger_count := passengers |} ∈ TRIP_URL remote →
  Zones.mk (Some 132) (Some "JFK Airport") ∈ ZONE_URL remote →
  start_datetime ≤ Timestamp 2024 1 5 5 10 < end_datetime →
  ∃ r,
    r ∈ rows (get_filtered_df remote
                (start_datetime, end_datetime, 0, 23, ["Credit Card"], []) σ).1
    ∧ raw r = t
    ∧ trip_duration_minutes r = Some 30%Q
    ∧ pickup_hour r = Some 5
    ∧ pickup_day_of_week r = Some 4%nat
    ∧ day_order !! 4%nat = Some "Friday"
    ∧ pickup_zone r = Some "JFK Airport"
    ∧ payment_label r = "Credit Card".
Proof.
  intros Hok%reachable_ok Hp Hd Hdist Hfare Hcode Hpu Ht Hz Hwin.
  destruct (get_filtered_df_ok remote
              (start_datetime, end_datetime, 0, 23, ["Credit Card"], []) σ Hok)
    as [-> _].
  exists (derive_row t (Some (Zones.mk (Some 132) (Some "JFK Airport")))).
  split.
  - unfold result_of.
    rewrite bool_decide_eq_false_2 by (vm_compute; discriminate).
    unfold derive; simpl.
    apply (list_elem_of_fmap_2' _ _ (t, Some (Zones.mk (Some 132) (Some "JFK Airport"))));
      [|done].
    apply elem_of_merge_left; [|done..].
    unfold run_query.
    apply (list_elem_of_fmap_2' _ _ {| cols := t; passenger_count := passengers |});
      [|done].
    apply list_elem_of_filter. split; [|done]. simpl.
    apply where_clause_selects. rewrite resolve_zones_nil.
    exists (Timestamp 2024 1 5 5 10), (Timestamp 2024 1 5 5 40), (Num 12), 45%Q, 1.
    destruct Hwin as [??].
    split_and!; try done; try (vm_compute; done).
    apply (bool_decide_unpack _). vm_compute. exact I.
  - unfold derive_row; simpl. rewrite Hp, Hd, Hcode. split_and!; reflexivity.
Qed.

End Result.

(** ** C9: the weekday is an ordered categorical *)

Section Weekday.
Import NewApp.

#[local] Instance lex_le_trans : Transitive lex_le.
Proof. intros [a1 a2] [b1 b2] [c1 c2]. unfold lex_le; simpl. lia. Qed.

#[local] Instance lex_le_antisymm : AntiSymm (=) lex_le.
Proof.
  intros [a1 a2] [b1 b2]. unfold lex_le; simpl. intros ??.
  f_equal; lia.
Qed.

#[local] Instance lex_le_total : Total lex_le.
Proof. intros [a1 a2] [b1 b2]. unfold lex_le; simpl. lia. Qed.

Lemma elem_of_unique {A} `{EqDecision A} (l : list A) x :
  x ∈ Pandas.unique l ↔ x ∈ l.
Proof.
  induction l as [|y l IH]; [done|]. simpl.
  rewrite !elem_of_cons, list_elem_of_filter, IH.
  destruct (decide (x = y)); naive_solver.
Qed.

Lemma NoDup_unique {A} `{EqDecision A} (l : list A) : NoDup (Pandas.unique l).
Proof.
  induction l as [|y l IH]; simpl; constructor.
  - rewrite list_elem_of_filter. naive_solver.
  - by apply NoDup_filter.
Qed.

Lemma unique_Permutation {A} `{EqDecision A} (l k : list A) :
  l ≡ₚ k → Pandas.unique l ≡ₚ Pandas.unique k.
Proof.
  intros Hp. apply NoDup_Permutation; [apply NoDup_unique..|].
  intros x. rewrite !elem_of_unique. by rewrite Hp.
Qed.

(** Sorting forgets the order of its input. *)
Lemma merge_sort_Permutation_eq {A} (R : relation A) `{!∀ x y, Decision (R x y)}
    `{!Transitive R, !AntiSymm (=) R, !Total R} (l k : list A) :
  l ≡ₚ k → merge_sort R l = merge_sort R k.
Proof.
  intros Hp. apply (Sorted_unique R); [apply Sorted_merge_sort; apply _..|].
  by rewrite !merge_sort_Permutation.
Qed.

Lemma group_index_Permutation observed keys keys' :
  keys' ≡ₚ keys → group_index observed keys' = group_index observed keys.
Proof.
  intros Hp. unfold group_index. destruct observed.
  - apply (merge_sort_Permutation_eq lex_le). by apply unique_Permutation.
  - assert (Hh : merge_sort Z.le (Pandas.unique keys'.*2)
                 = merge_sort Z.le (Pandas.unique keys.*2)).
    { apply (merge_sort_Permutation_eq Z.le), unique_Permutation. by rewrite Hp. }
    by rewrite Hh.
Qed.

Lemma heatmap_data_Permutation observed cols1 cols2 rows1 rows2 :
  rows1 ≡ₚ rows2 →
  heatmap_data observed {| columns := cols1; rows := rows1 |}
  = heatmap_data observed {| columns := cols2; rows := rows2 |}.
Proof.
  intros Hp. unfold heatmap_data; simpl.
  assert (Hk : omap group_key rows1 ≡ₚ omap group_key rows2) by by rewrite Hp.
  rewrite (group_index_Permutation _ _ _ Hk).
  apply list_fmap_ext. intros _ k _. f_equal. by rewrite Hk.
Qed.

Lemma product_days_sorted (ds : list nat) (hs : list Z) :
  StronglySorted le ds →
  StronglySorted le (fst <$> (d ← ds; (λ h, (d, h)) <$> hs)).
Proof.
  induction 1 as [|d ds Hds IH Hall]; [constructor|].
  rewrite bind_cons, fmap_app. apply StronglySorted_app. split_and!; [| |done].
  - intros x1 x2 ([? ?] & -> & (h & [= <- <-] & _)%list_elem_of_fmap)%list_elem_of_fmap.
    intros ([d2 ?] & -> & (d' & (h' & [= <- <-] & _)%list_elem_of_fmap & Hd')%list_elem_of_bind)%list_elem_of_fmap.
    simpl. rewrite Forall_forall in Hall. by apply Hall.
  - clear. induction hs as [|h hs IHh]; [constructor|]. simpl.
    constructor; [done|]. apply Forall_forall.
    by intros ? ([? ?] & -> & (h' & [= <- <-] & _)%list_elem_of_fmap)%list_elem_of_fmap.
Qed.

Lemma heatmap_days_sorted observed df :
  StronglySorted le ((λ g, g.1.1) <$> heatmap_data observed df).
Proof.
  unfold heatmap_data. rewrite <- list_fmap_compose.
  change ((λ g : nat * Z * nat, g.1.1) ∘ _) with (@fst nat Z).
  unfold group_index. destruct observed.
  - eapply StronglySorted_fmap; [|apply StronglySorted_merge_sort; apply _].
    intros [a1 a2] [b1 b2]. unfold lex_le; simpl. lia.
  - apply product_days_sorted. apply (bool_decide_unpack _). vm_compute. exact I.
Qed.

Lemma Categorical_lt cats v k :
  Pandas.Categorical cats v = Some k → (k < length cats)%nat.
Proof.
  unfold Pandas.Categorical. destruct v as [s|]; [|done]. simpl.
  destruct (list_find _ cats) as [[i c]|] eqn:Hf; [|done]. simpl. intros [= <-].
  apply list_find_Some in Hf as (Hi & _). by apply lookup_lt_Some in Hi.
Qed.

Lemma heatmap_days_known observed df :
  Forall (λ r, ∀ k, pickup_day_of_week r = Some k → (k < 7)%nat) (rows df) →
  Forall (λ g, (g.1.1 < 7)%nat) (heatmap_data observed df).
Proof.
  intros Hrows. unfold heatmap_data. apply Forall_fmap, Forall_forall.
  intros [d h] Hin. simpl. unfold group_index in Hin. destruct observed.
  - rewrite merge_sort_Permutation, elem_of_unique in Hin.
    apply list_elem_of_omap in Hin as (r & Hr & Hkey).
    rewrite Forall_forall in Hrows. apply (Hrows r Hr).
    unfold group_key in Hkey.
    destruct (pickup_day_of_week r), (pickup_hour r); by simplify_eq/=.
  - apply list_elem_of_bind in Hin as (d' & (h' & [= <- <-] & _)%list_elem_of_fmap & Hd).
    apply elem_of_seq in Hd. simpl in Hd. lia.
Qed.

Lemma count_key {A K} `{EqDecision K} (f : A → option K) (l : list A) k :
  length (filter (λ k', k' = k) (omap f l))
  = length (filter (λ x, f x = Some k) l).
Proof.
  induction l as [|x l IH]; [done|]. csimpl. rewrite (filter_cons _ x).
  destruct (f x) as [k'|] eqn:Hk.
  - rewrite filter_cons. destruct (decide (k' = k)) as [->|Hne].
    + rewrite decide_True by done. simpl. by rewrite IH.
    + rewrite decide_False by congruence. done.
  - by rewrite decide_False.
Qed.

Lemma group_key_Some r d h :
  group_key r = Some (d, h) ↔ pickup_day_of_week r = Some d ∧ pickup_hour r = Some h.
Proof.
  unfold group_key. destruct (pickup_day_of_week r), (pickup_hour r); simpl; naive_solver.
Qed.

Lemma result_row_key (remote : Remote) (start_ end_ lo hi : Z) (labels names : list string) r :
  r ∈ rows (result_of remote (start_, end_, lo, hi, labels, names)) →
  ∃ d h, group_key r = Some (d, h) ∧ (d < 7)%nat.
Proof.
  intros (t & z & -> & Hsat & _)%result_row_inv'.
  destruct Hsat as (p & _ & _ & _ & _ & Hp & _).
  unfold group_key, derive_row. cbn [pickup_day_of_week pickup_hour]. rewrite Hp.
  change (dt_day_name <$> Some p) with (Some (dt_day_name p)).
  destruct (day_code p) as [-> _]. simpl.
  eexists _, _. split; [done|]. pose proof (dt_weekday_range p). lia.
Qed.

Lemma group_index_NoDup observed keys : NoDup (group_index observed keys).
Proof.
  unfold group_index. destruct observed.
  - rewrite merge_sort_Permutation. apply NoDup_unique.
  - apply NoDup_bind.
    + intros d1 d2 [d h] _ _ (? & [= -> _] & _)%list_elem_of_fmap
             (? & [= -> _] & _)%list_elem_of_fmap. done.
    + intros d _. apply NoDup_fmap_2.
      * by intros ?? [= ->].
      * rewrite merge_sort_Permutation. apply NoDup_unique.
    + apply NoDup_seq.
Qed.

Lemma group_index_covers observed (keys : list (nat * Z)) k :
  Forall (λ k, (k.1 < 7)%nat) keys → k ∈ keys → k ∈ group_index observed keys.
Proof.
  intros Hdays Hk. unfold group_index. destruct observed.
  - by rewrite merge_sort_Permutation, elem_of_unique.
  - destruct k as [d h]. apply list_elem_of_bind. exists d. split.
    + apply list_elem_of_fmap. exists h. split; [done|].
      rewrite merge_sort_Permutation, elem_of_unique.
      apply list_elem_of_fmap. by exists (d, h).
    + rewrite Forall_forall in Hdays. specialize (Hdays _ Hk). simpl in Hdays.
      apply elem_of_seq. simpl. lia.
Qed.

(** C9. In a frame [get_filtered_df] returns, the weekday of every row is a
    code of the seven ordered categories Monday to Sunday, the one of the day
    name of its pickup. When the frame has the two key columns, the heat map
    table groups by that column: its rows come in the order of the
    categories, Monday first and Sunday last; every weekday of a row of the
    frame is there, every weekday there is one of the seven and, when only
    the pairs that occur are listed, the weekday of a row; no pair of weekday
    and hour is listed twice, each carries the number of rows of that weekday
    and hour, and the table does not depend on the order of the rows it is
    built from. *)
Theorem C9_weekday_calendar_order (remote : Remote) (σ : Session) (args : Args)
    (observed : bool) :
  reachable remote σ →
  let df := (get_filtered_df remote args σ).1 in
  "pickup_day_of_week" ∈ columns df →
  "pickup_hour" ∈ columns df →
  let table := heatmap_data observed df in
  let days := (λ g, g.1.1) <$> table in
  Forall (λ r, ∃ p k,
        tpep_pickup_datetime (raw r) = Some p
        ∧ pickup_day_of_week r = Some k
        ∧ (k < 7)%nat
        ∧ day_order !! k = Some (dt_day_name p)) (rows df)
  ∧ StronglySorted le days
  ∧ (∀ r k, r ∈ rows df → pickup_day_of_week r = Some k → k ∈ days)
  ∧ (∀ k, k ∈ days →
       (k < 7)%nat
       ∧ (observed = true → ∃ r, r ∈ rows df ∧ pickup_day_of_week r = Some k))
  ∧ NoDup (fst <$> table)
  ∧ (∀ d h n, (d, h, n) ∈ table →
       n = length (filter (λ r, pickup_day_of_week r = Some d ∧ pickup_hour r = Some h)
                     (rows df)))
  ∧ ∀ rows', rows' ≡ₚ rows df →
      heatmap_data observed {| columns := columns df; rows := rows' |} = table.
Proof.
  intros Hok%reachable_ok df _ _ table days.
  destruct args as [[[[[s e] lo] hi] labels] names].
  assert (Hdf : df = result_of remote (s, e, lo, hi, labels, names)).
  { unfold df. by destruct (get_filtered_df_ok remote (s, e, lo, hi, labels, names) σ Hok)
      as [-> _]. }
  assert (Hrows : Forall (λ r, ∃ p k,
        tpep_pickup_datetime (raw r) = Some p
        ∧ pickup_day_of_week r = Some k
        ∧ (k < 7)%nat
        ∧ day_order !! k = Some (dt_day_name p)) (rows df)).
  { rewrite Hdf. apply Forall_forall. intros r Hr.
    apply result_row_inv' in Hr as (t & z & -> & Hsat & _). simpl.
    destruct Hsat as (p & _ & _ & _ & _ & Hp & _).
    rewrite Hp; simpl. destruct (day_code p) as [Hcode Hname].
    exists p, (Z.to_nat (dt_weekday p)). split_and!; [done..| |done].
    pose proof (dt_weekday_range p). lia. }
  assert (Hkeys : Forall (λ k, (k.1 < 7)%nat) (omap group_key (rows df))).
  { apply Forall_forall. intros k (r & Hr & Hkr)%list_elem_of_omap.
    rewrite Hdf in Hr. apply result_row_key in Hr as (d & h & Hdh & Hd).
    by simplify_eq. }
  assert (Hindex : fst <$> table = group_index observed (omap group_key (rows df))).
  { unfold table, heatmap_data. rewrite <- list_fmap_compose.
    rewrite (list_fmap_ext _ id) by done. apply list_fmap_id. }
  assert (Hdays : days = fst <$> group_index observed (omap group_key (rows df))).
  { rewrite <- Hindex. unfold days. by rewrite <- list_fmap_compose. }
  split_and!.
  - done.
  - apply heatmap_days_sorted.
  - intros r k Hr Hk.
    assert (Hr' := Hr). rewrite Hdf in Hr'.
    apply result_row_key in Hr' as (d & h & Hdh & _).
    pose proof Hdh as [Hd _]%group_key_Some. rewrite Hk in Hd. injection Hd as <-.
    rewrite Hdays. apply list_elem_of_fmap. exists (k, h). split; [done|].
    apply group_index_covers; [done|]. apply list_elem_of_omap. eauto.
  - intros k Hk. split.
    + assert (Hall : Forall (λ g, (g.1.1 < 7)%nat) table).
      { apply heatmap_days_known. eapply Forall_impl; [exact Hrows|].
        intros r (p & k' & _ & -> & Hk' & _) k'' [= <-]. done. }
      rewrite Forall_forall in Hall.
      apply list_elem_of_fmap in Hk as (g & -> & Hg). by apply Hall.
    + intros ->. rewrite Hdays in Hk.
      apply list_elem_of_fmap in Hk as ([d h] & -> & Hin). simpl.
      unfold group_index in Hin.
      rewrite merge_sort_Permutation, elem_of_unique in Hin.
      apply list_elem_of_omap in Hin as (r & Hr & [Hd _]%group_key_Some). eauto.
  - rewrite Hindex. apply group_index_NoDup.
  - intros d h n Hin. unfold table, heatmap_data in Hin.
    apply list_elem_of_fmap in Hin as (k & [= <- ->] & _).
    rewrite count_key. f_equal. apply list_filter_iff. intros r.
    apply group_key_Some.
  - intros rows' Hp. unfold table. destruct df as [c rs]. by apply heatmap_data_Permutation.
Qed.

End Weekday.

(** ** C10: the in-memory pipeline and the pushdown pipeline *)

Section Refinement.
Import NewApp.

Lemma elem_of_resolve_zones zones_df names loc :
  loc ∈ resolve_zones zones_df names ↔
  ∃ z n, z ∈ zones_df ∧ Zones.LocationID z = Some loc
         ∧ Zones.Zone z = Some n ∧ n ∈ names.
Proof.
  unfold resolve_zones. rewrite elem_of_unique, list_elem_of_omap.
  setoid_rewrite list_elem_of_filter. setoid_rewrite pandas_isin_true.
  naive_solver.
Qed.

Lemma label_selected labels c :
  Forall (λ l, l ∈ known_labels) labels →
  label_of_code c ∈ labels ↔ ∃ code, c = Some code ∧ code ∈ payment_codes_of labels.
Proof.
  intros Hknown. split.
  - intros Hin.
    destruct c as [code|]; simpl in Hin.
    + unfold label_of_code in Hin; simpl in Hin.
      destruct (PAYMENT_MAP !! code) as [l|] eqn:Hl; simpl in Hin.
      * exists code. split; [done|]. unfold payment_codes_of.
        apply list_elem_of_omap. exists l. split; [done|].
        by apply LABEL_TO_CODE_lookup.
      * rewrite Forall_forall in Hknown. apply Hknown in Hin.
        by apply (bool_decide_pack _) in Hin.
    + rewrite Forall_forall in Hknown. apply Hknown in Hin.
      by apply (bool_decide_pack _) in Hin.
  - intros (code & -> & Hin). by apply payment_codes_known.
Qed.

Lemma merge_left_singleton {L R K} `{EqDecision K}
    (left_on : L → K) (right_on : R → K) (l : L) (right : list R) :
  Pandas.merge_left left_on right_on [l] right =
    match filter (λ r, left_on l = right_on r) right with
    | [] => [(l, None)]
    | ms => (λ r, (l, Some r)) <$> ms
    end.
Proof. unfold Pandas.merge_left. csimpl. by rewrite app_nil_r. Qed.

Lemma merge_left_app {L R K} `{EqDecision K}
    (left_on : L → K) (right_on : R → K) (l1 l2 : list L) (right : list R) :
  Pandas.merge_left left_on right_on (l1 ++ l2) right =
    (Pandas.merge_left left_on right_on l1 right
     ++ Pandas.merge_left left_on right_on l2 right)%list.
Proof. unfold Pandas.merge_left. apply bind_app. Qed.

Lemma filter_none {A} (P : A → Prop) `{!∀ x, Decision (P x)} (l : list A) :
  (∀ x, x ∈ l → ¬ P x) → filter P l = [].
Proof.
  induction l as [|x l IH]; [done|]. intros Hall.
  rewrite filter_cons_False by (apply Hall; by left).
  apply IH. intros y Hy. apply Hall. by right.
Qed.

(** With no location id listed twice, the rows that carry a given id are one
    row, however many rows carry none. *)
Lemma filter_key_present {R K} `{EqDecision K}
    (right_on : R → option K) (right : list R) r k :
  NoDup (omap right_on right) → r ∈ right → right_on r = Some k →
  filter (λ r', Some k = right_on r') right = [r].
Proof.
  induction right as [|a l IH]; [by intros _ ?%not_elem_of_nil|].
  intros Hnd Hr Hk. csimpl in Hnd.
  destruct (decide (Some k = right_on a)) as [Ha|Ha].
  - rewrite <- Ha in Hnd. apply NoDup_cons in Hnd as [Hnotin Hnd].
    rewrite filter_cons_True by done.
    rewrite (filter_none (λ r', Some k = right_on r')).
    2:{ intros r' Hr' Hk'. apply Hnotin, list_elem_of_omap. eauto. }
    apply elem_of_cons in Hr as [->|Hr]; [done|].
    destruct Hnotin. apply list_elem_of_omap. eauto.
  - rewrite filter_cons_False by done.
    apply elem_of_cons in Hr as [->|Hr]; [congruence|].
    apply IH; [|done..].
    destruct (right_on a); [by apply NoDup_cons in Hnd as [_ ?]|done].
Qed.

Section OneTrip.
Context (zones_df : list Zones.Row) (start_ end_ lo hi : Z)
        (labels names : list string).
Context (Hknown : Forall (λ l, l ∈ known_labels) labels).
Context (Hres : resolve_zones zones_df names ≠ []).
Context (Hnd : NoDup (omap Zones.LocationID zones_df)).

Let sql : TripQuery :=
  {| q_start := start_; q_end := end_; q_hour_min := lo; q_hour_max := hi;
     q_payment_codes := payment_codes_of labels;
     q_zone_filter := zone_filter_sql zones_df names |}.

Let new_rows' := new_rows zones_df sql.
Let app_rows' := app_rows zones_df start_ end_ (lo, hi) labels names.

Lemma app_rows_sound t r :
  r ∈ app_rows' t →
  satisfies start_ end_ lo hi (payment_codes_of labels)
    (resolve_zones zones_df names) (cols t).
Proof.
  unfold app_rows', app_rows.
  intros [Hzone [Hside Hin]%list_elem_of_filter]%list_elem_of_filter.
  apply list_elem_of_fmap in Hin as ([t' z] & -> & Hin).
  apply merge_left_matches in Hin as [Ht' Hz]. simpl in *.
  apply list_elem_of_filter in Ht' as [Hclean Ht'].
  apply list_elem_of_filter in Ht' as [Hdrop Ht'].
  apply list_elem_of_singleton in Ht' as ->.
  unfold App.sidebar_mask in Hside. simpl in Hside.
  rewrite !andb_true_iff in Hside.
  destruct Hside as [[[[Hs He] Hlo] Hhi] Hlab].
  unfold App.clean_mask in Hclean. rewrite !andb_true_iff in Hclean.
  destruct Hclean as [[[Hd0 Hf0] Hf500] Hgt].
  apply pandas_cmp_true in Hs as (p & ? & Hp & [= <-] & Hs).
  apply pandas_cmp_true in He as (? & ? & Hp' & [= <-] & He).
  apply pandas_cmp_true in Hd0 as (dist & ? & Hdist & [= <-] & Hd0).
  apply pandas_cmp_true in Hf0 as (fare & ? & Hfare & [= <-] & Hf0).
  apply pandas_cmp_true in Hf500 as (? & ? & Hfare' & [= <-] & Hf500).
  apply pandas_cmp_true in Hgt as (d & ? & Hd & Hp'' & Hgt).
  rewrite Hp in *. rewrite Hfare in *. simplify_eq/=.
  apply pandas_number_Some in Hdist, Hfare.
  apply bool_decide_eq_true in Hlab.
  change (App.label_of_code ?c) with (label_of_code c) in Hlab.
  apply (label_selected _ _ Hknown) in Hlab as (code & Hcode & Hcodes).
  apply pandas_isin_true in Hzone as (n & Hn & Hnames).
  destruct z as [z|]; [|done]. destruct Hz as [Hz Hpu]. simpl in Hn.
  unfold App.dropna_subset in Hdrop. rewrite !andb_true_iff in Hdrop.
  destruct Hdrop as [[[[_ _] [loc Hloc]%bool_decide_eq_true] _] _].
  eexists _, _, _, _, _.
  split_and!; [exact Hp|exact Hd|exact Hdist|exact Hfare|exact Hcode
              |lia|lia|lia|lia|done
              |by apply Qltb_lt|by apply Qltb_lt|by apply Qle_bool_iff|lia|].
  intros _. exists loc. split; [done|].
  apply elem_of_resolve_zones. exists z, n. split_and!; try done. congruence.
Qed.

Lemma one_trip t :
  is_Some (DOLocationID (cols t)) → trip_distance (cols t) ≠ Some NaN →
  new_rows' t = shared_columns <$> app_rows' t.
Proof.
  intros [dol Hdol] Hnan.
  destruct (decide (SQL.selected (where_clause sql (cols t)) = true)) as [Hw|Hw].
  - unfold new_rows', new_rows. rewrite filter_cons_True, filter_nil by done.
    assert (Hsat : satisfies start_ end_ lo hi (payment_codes_of labels)
                     (resolve_zones zones_df names) (cols t)).
    { apply satisfies_selects. split; [|done]. by apply where_clause_selects in Hw. }
    destruct Hsat as (p & d & dist & fare & code & Hp & Hd & Hdist & Hfare & Hcode
                      & [Hs He] & [Hlo Hhi] & Hcodes & Hd0 & Hf0 & Hf500 & Hgt & Hzone).
    destruct (Hzone Hres) as (loc & Hloc & Hin).
    apply elem_of_resolve_zones in Hin as (z & n & Hz & Hzid & Hzn & Hn).
    assert (Hmatch : filter (λ r, PULocationID (cols t) = Zones.LocationID r) zones_df = [z]).
    { rewrite Hloc. by apply filter_key_present. }
    change (cols <$> [t]) with [cols t].
    rewrite merge_left_singleton, Hmatch.
    change ((λ r, (cols t, Some r)) <$> [z]) with [(cols t, Some z)].
    unfold app_rows', app_rows.
    rewrite (filter_cons_True (λ t, App.dropna_subset t = true)), filter_nil.
    2:{ unfold App.dropna_subset. rewrite Hp, Hd, Hloc, Hdol, Hfare.
        cbn [Pandas.number]. by rewrite !bool_decide_eq_true_2 by eauto. }
    rewrite (filter_cons_True (λ t, App.clean_mask t = true)), filter_nil.
    2:{ unfold App.clean_mask. rewrite Hp, Hd, Hdist, Hfare. simpl.
        rewrite !andb_true_iff. split_and!.
        - by apply Qltb_lt.
        - by apply Qltb_lt.
        - by apply Qle_bool_iff.
        - lia. }
    rewrite merge_left_singleton, Hmatch.
    change ((λ r, (t, Some r)) <$> [z]) with [(t, Some z)].
    change ((λ p, App.derive_row p.1 p.2) <$> [(t, Some z)])
      with [App.derive_row t (Some z)].
    rewrite filter_cons_True, filter_nil.
    2:{ unfold App.sidebar_mask. simpl. rewrite Hp, Hcode. simpl.
        rewrite !andb_true_iff. split_and!; try lia.
        apply bool_decide_eq_true. by apply payment_codes_known. }
    rewrite filter_cons_True, filter_nil.
    2:{ simpl. rewrite Hzn. simpl. by apply bool_decide_eq_true. }
    reflexivity.
  - unfold new_rows', new_rows. rewrite filter_cons_False, filter_nil by done. simpl.
    destruct (app_rows' t) as [|r rs] eqn:Happ; [done|].
    exfalso. apply Hw, where_clause_selects.
    apply (satisfies_selects start_ end_ lo hi), (app_rows_sound t r).
    rewrite Happ. by left.
Qed.

End OneTrip.

Lemma new_rows_bind zones_df sql (trips : list Trip) :
  (λ p, derive_row p.1 p.2)
    <$> Pandas.merge_left PULocationID Zones.LocationID
          (cols <$> filter (λ t, SQL.selected (where_clause sql (cols t)) = true) trips)
          zones_df
  = trips ≫= new_rows zones_df sql.
Proof.
  induction trips as [|t trips IH]; [done|].
  change (t :: trips) with ([t] ++ trips).
  rewrite filter_app, fmap_app, merge_left_app, fmap_app, IH.
  by rewrite bind_app, bind_singleton.
Qed.

Lemma app_rows_bind zones_df start_ end_ hour_range labels names (trips : list Trip) :
  filter (λ r, Pandas.isin (App.pickup_zone r) names = true)
    (filter (λ r, App.sidebar_mask start_ end_ hour_range labels r = true)
       ((λ p, App.derive_row p.1 p.2)
          <$> Pandas.merge_left (λ t, PULocationID (cols t)) Zones.LocationID
                (filter (λ t, App.clean_mask t = true)
                   (filter (λ t, App.dropna_subset t = true) trips))
                zones_df))
  = trips ≫= app_rows zones_df start_ end_ hour_range labels names.
Proof.
  induction trips as [|t trips IH]; [done|].
  change (t :: trips) with ([t] ++ trips).
  rewrite !filter_app, merge_left_app, fmap_app, !filter_app, IH.
  by rewrite bind_app, bind_singleton.
Qed.

Lemma fmap_list_bind {A B C} (f : B → C) (g : A → list B) (l : list A) :
  f <$> (l ≫= g) = l ≫= (λ x, f <$> g x).
Proof.
  induction l as [|x l IH]; [done|]. by rewrite !bind_cons, fmap_app, IH.
Qed.

(** C10, as the code has it. For payment labels among the six known ones and
    zone names that resolve to at least one location id, when no location id
    occurs twice in the zone table, every row of the trip file has a dropoff
    location id and none has a NaN distance, the frame of [newapp.py] and the
    filtered frame of [app.py], read on the columns the two share, hold the
    same rows with the same multiplicities. *)
Theorem C10_pushdown_refines_in_memory (remote : Remote) (σ : Session)
    (start_datetime end_datetime hour_min hour_max : Z)
    (payment_labels selected_zone_names : list string) :
  reachable remote σ →
  Forall (λ l, l ∈ known_labels) payment_labels →
  resolve_zones (ZONE_URL remote) selected_zone_names ≠ [] →
  NoDup (omap Zones.LocationID (ZONE_URL remote)) →
  Forall (λ t, is_Some (DOLocationID (cols t))) (TRIP_URL remote) →
  Forall (λ t, trip_distance (cols t) ≠ Some NaN) (TRIP_URL remote) →
  rows (get_filtered_df remote
          (start_datetime, end_datetime, hour_min, hour_max,
           payment_labels, selected_zone_names) σ).1
  ≡ₚ shared_columns
       <$> App.filtered_df (App.load_data remote) start_datetime end_datetime
             (hour_min, hour_max) payment_labels selected_zone_names.
Proof.
  intros Hok%reachable_ok Hknown Hres Hnd Hdo Hnan.
  assert (Htrips : Forall (λ t, is_Some (DOLocationID (cols t))
                             ∧ trip_distance (cols t) ≠ Some NaN) (TRIP_URL remote))
    by by apply Forall_and.
  clear Hdo Hnan.
  destruct (get_filtered_df_ok remote
              (start_datetime, end_datetime, hour_min, hour_max,
               payment_labels, selected_zone_names) σ Hok) as [-> _].
  assert (Hnames : selected_zone_names ≠ []).
  { intros ->. by rewrite resolve_zones_nil in Hres. }
  unfold App.filtered_df, App.load_data.
  rewrite (bool_decide_eq_false_2 (selected_zone_names = [])) by done.
  rewrite app_rows_bind, fmap_list_bind.
  unfold result_of. case_bool_decide as Hcodes.
  - (* no label selected: both frames are empty *)
    assert (payment_labels = []) as ->.
    { destruct payment_labels as [|l ls]; [done|]. exfalso.
      apply Forall_cons in Hknown as [Hl _].
      assert (is_Some (LABEL_TO_CODE !! l)) as [c Hc].
      { unfold known_labels in Hl. rewrite !elem_of_cons, elem_of_nil in Hl.
        destruct Hl as [->|[->|[->|[->|[->|[->|[]]]]]]]; vm_compute; eauto. }
      unfold payment_codes_of in Hcodes. simpl in Hcodes.
      by rewrite Hc in Hcodes. }
    simpl. clear Htrips. induction (TRIP_URL remote) as [|t trips IH]; [done|].
    rewrite bind_cons.
    rewrite <- IH, app_nil_r.
    replace (app_rows _ _ _ _ _ _ t) with (@nil App.DerivedRow); [done|].
    symmetry. unfold app_rows.
    rewrite (filter_none (λ r, App.sidebar_mask _ _ _ _ r = true)); [done|].
    intros r _. unfold App.sidebar_mask, Pandas.isin.
    rewrite (bool_decide_eq_false_2 (_ ∈ [])) by apply not_elem_of_nil.
    by rewrite andb_false_r.
  - unfold derive, run_query. cbn [rows]. rewrite new_rows_bind.
    erewrite Forall_bind_ext; [done|].
    eapply Forall_impl; [exact Htrips|]. intros t [Hdo Hnan].
    by apply one_trip.
Qed.

End Refinement.

(** ** The properties on the sample data *)

Section Samples.
Import NewApp.

(** C10 as stated fails on a trip without a dropoff location id, which
    [app.py] drops and [newapp.py] keeps. *)
Lemma C10_counterexample :
  Forall (λ l, l ∈ known_labels) ["Cash"]
  ∧ resolve_zones (ZONE_URL Sample.remote_no_dropoff) ["Newark Airport"] ≠ []
  ∧ NoDup (omap Zones.LocationID (ZONE_URL Sample.remote_no_dropoff))
  ∧ Forall (λ t, trip_distance (cols t) ≠ Some NaN) (TRIP_URL Sample.remote_no_dropoff)
  ∧ ¬ (rows (get_filtered_df Sample.remote_no_dropoff
               (Sample.args ["Cash"] ["Newark Airport"]) fresh).1
       ≡ₚ shared_columns
            <$> App.filtered_df (App.load_data Sample.remote_no_dropoff)
                  Sample.january.1 Sample.january.2 (0, 23)
                  ["Cash"] ["Newark Airport"]).
Proof.
  split_and!.
  - apply (bool_decide_unpack _). vm_compute. exact I.
  - vm_compute. discriminate.
  - apply (bool_decide_unpack _). vm_compute. exact I.
  - repeat constructor. discriminate.
  - intros Hp%Permutation_length. vm_compute in Hp. discriminate.
Qed.

(** C5 as stated fails: two specifications that differ only in the order of
    the selected payment labels are equal as sets, yet the second call misses
    the memo table and queries the trip file again. *)
Lemma C5_counterexample :
  same_spec (Sample.args ["Credit Card"; "Cash"] [])
            (Sample.args ["Cash"; "Credit Card"] [])
  ∧ reachable Sample.remote fresh
  ∧ trip_queries
      (remote_log
         (get_filtered_df Sample.remote (Sample.args ["Cash"; "Credit Card"] [])
            (get_filtered_df Sample.remote
               (Sample.args ["Credit Card"; "Cash"] []) fresh).2).2)
    ≠ trip_queries
        (remote_log
           (get_filtered_df Sample.remote
              (Sample.args ["Credit Card"; "Cash"] []) fresh).2).
Proof.
  split_and!.
  - unfold same_spec, Sample.args. split_and!; try done.
    intros x. rewrite !elem_of_cons, !elem_of_nil. tauto.
  - apply reachable_fresh.
  - vm_compute. discriminate.
Qed.

(** C2 on the sample data. *)
Lemma C2_witness :
  NoDup (Zones.LocationID <$> Sample.zones)
  ∧ length (rows (derive [Sample.jfk_trip; Sample.no_dropoff_trip] Sample.zones))
    = length [Sample.jfk_trip; Sample.no_dropoff_trip].
Proof.
  assert (Hnd : NoDup (Zones.LocationID <$> Sample.zones)).
  { apply (bool_decide_unpack _). vm_compute. exact I. }
  split; [exact Hnd|].
  exact (proj2 (proj2 (C2_derive_keeps_row_count
                         [Sample.jfk_trip; Sample.no_dropoff_trip] Sample.zones)) Hnd).
Defined.

(** C3 on the sample data. *)
Lemma C3_witness :
  reachable Sample.remote fresh
  ∧ payment_codes_of [] = []
  ∧ (get_filtered_df Sample.remote
       (Sample.january.1, Sample.january.2, 0, 23, [], []) fresh).1 = pd_DataFrame
  ∧ trip_queries
      (remote_log
         (get_filtered_df Sample.remote
            (Sample.january.1, Sample.january.2, 0, 23, [], []) fresh).2)
    = trip_queries (remote_log fresh).
Proof.
  pose proof (C3_empty_payment_selection_short_circuits Sample.remote fresh
                Sample.january.1 Sample.january.2 0 23 [] []
                (reachable_fresh Sample.remote) eq_refl) as (_ & H1 & _ & H2).
  split_and!; [apply reachable_fresh|reflexivity|exact H1|exact H2].
Defined.

(** C4 on the sample data. *)
Lemma C4_witness :
  reachable Sample.remote fresh
  ∧ ["Atlantis"] ≠ []
  ∧ resolve_zones (ZONE_URL Sample.remote) ["Atlantis"] = []
  ∧ (get_filtered_df Sample.remote
       (Sample.january.1, Sample.january.2, 0, 23, ["Credit Card"], ["Atlantis"])
       fresh).1
    = (get_filtered_df Sample.remote
         (Sample.january.1, Sample.january.2, 0, 23, ["Credit Card"], []) fresh).1.
Proof.
  assert (Hn : ["Atlantis"] ≠ @nil string) by discriminate.
  assert (Hr : resolve_zones (ZONE_URL Sample.remote) ["Atlantis"] = [])
    by (vm_compute; reflexivity).
  split_and!; [apply reachable_fresh|exact Hn|exact Hr|].
  exact (proj2 (C4_unresolved_zones_mean_all_zones Sample.remote fresh fresh
                  Sample.january.1 Sample.january.2 0 23 ["Credit Card"] ["Atlantis"]
                  (reachable_fresh Sample.remote) (reachable_fresh Sample.remote) Hn Hr)).
Defined.

(** C5 on the sample data. *)
Lemma C5_witness :
  reachable Sample.remote fresh
  ∧ same_spec (Sample.args ["Credit Card"; "Cash"] ["JFK Airport"])
              (Sample.args ["Credit Card"; "Cash"] ["JFK Airport"])
  ∧ (get_filtered_df Sample.remote
       (Sample.args ["Credit Card"; "Cash"] ["JFK Airport"]) fresh).1
    = (get_filtered_df Sample.remote
         (Sample.args ["Credit Card"; "Cash"] ["JFK Airport"])
         (get_filtered_df Sample.remote
            (Sample.args ["Credit Card"; "Cash"] ["JFK Airport"]) fresh).2).1
  ∧ remote_log
      (get_filtered_df Sample.remote
         (Sample.args ["Credit Card"; "Cash"] ["JFK Airport"])
         (get_filtered_df Sample.remote
            (Sample.args ["Credit Card"; "Cash"] ["JFK Airport"]) fresh).2).2
    = remote_log
        (get_filtered_df Sample.remote
           (Sample.args ["Credit Card"; "Cash"] ["JFK Airport"]) fresh).2.
Proof.
  assert (Hs : same_spec (Sample.args ["Credit Card"; "Cash"] ["JFK Airport"])
                         (Sample.args ["Credit Card"; "Cash"] ["JFK Airport"])).
  { unfold same_spec, Sample.args. split_and!; done. }
  pose proof (C5_cached_call_with_equal_arguments Sample.remote fresh _ _
                (reachable_fresh Sample.remote) Hs) as [H1 H2].
  split_and!; [apply reachable_fresh|exact Hs|exact H1|exact (H2 eq_refl)].
Defined.

(** C6 on the sample data. *)
Lemma C6_witness :
  reachable Sample.remote fresh
  ∧ Forall (λ c, c ∈ columns (get_filtered_df Sample.remote
                                (Sample.january.1, Sample.january.2, 0, 23,
                                 ["Credit Card"], []) fresh).1)
      consumer_columns.
Proof.
  split; [apply reachable_fresh|].
  pose proof (C6_columns_of_the_result Sample.remote fresh
                Sample.january.1 Sample.january.2 0 23 ["Credit Card"] []
                (reachable_fresh Sample.remote)) as H.
  simpl in H. rewrite bool_decide_eq_false_2 in H by (vm_compute; discriminate).
  exact (proj1 (proj2 H)).
Defined.

(** C8 on the sample data. *)
Lemma C8_witness :
  reachable Sample.remote fresh
  ∧ {| cols := Sample.jfk_trip; passenger_count := Some 1%Q |} ∈ TRIP_URL Sample.remote
  ∧ Zones.mk (Some 132) (Some "JFK Airport") ∈ ZONE_URL Sample.remote
  ∧ Sample.january.1 ≤ Timestamp 2024 1 5 5 10 < Sample.january.2
  ∧ ∃ r,
      r ∈ rows (get_filtered_df Sample.remote
                  (Sample.january.1, Sample.january.2, 0, 23, ["Credit Card"], [])
                  fresh).1
      ∧ raw r = Sample.jfk_trip
      ∧ trip_duration_minutes r = Some 30%Q
      ∧ pickup_hour r = Some 5
      ∧ pickup_day_of_week r = Some 4%nat
      ∧ day_order !! 4%nat = Some "Friday"
      ∧ pickup_zone r = Some "JFK Airport"
      ∧ payment_label r = "Credit Card".
Proof.
  assert (Ht : {| cols := Sample.jfk_trip; passenger_count := Some 1%Q |}
               ∈ TRIP_URL Sample.remote) by (simpl; by left).
  assert (Hz : Zones.mk (Some 132) (Some "JFK Airport") ∈ ZONE_URL Sample.remote)
    by (simpl; right; by left).
  assert (Hw : Sample.january.1 ≤ Timestamp 2024 1 5 5 10 < Sample.january.2)
    by (vm_compute; split; [discriminate|reflexivity]).
  split_and!; [apply reachable_fresh|exact Ht|exact Hz|apply Hw|apply Hw|].
  exact (C8_jfk_scenario Sample.remote fresh Sample.jfk_trip (Some 1%Q)
           Sample.january.1 Sample.january.2 (reachable_fresh Sample.remote)
           eq_refl eq_refl eq_refl eq_refl eq_refl eq_refl Ht Hz Hw).
Defined.

(** C9 on the sample data. *)
Lemma C9_witness :
  reachable Sample.remote fresh
  ∧ "pickup_day_of_week"
      ∈ columns (get_filtered_df Sample.remote
                   (Sample.args ["Credit Card"; "Cash"] []) fresh).1
  ∧ "pickup_hour"
      ∈ columns (get_filtered_df Sample.remote
                   (Sample.args ["Credit Card"; "Cash"] []) fresh).1
  ∧ StronglySorted le
      ((λ g, g.1.1)
         <$> heatmap_data false
               (get_filtered_df Sample.remote
                  (Sample.args ["Credit Card"; "Cash"] []) fresh).1)
  ∧ ∀ r k,
      r ∈ rows (get_filtered_df Sample.remote
                  (Sample.args ["Credit Card"; "Cash"] []) fresh).1 →
      pickup_day_of_week r = Some k →
      k ∈ (λ g, g.1.1)
            <$> heatmap_data false
                  (get_filtered_df Sample.remote
                     (Sample.args ["Credit Card"; "Cash"] []) fresh).1.
Proof.
  assert (Hd : "pickup_day_of_week"
                 ∈ columns (get_filtered_df Sample.remote
                              (Sample.args ["Credit Card"; "Cash"] []) fresh).1).
  { apply (bool_decide_unpack _). vm_compute. exact I. }
  assert (Hh : "pickup_hour"
                 ∈ columns (get_filtered_df Sample.remote
                              (Sample.args ["Credit Card"; "Cash"] []) fresh).1).
  { apply (bool_decide_unpack _). vm_compute. exact I. }
  pose proof (C9_weekday_calendar_order Sample.remote fresh
                (Sample.args ["Credit Card"; "Cash"] []) false
                (reachable_fresh Sample.remote) Hd Hh) as (_ & H1 & H2 & _).
  split_and!; [apply reachable_fresh|exact Hd|exact Hh|exact H1|exact H2].
Defined.

(** C10 on the sample data. *)
Lemma C10_witness :
  reachable Sample.remote fresh
  ∧ Forall (λ l, l ∈ known_labels) ["Credit Card"]
  ∧ resolve_zones (ZONE_URL Sample.remote) ["JFK Airport"] ≠ []
  ∧ NoDup (omap Zones.LocationID (ZONE_URL Sample.remote))
  ∧ Forall (λ t, is_Some (DOLocationID (cols t))) (TRIP_URL Sample.remote)
  ∧ Forall (λ t, trip_distance (cols t) ≠ Some NaN) (TRIP_URL Sample.remote)
  ∧ rows (get_filtered_df Sample.remote
            (Sample.january.1, Sample.january.2, 0, 23,
             ["Credit Card"], ["JFK Airport"]) fresh).1
    ≡ₚ shared_columns
         <$> App.filtered_df (App.load_data Sample.remote)
               Sample.january.1 Sample.january.2 (0, 23)
               ["Credit Card"] ["JFK Airport"].
Proof.
  assert (Hk : Forall (λ l, l ∈ known_labels) ["Credit Card"]).
  { apply (bool_decide_unpack _). vm_compute. exact I. }
  assert (Hr : resolve_zones (ZONE_URL Sample.remote) ["JFK Airport"] ≠ [])
    by (vm_compute; discriminate).
  assert (Hnd : NoDup (omap Zones.LocationID (ZONE_URL Sample.remote))).
  { apply (bool_decide_unpack _). vm_compute. exact I. }
  assert (Hdo : Forall (λ t, is_Some (DOLocationID (cols t))) (TRIP_URL Sample.remote)).
  { apply (bool_decide_unpack _). vm_compute. exact I. }
  assert (Hnan : Forall (λ t, trip_distance (cols t) ≠ Some NaN) (TRIP_URL Sample.remote)).
  { repeat constructor. discriminate. }
  split_and!; [apply reachable_fresh|exact Hk|exact Hr|exact Hnd|exact Hdo|exact Hnan|].
  exact (C10_pushdown_refines_in_memory Sample.remote fresh
           Sample.january.1 Sample.january.2 0 23 ["Credit Card"] ["JFK Airport"]
           (reachable_fresh Sample.remote) Hk Hr Hnd Hdo Hnan).
Defined.

End Samples.

(** * Further properties of the two scripts *)

(** ** The session: what reaches the remote files *)

Section SessionTraffic.
Import NewApp.
Context (remote : Remote).

Lemma zone_fetches_app l1 l2 : zone_fetches (l1 ++ l2) = zone_fetches l1 ++ zone_fetches l2.
Proof. apply filter_app. Qed.

Lemma trip_queries_app l1 l2 : trip_queries (l1 ++ l2) = trip_queries l1 ++ trip_queries l2.
Proof. apply filter_app. Qed.

(** The session after the body of [get_filtered_df]: that after [load_zones],
    with one trip query logged unless the payment selection is empty. *)
Lemma body_session (start_ end_ lo hi : Z) (labels names : list string) σ :
  let σ1 := (load_zones remote σ).2 in
  let σ2 := (get_filtered_df_body remote (start_, end_, lo, hi, labels, names) σ).2 in
  zones_memo σ2 = zones_memo σ1
  ∧ filtered_memo σ2 = filtered_memo σ
  ∧ remote_log σ2 =
      remote_log σ1
      ++ (if bool_decide (payment_codes_of labels = []) then []
          else [QueryTrips
                  {| q_start := start_; q_end := end_;
                     q_hour_min := lo; q_hour_max := hi;
                     q_payment_codes := payment_codes_of labels;
                     q_zone_filter :=
                       zone_filter_sql (load_zones remote σ).1 names |}]).
Proof.
  unfold get_filtered_df_body, mbind, M_bind, bind.
  assert (Hm : filtered_memo (load_zones remote σ).2 = filtered_memo σ).
  { unfold load_zones. by destruct (zones_memo σ). }
  destruct (load_zones remote σ) as [zones_df σ1]; simpl in *.
  case_bool_decide; simpl; [by rewrite app_nil_r|done].
Qed.

Lemma load_zones_fetched_once σ :
  fetched_once remote σ → fetched_once remote (load_zones remote σ).2.
Proof.
  unfold fetched_once, load_zones.
  destruct (zones_memo σ) as [z|] eqn:Hz; simpl; [by rewrite Hz|].
  intros Hf. split; [done|]. by rewrite zone_fetches_app, Hf.
Qed.

Lemma reachable_fetched_once σ : reachable remote σ → fetched_once remote σ.
Proof.
  induction 1 as [|σ _ IH|σ args _ IH]; [done|by apply load_zones_fetched_once|].
  unfold get_filtered_df.
  destruct (filtered_memo σ !! args) as [df|]; [done|].
  destruct args as [[[[[s e] lo] hi] labels] names].
  destruct (body_session s e lo hi labels names σ) as (Hz & _ & Hlog).
  apply load_zones_fetched_once in IH.
  destruct (get_filtered_df_body remote _ σ) as [df σ2]; simpl in *.
  unfold fetched_once in *; simpl. rewrite Hz, Hlog, zone_fetches_app.
  replace (zone_fetches (if bool_decide _ then _ else _)) with (@nil Event);
    [by rewrite app_nil_r|].
  by case_bool_decide.
Qed.

(** X1. In every session the script can be in, the zone file has been
    fetched at most once; [load_zones()] answers with the zone file, after it
    the file has been fetched exactly once, and a further call answers from
    the memo table and leaves the session as it is. *)
Theorem X1_zone_file_fetched_once (σ : Session) :
  reachable remote σ →
  (length (zone_fetches (remote_log σ)) ≤ 1)%nat
  ∧ (load_zones remote σ).1 = ZONE_URL remote
  ∧ length (zone_fetches (remote_log (load_zones remote σ).2)) = 1%nat
  ∧ load_zones remote (load_zones remote σ).2
    = (ZONE_URL remote, (load_zones remote σ).2).
Proof.
  intros Hr. pose proof (reachable_fetched_once σ Hr) as Hf.
  pose proof (load_zones_fetched_once σ Hf) as Hf1.
  unfold fetched_once in Hf, Hf1. split_and!.
  - destruct (zones_memo σ); [destruct Hf as [_ ->]; lia|rewrite Hf; simpl; lia].
  - by apply load_zones_ok, reachable_ok.
  - unfold load_zones in *. destruct (zones_memo σ) as [z|] eqn:Hz; simpl in *.
    + rewrite Hz in Hf1. by destruct Hf1.
    + by destruct Hf1.
  - unfold load_zones at 1.
    destruct (zones_memo (load_zones remote σ).2) as [z|] eqn:Hz.
    + by destruct Hf1 as [-> _].
    + exfalso. unfold load_zones in Hz. by destruct (zones_memo σ) eqn:Hz'; simpl in Hz; simplify_eq.
Qed.

Lemma payment_codes_writable labels :
  Forall (λ c, 1 ≤ c ≤ 6) (payment_codes_of labels).
Proof. apply Forall_forall. intros c Hc. by apply payment_codes_known in Hc as [? _]. Qed.

Lemma reachable_writable σ : reachable remote σ → Forall writable (remote_log σ).
Proof.
  induction 1 as [|σ _ IH|σ args _ IH]; [constructor| |].
  - unfold load_zones. destruct (zones_memo σ); [done|]. simpl.
    apply Forall_app. split; [done|]. by repeat constructor.
  - unfold get_filtered_df.
    destruct (filtered_memo σ !! args) as [df|]; [done|].
    destruct args as [[[[[s e] lo] hi] labels] names].
    destruct (body_session s e lo hi labels names σ) as (_ & _ & Hlog).
    destruct (get_filtered_df_body remote _ σ) as [df σ2]; simpl in *.
    rewrite Hlog. apply Forall_app. split.
    + unfold load_zones. destruct (zones_memo σ); [done|]. simpl.
      apply Forall_app. split; [done|]. by repeat constructor.
    + case_bool_decide as Hc; constructor; [|constructor].
      simpl. split_and!; [done|apply payment_codes_writable|].
      rewrite zone_filter_sql_alt. case_bool_decide; congruence.
Qed.

(** X2. Every trip query the script has sent can be written in SQL: its list
    of payment codes is never empty and holds only codes of [PAYMENT_MAP], and
    a zone clause, when there is one, lists at least one location id. *)
Theorem X2_queries_have_nonempty_in_lists (σ : Session) (q : TripQuery) :
  reachable remote σ →
  QueryTrips q ∈ remote_log σ →
  q_payment_codes q ≠ []
  ∧ Forall (λ c, 1 ≤ c ≤ 6) (q_payment_codes q)
  ∧ q_zone_filter q ≠ Some [].
Proof.
  intros Hr Hq. pose proof (reachable_writable σ Hr) as Hw.
  rewrite Forall_forall in Hw. exact (Hw _ Hq).
Qed.

Lemma load_zones_log σ :
  remote_log (load_zones remote σ).2
  = remote_log σ ++ match zones_memo σ with Some _ => [] | None => [FetchZones] end.
Proof. unfold load_zones. destruct (zones_memo σ); simpl; by rewrite ?app_nil_r. Qed.

(** X3. One call of the cached [get_filtered_df] sends at most one trip query
    and fetches the zone file at most once. It reaches no remote source when
    its arguments are in the memo table, and it sends no trip query exactly
    when they are there or the payment labels translate to no code. *)
Theorem X3_a_call_sends_at_most_one_query (σ : Session)
    (start_datetime end_datetime hour_min hour_max : Z)
    (payment_labels selected_zone_names : list string) :
  let args := (start_datetime, end_datetime, hour_min, hour_max,
               payment_labels, selected_zone_names) in
  ∃ sent,
    remote_log (get_filtered_df remote args σ).2 = remote_log σ ++ sent
    ∧ (length (trip_queries sent) ≤ 1)%nat
    ∧ (length (zone_fetches sent) ≤ 1)%nat
    ∧ (is_Some (filtered_memo σ !! args) → sent = [])
    ∧ (trip_queries sent = []
       ↔ is_Some (filtered_memo σ !! args) ∨ payment_codes_of payment_labels = []).
Proof.
  intros args. subst args. unfold get_filtered_df.
  destruct (filtered_memo σ !! _) as [df|] eqn:Hmemo.
  - exists []. simpl. rewrite app_nil_r. split_and!; [done|lia|lia|done|].
    split; [eauto|done].
  - destruct (body_session start_datetime end_datetime hour_min hour_max
                payment_labels selected_zone_names σ) as (_ & _ & Hlog).
    rewrite load_zones_log in Hlog.
    destruct (get_filtered_df_body remote _ σ) as [df σ2]; simpl in *.
    eexists. split; [by rewrite Hlog, <- app_assoc|].
    rewrite trip_queries_app, zone_fetches_app, !length_app.
    destruct (zones_memo σ); case_bool_decide as Hc; simpl;
      (split_and!; [lia|lia|by intros [? ?]|]);
      (split; [try done; by right|]); try done;
      by intros [[? ?]|?].
Qed.

(** X4. Memoisation does not change what the caller gets: in every session
    the script can be in, the cached [get_filtered_df] returns the frame its
    body computes in a fresh session. *)
Theorem X4_cache_is_transparent (σ : Session) (args : Args) :
  reachable remote σ →
  (get_filtered_df remote args σ).1 = (get_filtered_df_body remote args fresh).1.
Proof.
  intros Hr%reachable_ok.
  destruct (get_filtered_df_ok remote args σ Hr) as [-> _].
  by destruct (body_result remote args fresh (fresh_ok remote)) as [-> _].
Qed.

End SessionTraffic.

(** ** The payment dictionaries and the sidebar *)

Section Dictionaries.
Import NewApp.

Lemma PAYMENT_MAP_codes (c : Z) : is_Some (PAYMENT_MAP !! c) ↔ 1 ≤ c ≤ 6.
Proof.
  rewrite PAYMENT_MAP_lookup. split.
  - repeat (case_bool_decide; [lia|]). by intros [? ?].
  - intros Hc. repeat (case_bool_decide; [eauto|]). lia.
Qed.

(** X5. [LABEL_TO_CODE] is the inverse of [PAYMENT_MAP]: a label translates to
    a code exactly when the code is labelled with it; the labels it knows are
    the six of [PAYMENT_MAP], whose codes are 1 to 6. *)
Theorem X5_label_code_round_trip (l : string) (c : Z) :
  (LABEL_TO_CODE !! l = Some c ↔ PAYMENT_MAP !! c = Some l)
  ∧ (is_Some (LABEL_TO_CODE !! l) ↔ l ∈ known_labels)
  ∧ (is_Some (PAYMENT_MAP !! c) ↔ 1 ≤ c ≤ 6).
Proof.
  split_and!.
  - apply LABEL_TO_CODE_lookup.
  - split.
    + intros [c' Hc']. apply LABEL_TO_CODE_lookup in Hc'.
      rewrite PAYMENT_MAP_lookup in Hc'.
      repeat (case_bool_decide;
              [simplify_eq; apply (bool_decide_unpack _); vm_compute; exact I|]).
      done.
    + unfold known_labels. rewrite !elem_of_cons, elem_of_nil.
      intros [->|[->|[->|[->|[->|[->|[]]]]]]]; vm_compute; eauto.
  - apply PAYMENT_MAP_codes.
Qed.




End Dictionaries.

Section DateControl.
Import Sidebar.

Lemma day_of_window (a b p : Z) :
  to_datetime a ≤ p < to_datetime b + Timedelta_days 1 ↔ a ≤ dt_date p ≤ b.
Proof.
  unfold to_datetime, Timedelta_days, dt_date.
  assert (HD : 0 < US_PER_DAY) by (vm_compute; reflexivity).
  generalize dependent US_PER_DAY. intros D HD.
  pose proof (Z.div_mod p D ltac:(lia)) as Hp.
  pose proof (Z.mod_pos_bound p D HD) as Hm.
  split; intros [H1 H2]; split; nia.
Qed.

(** X7. The window the scripts build from the date control, from midnight of
    the first date up to, but not including, midnight after the last date,
    holds exactly the times whose calendar day lies between the two dates,
    both included. A single date and a tuple of one date select that one day;
    only the empty tuple gives no window ([date_range[0]] raises). *)
Theorem X7_window_is_the_selected_days (date_range : DateInput) :
  (datetime_window date_range = None ↔ date_range = date_tuple [])
  ∧ (∀ d, datetime_window (one_date d) = datetime_window (date_tuple [d]))
  ∧ ∀ start_date end_date,
      selected_dates date_range = Some (start_date, end_date) →
      ∃ start_datetime end_datetime,
        datetime_window date_range = Some (start_datetime, end_datetime)
        ∧ ∀ t, start_datetime ≤ t < end_datetime
               ↔ start_date ≤ dt_date t ≤ end_date.
Proof.
  split_and!.
  - unfold datetime_window, selected_dates.
    destruct date_range as [d|[|d ds]]; simpl; [done|done|].
    destruct (last (d :: ds)) eqn:Hl; [done|].
    by apply last_None in Hl.
  - done.
  - intros a b Hsel. unfold datetime_window. rewrite Hsel.
    eexists _, _. split; [done|]. intros t. apply day_of_window.
Qed.

End DateControl.

(** ** The date bounds and the rows of the result *)

Section Bounds.
Import NewApp Sidebar.

Lemma foldr_min_le (v : Z) (rest : list Z) x :
  x ∈ v :: rest → foldr Z.min v rest ≤ x.
Proof.
  induction rest as [|y rest IH]; simpl.
  - intros ->%list_elem_of_singleton. lia.
  - rewrite !elem_of_cons. intros [->|[->|Hx]].
    + etrans; [apply Z.le_min_r|]. apply IH. by left.
    + apply Z.le_min_l.
    + etrans; [apply Z.le_min_r|]. apply IH. by right.
Qed.

Lemma foldr_max_ge (v : Z) (rest : list Z) x :
  x ∈ v :: rest → x ≤ foldr Z.max v rest.
Proof.
  induction rest as [|y rest IH]; simpl.
  - intros ->%list_elem_of_singleton. lia.
  - rewrite !elem_of_cons. intros [->|[->|Hx]].
    + etrans; [|apply Z.le_max_r]. apply IH. by left.
    + apply Z.le_max_l.
    + etrans; [|apply Z.le_max_r]. apply IH. by right.
Qed.

Lemma agg_min_max_bounds (vs : list (option Z)) x :
  Some x ∈ vs →
  ∃ lo hi, SQL.agg_min vs = Some lo ∧ SQL.agg_max vs = Some hi ∧ lo ≤ x ≤ hi.
Proof.
  intros Hx. assert (Hin : x ∈ omap id vs).
  { apply list_elem_of_omap. by exists (Some x). }
  unfold SQL.agg_min, SQL.agg_max.
  destruct (omap id vs) as [|v rest]; [by apply not_elem_of_nil in Hin|].
  eexists _, _. split_and!; [done|done|by apply foldr_min_le|by apply foldr_max_ge].
Qed.

Lemma agg_min_max_none (vs : list (option Z)) :
  Forall (λ v, v = None) vs → SQL.agg_min vs = None ∧ SQL.agg_max vs = None.
Proof.
  intros Hall. unfold SQL.agg_min, SQL.agg_max.
  replace (omap id vs) with (@nil Z); [done|].
  induction Hall as [|v vs -> _ IH]; [done|]. exact IH.
Qed.

Lemma dt_date_mono a b : a ≤ b → dt_date a ≤ dt_date b.
Proof. intros. apply Z.div_le_mono; [by vm_compute|done]. Qed.

Lemma default_window_holds (remote : Remote) t pickup :
  t ∈ TRIP_URL remote →
  tpep_pickup_datetime (cols t) = Some pickup →
  ∃ min_dt max_dt,
    get_min_max_dates remote = (Some min_dt, Some max_dt)
    ∧ min_dt ≤ pickup ≤ max_dt
    ∧ default_date_range remote
      = Some (date_tuple [dt_date min_dt; dt_date max_dt])
    ∧ to_datetime (dt_date min_dt) ≤ pickup
      < to_datetime (dt_date max_dt) + Timedelta_days 1.
Proof.
  intros Ht Hp.
  destruct (agg_min_max_bounds
              ((λ t, tpep_pickup_datetime (cols t)) <$> TRIP_URL remote) pickup)
    as (mn & mx & Hmn & Hmx & Hlo & Hhi).
  { apply list_elem_of_fmap. exists t. by rewrite Hp. }
  exists mn, mx. unfold default_date_range, get_min_max_dates.
  rewrite Hmn, Hmx. do 3 (split; [done|]).
  apply day_of_window. split; by apply dt_date_mono.
Qed.

(** X8. [get_min_max_dates] answers with a lower and an upper bound of all
    pickup times of the trip file, and with nothing when no trip has one.
    The window of the default date range, from the day of the earliest to the
    day of the latest pickup, holds the pickup time of every trip. *)
Theorem X8_default_dates_hold_every_pickup (remote : Remote) :
  (Forall (λ t, tpep_pickup_datetime (cols t) = None) (TRIP_URL remote) →
   get_min_max_dates remote = (None, None) ∧ default_date_range remote = None)
  ∧ ∀ t pickup,
      t ∈ TRIP_URL remote →
      tpep_pickup_datetime (cols t) = Some pickup →
      ∃ min_dt max_dt date_range start_datetime end_datetime,
        get_min_max_dates remote = (Some min_dt, Some max_dt)
        ∧ min_dt ≤ pickup ≤ max_dt
        ∧ default_date_range remote = Some date_range
        ∧ datetime_window date_range = Some (start_datetime, end_datetime)
        ∧ start_datetime ≤ pickup < end_datetime.
Proof.
  split.
  - intros Hall. unfold default_date_range, get_min_max_dates.
    destruct (agg_min_max_none
                ((λ t, tpep_pickup_datetime (cols t)) <$> TRIP_URL remote))
      as [-> ->]; [by apply Forall_fmap|done].
  - intros t p Ht Hp.
    destruct (default_window_holds remote t p Ht Hp) as (mn & mx & Hmm & Hb & Hdr & Hw).
    exists mn, mx. eexists _, _, _. do 3 (split; [done|]). by split.
Qed.

End Bounds.

Section Rows.
Import NewApp.
Context (remote : Remote).

(** The duration is there when the two timestamps are, and it is positive
    when the dropoff comes after the pickup. *)
Lemma duration_minutes_spec (dropoff pickup : Z) :
  ∃ minutes,
    duration_minutes (Some dropoff) (Some pickup) = Some minutes
    ∧ (pickup < dropoff → (0 < minutes)%Q).
Proof.
  eexists. split; [reflexivity|]. intros Hlt.
  unfold total_seconds. rewrite !Qred_correct.
  unfold Qlt, Qdiv, Qmult, Qinv; simpl. lia.
Qed.

Lemma duration_minutes_pos (dropoff pickup : Z) minutes :
  pickup < dropoff →
  duration_minutes (Some dropoff) (Some pickup) = Some minutes → (0 < minutes)%Q.
Proof.
  intros Hlt Hd.
  destruct (duration_minutes_spec dropoff pickup) as (m & Hm & Hpos).
  rewrite Hd in Hm. injection Hm as <-. by apply Hpos.
Qed.

(** X9. The derived columns of a returned row agree with the filter that
    selected it: its pickup lies in the date window and its [pickup_date] is
    the day of that pickup, its [pickup_hour] is the hour of the pickup and
    lies in the selected hour range, its dropoff comes after its pickup and
    its [trip_duration_minutes] is there and positive. *)
Theorem X9_derived_columns_agree_with_filter (σ : Session)
    (start_datetime end_datetime hour_min hour_max : Z)
    (payment_labels selected_zone_names : list string) (r : DerivedRow) :
  reachable remote σ →
  r ∈ rows (get_filtered_df remote
              (start_datetime, end_datetime, hour_min, hour_max,
               payment_labels, selected_zone_names) σ).1 →
  ∃ pickup dropoff minutes,
    tpep_pickup_datetime (raw r) = Some pickup
    ∧ tpep_dropoff_datetime (raw r) = Some dropoff
    ∧ start_datetime ≤ pickup < end_datetime
    ∧ pickup_date r = Some (dt_date pickup)
    ∧ pickup_hour r = Some (dt_hour pickup)
    ∧ hour_min ≤ dt_hour pickup ≤ hour_max
    ∧ pickup < dropoff
    ∧ trip_duration_minutes r = Some minutes
    ∧ (0 < minutes)%Q.
Proof.
  intros Hok%reachable_ok.
  destruct (get_filtered_df_ok remote
              (start_datetime, end_datetime, hour_min, hour_max,
               payment_labels, selected_zone_names) σ Hok) as [-> _].
  intros (t & z & -> & Hsat & _)%result_row_inv'.
  destruct Hsat as (p & d & dist & fare & c & Hp & Hd & _ & _ & _ & Hwin & Hhour
                    & _ & _ & _ & _ & Hlt & _).
  destruct (duration_minutes_spec d p) as (m & Hm & Heq).
  exists p, d, m. simpl. rewrite Hp, Hd. split_and!; try done; try lia.
  by apply (duration_minutes_pos d p).
Qed.

Lemma NoDup_fmap_inj_on {A B} (f : A → B) (l : list A) x y :
  NoDup (f <$> l) → x ∈ l → y ∈ l → f x = f y → x = y.
Proof.
  induction l as [|a l IH]; [by intros _ ?%not_elem_of_nil|].
  rewrite fmap_cons, NoDup_cons, !elem_of_cons.
  intros [Ha Hnd] [->|Hx] [->|Hy] Hf; [done| | |by apply IH].
  - destruct Ha. rewrite Hf. by apply list_elem_of_fmap_2.
  - destruct Ha. rewrite <- Hf. by apply list_elem_of_fmap_2.
Qed.

(** X10. When the selected zone names resolve to location ids, every returned
    row was picked up at one of those ids; and when no location id occurs
    twice in the zone table, the row carries that id as [LocationID] and its
    [pickup_zone] is one of the selected names. *)
Theorem X10_rows_are_in_the_selected_zones (σ : Session)
    (start_datetime end_datetime hour_min hour_max : Z)
    (payment_labels selected_zone_names : list string) (r : DerivedRow) :
  reachable remote σ →
  resolve_zones (ZONE_URL remote) selected_zone_names ≠ [] →
  r ∈ rows (get_filtered_df remote
              (start_datetime, end_datetime, hour_min, hour_max,
               payment_labels, selected_zone_names) σ).1 →
  (∃ loc, PULocationID (raw r) = Some loc
          ∧ loc ∈ resolve_zones (ZONE_URL remote) selected_zone_names)
  ∧ (NoDup (Zones.LocationID <$> ZONE_URL remote) →
     LocationID r = PULocationID (raw r)
     ∧ ∃ name, pickup_zone r = Some name ∧ name ∈ selected_zone_names).
Proof.
  intros Hok%reachable_ok Hres.
  destruct (get_filtered_df_ok remote
              (start_datetime, end_datetime, hour_min, hour_max,
               payment_labels, selected_zone_names) σ Hok) as [-> _].
  intros (t & z & -> & Hsat & Hz)%result_row_inv'.
  destruct Hsat as (p & d & dist & fare & c & _ & _ & _ & _ & _ & _ & _
                    & _ & _ & _ & _ & _ & Hzone).
  destruct (Hzone Hres) as (loc & Hloc & Hin). split; [by exists loc|].
  intros Hnd. simpl.
  apply elem_of_resolve_zones in Hin as (z0 & n & Hz0 & Hid & Hn & Hnames).
  destruct z as [z|].
  - destruct Hz as [Hzin Hpu].
    assert (z = z0) as ->.
    { apply (NoDup_fmap_inj_on Zones.LocationID (ZONE_URL remote)); try done.
      congruence. }
    simpl. split; [congruence|]. by exists n.
  - exfalso. apply (Hz z0 Hz0). congruence.
Qed.

(** X11. The guard of the script tells an empty result from a result with
    rows: [filtered_df.empty] holds exactly when the frame returned has no
    row. *)
Theorem X11_empty_means_no_rows (σ : Session) (args : Args) :
  reachable remote σ →
  empty (get_filtered_df remote args σ).1 = true
  ↔ rows (get_filtered_df remote args σ).1 = [].
Proof.
  intros Hok%reachable_ok.
  destruct (get_filtered_df_ok remote args σ Hok) as [-> _].
  destruct args as [[[[[s e] lo] hi] labels] names].
  unfold result_of.
  destruct (decide (payment_codes_of labels = [])) as [Hc|Hc].
  - rewrite bool_decide_eq_true_2 by done. split; intros _; reflexivity.
  - rewrite bool_decide_eq_false_2 by done. unfold empty.
    rewrite orb_true_iff, !bool_decide_eq_true. unfold derive; simpl.
    split; [intros [Hcols|Hrows]; [by vm_compute in Hcols|done]|by right].
Qed.

End Rows.

(** ** The key metrics *)

Section Means.

Lemma omap_id_Some {A} (xs : list A) : omap id (Some <$> xs) = xs.
Proof. induction xs as [|x xs IH]; [done|]. csimpl. by rewrite IH. Qed.

Lemma all_present {A} (P : A → Prop) (s : list (option A)) :
  Forall (λ v, ∃ x, v = Some x ∧ P x) s →
  ∃ xs, s = Some <$> xs ∧ Forall P xs.
Proof.
  induction 1 as [|v s (x & -> & Hx) _ (xs & -> & Hxs)].
  - by exists [].
  - exists (x :: xs). split; [done|by constructor].
Qed.

Lemma count_as_Q (k : nat) :
  (inject_Z (Z.of_nat (S k)) == 1 + inject_Z (Z.of_nat k))%Q.
Proof. rewrite Nat2Z.inj_succ. unfold Z.succ. rewrite inject_Z_plus. ring. Qed.

Lemma count_as_Q_pos (k : nat) : (0 < inject_Z (Z.of_nat (S k)))%Q.
Proof. unfold Qlt; simpl. lia. Qed.

Lemma sum_nonneg (xs : list Q) :
  Forall (λ x, 0 < x)%Q xs → (0 <= foldr Qplus 0 xs)%Q.
Proof.
  induction 1 as [|x xs Hx _ IH]; simpl; [apply Qle_refl|].
  apply Qlt_le_weak in Hx.
  apply (Qle_trans _ (0 + 0)); [by vm_compute|by apply Qplus_le_compat].
Qed.

Lemma sum_pos (x : Q) (xs : list Q) :
  Forall (λ x, 0 < x)%Q (x :: xs) → (0 < foldr Qplus 0 (x :: xs))%Q.
Proof.
  intros [Hx Hxs]%Forall_cons. simpl.
  apply (Qlt_le_trans _ (x + 0)); [by rewrite Qplus_0_r|].
  apply Qplus_le_compat; [apply Qle_refl|by apply sum_nonneg].
Qed.

Lemma sum_le (B : Q) (xs : list Q) :
  Forall (λ x, x <= B)%Q xs →
  (foldr Qplus 0 xs <= B * inject_Z (Z.of_nat (length xs)))%Q.
Proof.
  induction 1 as [|x xs Hx _ IH].
  - simpl. assert (E : (B * inject_Z 0 == 0)%Q) by ring. rewrite E. apply Qle_refl.
  - cbn [foldr length]. rewrite count_as_Q.
    assert (E : (B * (1 + inject_Z (Z.of_nat (length xs)))
                 == B + B * inject_Z (Z.of_nat (length xs)))%Q) by ring.
    rewrite E. by apply Qplus_le_compat.
Qed.

(** The mean of a column without missing values, all positive: it is there
    when the column is not empty, it is positive, and it is at most any bound
    of the values. *)
Lemma mean_of_positive (s : list (option Q)) :
  s ≠ [] →
  Forall (λ v, ∃ x, v = Some x ∧ (0 < x)%Q) s →
  ∃ m, Pandas.mean s = Some m
       ∧ (0 < m)%Q
       ∧ ∀ B, Forall (λ v, ∀ x, v = Some x → (x <= B)%Q) s → (m <= B)%Q.
Proof.
  intros Hne (xs & -> & Hpos)%all_present.
  unfold Pandas.mean. rewrite omap_id_Some.
  destruct xs as [|x xs]; [done|]. eexists. split; [done|]. split.
  - apply Qlt_shift_div_l; [apply count_as_Q_pos|].
    rewrite Qmult_0_l. by apply sum_pos.
  - intros B HB. apply Qle_shift_div_r; [apply count_as_Q_pos|].
    apply (sum_le B (x :: xs)).
    apply Forall_fmap in HB. eapply Forall_impl; [exact HB|].
    intros y Hy. by apply Hy.
Qed.

(** The mean of a column whose values present are positive: it is missing
    exactly when every value is, and positive otherwise. *)
Lemma mean_of_present_positive (s : list (option Q)) :
  Forall (λ v, ∀ x, v = Some x → (0 < x)%Q) s →
  (Pandas.mean s = None ↔ Forall (λ v, v = None) s)
  ∧ ∀ m, Pandas.mean s = Some m → (0 < m)%Q.
Proof.
  intros Hpos.
  assert (Hvs : Forall (λ x, 0 < x)%Q (omap id s)).
  { apply Forall_forall. intros x (v & Hv & Hx)%list_elem_of_omap.
    rewrite Forall_forall in Hpos. apply (Hpos v Hv). by destruct v; simplify_eq/=. }
  assert (Hnil : omap id s = [] ↔ Forall (λ v, v = None) s).
  { clear. induction s as [|[x|] s IH]; csimpl.
    - split; [constructor|done].
    - split; [done|]. by intros [? _]%Forall_cons.
    - rewrite IH. split; [by constructor|by intros [_ ?]%Forall_cons]. }
  unfold Pandas.mean. destruct (omap id s) as [|x xs].
  - split; [|done]. split; [intros _; by apply Hnil|done].
  - split.
    + split; [done|]. intros Hall%Hnil. done.
    + intros m [= <-]. apply Qlt_shift_div_l; [apply count_as_Q_pos|].
      rewrite Qmult_0_l. by apply sum_pos.
Qed.

End Means.

Section Metrics.
Import NewApp.
Context (remote : Remote).

(** A returned row comes from a trip that is clean, but for a distance that
    may be NaN, and has a positive duration. *)
Lemma result_row_clean (start_ end_ lo hi : Z) (labels names : list string) r :
  r ∈ rows (result_of remote (start_, end_, lo, hi, labels, names)) →
  clean_for_the_engine (raw r)
  ∧ ∃ minutes, trip_duration_minutes r = Some minutes ∧ (0 < minutes)%Q.
Proof.
  intros (t & z & -> & Hsat & _)%result_row_inv'.
  destruct Hsat as (p & d & dist & fare & c & Hp & Hd & Hdist & Hfare & _ & _ & _
                    & _ & Hd0 & Hf0 & Hf500 & Hlt & _).
  split.
  - exists p, d, dist, fare. by split_and!.
  - simpl. rewrite Hp, Hd.
    destruct (duration_minutes_spec d p) as (m & Hm & _).
    exists m. split; [done|]. by apply (duration_minutes_pos d p).
Qed.

(** The fare of a returned row, as pandas reads it. *)
Lemma result_row_fare (start_ end_ lo hi : Z) (labels names : list string) r :
  r ∈ rows (result_of remote (start_, end_, lo, hi, labels, names)) →
  ∃ fare, Pandas.number (fare_amount (raw r)) = Some fare
          ∧ (0 < fare)%Q ∧ (fare <= 500)%Q.
Proof.
  intros [(p & d & dist & fare & _ & _ & _ & Hfare & _ & Hf0 & Hf500 & _) _]%result_row_clean.
  exists fare. by rewrite Hfare.
Qed.

(** Its distance, as pandas reads it: missing when it is NaN, positive
    otherwise. *)
Lemma result_row_distance (start_ end_ lo hi : Z) (labels names : list string) r :
  r ∈ rows (result_of remote (start_, end_, lo, hi, labels, names)) →
  (Pandas.number (trip_distance (raw r)) = None ↔ trip_distance (raw r) = Some NaN)
  ∧ ∀ miles, Pandas.number (trip_distance (raw r)) = Some miles → (0 < miles)%Q.
Proof.
  intros [(p & d & dist & fare & _ & _ & Hdist & _ & Hd0 & _) _]%result_row_clean.
  rewrite Hdist. destruct dist as [|miles]; simpl.
  - split; [done|]. by intros miles [=].
  - split; [split; by intros [=]|]. by intros ? [= <-].
Qed.

(** X12. For a result with at least one row, which is all the script goes on
    with, the number of trips is the number of rows, the average fare is
    there, positive and at most 500, and the average duration is there and
    positive. The average distance is positive when it is there; it is
    missing (NaN) exactly when the distance of every row is NaN. *)
Theorem X12_key_metrics_are_defined (σ : Session) (args : Args) :
  reachable remote σ →
  empty (get_filtered_df remote args σ).1 = false →
  let df := (get_filtered_df remote args σ).1 in
  let m := key_metrics df in
  total_trips m = length (rows df)
  ∧ (0 < total_trips m)%nat
  ∧ (∃ fare minutes,
       average_fare m = Some fare ∧ (0 < fare)%Q ∧ (fare <= 500)%Q
       ∧ avg_duration m = Some minutes ∧ (0 < minutes)%Q)
  ∧ (avg_distance m = None
     ↔ Forall (λ r, trip_distance (raw r) = Some NaN) (rows df))
  ∧ ∀ distance, avg_distance m = Some distance → (0 < distance)%Q.
Proof.
  intros Hok%reachable_ok.
  destruct (get_filtered_df_ok remote args σ Hok) as [-> _].
  destruct args as [[[[[s e] lo] hi] labels] names].
  intros Hempty df m. subst m.
  assert (Hrows : rows df ≠ []).
  { intros Hnil. unfold empty in Hempty. fold df in Hempty. rewrite Hnil in Hempty.
    by rewrite orb_true_r in Hempty. }
  assert (Hne : ∀ (f : DerivedRow → option Q), f <$> rows df ≠ []).
  { intros f Hf. apply Hrows. by apply fmap_nil_inv in Hf. }
  destruct (mean_of_positive ((λ r, Pandas.number (fare_amount (raw r))) <$> rows df))
    as (fare & Hfare & Hfare0 & Hfare500); [done| |].
  { apply Forall_fmap, Forall_forall. intros r Hr.
    apply result_row_fare in Hr as (f & Hf & ? & _). eauto. }
  destruct (mean_of_positive (trip_duration_minutes <$> rows df))
    as (mins & Hmins & Hmins0 & _); [done| |].
  { apply Forall_fmap, Forall_forall. intros r Hr.
    apply result_row_clean in Hr as [_ (mi & ? & ?)]. eauto. }
  destruct (mean_of_present_positive
              ((λ r, Pandas.number (trip_distance (raw r))) <$> rows df))
    as [Hnone Hsome].
  { apply Forall_fmap, Forall_forall. intros r Hr. simpl.
    by apply result_row_distance in Hr as [_ ?]. }
  split_and!; [done| | | |].
  - simpl. destruct (rows df); [done|simpl; lia].
  - exists fare, mins. split_and!; try done.
    apply Hfare500, Forall_fmap, Forall_forall. intros r Hr x Hx. simpl in Hx.
    apply result_row_fare in Hr as (f & Hf & _ & ?). congruence.
  - cbn [avg_distance key_metrics]. rewrite Hnone, Forall_fmap, !Forall_forall.
    split; intros Hall r Hr; specialize (Hall r Hr); simpl in *;
      by apply result_row_distance in Hr as [? _]; tauto.
  - exact Hsome.
Qed.

End Metrics.

(** ** The tables behind the charts *)

Section Counting.
Context {A : Type} `{EqDecision A}.

Lemma sum_list_with_ext (f g : A → nat) (l : list A) :
  (∀ v, v ∈ l → f v = g v) → sum_list_with f l = sum_list_with g l.
Proof.
  induction l as [|x l IH]; [done|]. intros Hfg. simpl.
  rewrite (Hfg x) by by left. rewrite IH; [done|].
  intros v Hv. apply Hfg. by right.
Qed.

Lemma sum_list_with_plus (f g : A → nat) (l : list A) :
  sum_list_with (λ v, f v + g v)%nat l = (sum_list_with f l + sum_list_with g l)%nat.
Proof. induction l as [|x l IH]; simpl; lia. Qed.

Lemma sum_list_with_zero (l : list A) : sum_list_with (λ _, 0%nat) l = 0%nat.
Proof. induction l as [|x l IH]; simpl; lia. Qed.

Lemma sum_list_with_indicator (x : A) (l : list A) :
  NoDup l → x ∈ l →
  sum_list_with (λ v, if decide (x = v) then 1 else 0)%nat l = 1%nat.
Proof.
  induction 1 as [|y l Hy Hnd IH]; [by intros ?%not_elem_of_nil|].
  rewrite elem_of_cons. simpl. destruct (decide (x = y)) as [->|Hne].
  - intros _. rewrite (sum_list_with_ext _ (λ _, 0%nat)).
    + by rewrite sum_list_with_zero.
    + intros v Hv. destruct (decide (y = v)) as [->|]; done.
  - intros [?|Hx]; [done|]. by rewrite IH.
Qed.

(** Counting every value once accounts for every element. *)
Lemma sum_of_counts (idx vs : list A) :
  NoDup idx → (∀ x, x ∈ vs → x ∈ idx) →
  sum_list_with (λ v, length (filter (λ x, x = v) vs)) idx = length vs.
Proof.
  intros Hnd. induction vs as [|x vs IH]; intros Hin.
  - apply sum_list_with_zero.
  - rewrite (sum_list_with_ext _
               (λ v, (if decide (x = v) then 1 else 0)
                     + length (filter (λ y, y = v) vs))%nat).
    + rewrite sum_list_with_plus, sum_list_with_indicator, IH; [done| |done|].
      * intros y Hy. apply Hin. by right.
      * apply Hin. by left.
    + intros v _. rewrite filter_cons. by destruct (decide (x = v)).
Qed.

Lemma count_present (s : list (option A)) (v : A) :
  length (filter (λ x, x = v) (omap id s))
  = length (filter (λ o, o = Some v) s).
Proof.
  induction s as [|[x|] s IH]; [done| |]; csimpl; rewrite !filter_cons.
  - destruct (decide (x = v)) as [->|Hne].
    + rewrite decide_True by done. simpl. by rewrite IH.
    + rewrite decide_False by congruence. done.
  - by rewrite decide_False.
Qed.

#[local] Instance count_ge_trans : Transitive (@Pandas.count_ge A).
Proof. intros [? a] [? b] [? c]. unfold Pandas.count_ge; simpl. lia. Qed.

#[local] Instance count_ge_total : Total (@Pandas.count_ge A).
Proof. intros [? a] [? b]. unfold Pandas.count_ge; simpl. lia. Qed.

Lemma value_counts_Permutation (s : list (option A)) :
  Pandas.value_counts s
  ≡ₚ (λ v, (v, length (filter (λ o, o = Some v) s))) <$> Pandas.unique (omap id s).
Proof.
  unfold Pandas.value_counts. rewrite merge_sort_Permutation.
  erewrite list_fmap_ext; [done|]. intros _ v _. simpl. by rewrite count_present.
Qed.

Lemma elem_of_value_counts (s : list (option A)) v c :
  (v, c) ∈ Pandas.value_counts s
  ↔ Some v ∈ s ∧ c = length (filter (λ o, o = Some v) s).
Proof.
  rewrite value_counts_Permutation, list_elem_of_fmap.
  setoid_rewrite elem_of_unique. setoid_rewrite list_elem_of_omap.
  split.
  - intros (v' & [= <- ->] & ([x|] & Hx & [= <-])). done.
  - intros [Hv ->]. exists v. split; [done|]. by exists (Some v).
Qed.

Lemma value_counts_NoDup (s : list (option A)) : NoDup (Pandas.value_counts s).*1.
Proof.
  rewrite value_counts_Permutation, <- list_fmap_compose.
  rewrite (list_fmap_ext _ id) by done. rewrite list_fmap_id.
  apply NoDup_unique.
Qed.

Lemma value_counts_sorted (s : list (option A)) :
  StronglySorted Pandas.count_ge (Pandas.value_counts s).
Proof. apply StronglySorted_merge_sort; apply _. Qed.

Lemma sum_list_with_fmap {B} (g : B → nat) (f : A → B) (l : list A) :
  sum_list_with g (f <$> l) = sum_list_with (g ∘ f) l.
Proof. induction l as [|x l IH]; [done|]. csimpl. by f_equal. Qed.

Lemma value_counts_total (s : list (option A)) :
  total_count (Pandas.value_counts s) = length (omap id s).
Proof.
  change (total_count (Pandas.value_counts s))
    with (sum_list_with snd (Pandas.value_counts s)).
  unfold Pandas.value_counts.
  rewrite merge_sort_Permutation, sum_list_with_fmap.
  apply sum_of_counts; [apply NoDup_unique|].
  intros x Hx. by apply elem_of_unique.
Qed.

End Counting.

Section Tables.
Import NewApp.

Lemma length_filter_fmap {A B} (f : A → B) (P : B → Prop) `{!∀ y, Decision (P y)}
    (l : list A) :
  length (filter P (f <$> l)) = length (filter (λ x, P (f x)) l).
Proof.
  induction l as [|x l IH]; [done|]. csimpl. rewrite !filter_cons.
  destruct (decide (P (f x))); simpl; by rewrite IH.
Qed.

(** X13. The table of the top pickup zones has at most ten rows, each a
    different zone that occurs in the frame, with the number of rows picked up
    there; the rows come with the largest count first, and no zone left out
    of the table has more trips than a zone in it. *)
Theorem X13_top_zones_are_the_most_frequent (filtered_df : DataFrame) :
  let trips_from zone :=
    length (filter (λ r, pickup_zone r = Some zone) (rows filtered_df)) in
  (length (top_zones filtered_df) ≤ 10)%nat
  ∧ StronglySorted Pandas.count_ge (top_zones filtered_df)
  ∧ NoDup (top_zones filtered_df).*1
  ∧ (∀ zone trips, (zone, trips) ∈ top_zones filtered_df →
       trips = trips_from zone ∧ (0 < trips)%nat)
  ∧ (∀ zone, zone ∉ (top_zones filtered_df).*1 →
       ∀ zone' trips', (zone', trips') ∈ top_zones filtered_df →
         (trips_from zone ≤ trips')%nat).
Proof.
  intros trips_from. unfold top_zones, Pandas.head.
  set (s := pickup_zone <$> rows filtered_df).
  set (vc := Pandas.value_counts s).
  assert (Hcount : ∀ zone, length (filter (λ o, o = Some zone) s) = trips_from zone).
  { intros zone. unfold s, trips_from. by rewrite length_filter_fmap. }
  pose proof (value_counts_sorted s) as Hsorted. fold vc in Hsorted.
  rewrite <- (take_drop 10 vc) in Hsorted.
  apply StronglySorted_app in Hsorted as (Hcross & Htake & _).
  split_and!.
  - rewrite length_take. lia.
  - done.
  - rewrite fmap_take.
    eapply sublist_NoDup; [apply value_counts_NoDup|apply sublist_take].
  - intros zone trips Hin%subseteq_take.
    apply elem_of_value_counts in Hin as [Hz ->]. rewrite Hcount. split; [done|].
    rewrite <- Hcount.
    assert (Hf : Some zone ∈ filter (λ o, o = Some zone) s)
      by by apply list_elem_of_filter.
    destruct (filter _ s); [by apply not_elem_of_nil in Hf|simpl; lia].
  - intros zone Hout zone' trips' Hin'.
    destruct (decide (Some zone ∈ s)) as [Hz|Hz].
    + assert (Hvc : (zone, trips_from zone) ∈ vc).
      { apply elem_of_value_counts. by rewrite Hcount. }
      rewrite <- (take_drop 10 vc), elem_of_app in Hvc.
      destruct Hvc as [Htk|Hdr].
      * destruct Hout. apply list_elem_of_fmap. by exists (zone, trips_from zone).
      * exact (Hcross _ _ Hin' Hdr).
    + rewrite <- Hcount.
      rewrite (filter_none (λ o, o = Some zone)); [simpl; lia|].
      intros o Ho ->. done.
Qed.

(** X14. The table of payment types lists every payment label of the frame
    once with the number of its rows, the largest count first, and the counts
    add up to the number of rows of the frame. *)
Theorem X14_payment_counts_add_up (filtered_df : DataFrame) :
  total_count (payment_counts filtered_df) = length (rows filtered_df)
  ∧ StronglySorted Pandas.count_ge (payment_counts filtered_df)
  ∧ NoDup (payment_counts filtered_df).*1
  ∧ ∀ label trips,
      (label, trips) ∈ payment_counts filtered_df
      ↔ (∃ r, r ∈ rows filtered_df ∧ payment_label r = label)
        ∧ trips = length (filter (λ r, payment_label r = label) (rows filtered_df)).
Proof.
  unfold payment_counts. split_and!.
  - rewrite value_counts_total.
    replace ((λ r, Some (payment_label r)) <$> rows filtered_df)
      with (Some <$> (payment_label <$> rows filtered_df))
      by (by rewrite <- list_fmap_compose).
    by rewrite omap_id_Some, length_fmap.
  - apply value_counts_sorted.
  - apply value_counts_NoDup.
  - intros label trips. rewrite elem_of_value_counts, list_elem_of_fmap.
    rewrite length_filter_fmap.
    assert (Hext : filter (λ r, Some (payment_label r) = Some label) (rows filtered_df)
                   = filter (λ r, payment_label r = label) (rows filtered_df)).
    { apply list_filter_iff. intros r. split; congruence. }
    rewrite Hext. split.
    + intros [(r & [= ->] & Hr) ->]. eauto.
    + intros [(r & Hr & <-) ->]. eauto.
Qed.

End Tables.

Section GroupedTables.
Import NewApp.
Context (remote : Remote).

Lemma StronglySorted_le_lt (l : list Z) :
  StronglySorted Z.le l → NoDup l → StronglySorted Z.lt l.
Proof.
  induction 1 as [|x l Hl IH Hx]; [constructor|].
  intros [Hnotin Hnd]%NoDup_cons. constructor; [by apply IH|].
  rewrite Forall_forall in Hx. apply Forall_forall. intros y Hy.
  specialize (Hx y Hy). assert (x ≠ y) by (by intros ->). lia.
Qed.

Lemma sorted_unique_strict (l : list Z) :
  StronglySorted Z.lt (merge_sort Z.le (Pandas.unique l)).
Proof.
  apply StronglySorted_le_lt.
  - apply StronglySorted_merge_sort; apply _.
  - rewrite merge_sort_Permutation. apply NoDup_unique.
Qed.

(** X15. In the table of the average fare by hour of a result, the hours come
    in strictly ascending order and are the hours at which a row of the
    result was picked up; each lies in the selected hour range, and its
    average fare is defined, positive and at most 500. *)
Theorem X15_average_fare_by_hour (σ : Session)
    (start_datetime end_datetime hour_min hour_max : Z)
    (payment_labels selected_zone_names : list string) :
  reachable remote σ →
  let df := (get_filtered_df remote
               (start_datetime, end_datetime, hour_min, hour_max,
                payment_labels, selected_zone_names) σ).1 in
  StronglySorted Z.lt (avg_fare_hour df).*1
  ∧ (∀ h, h ∈ (avg_fare_hour df).*1 ↔ ∃ r, r ∈ rows df ∧ pickup_hour r = Some h)
  ∧ ∀ h mean, (h, mean) ∈ avg_fare_hour df →
      hour_min ≤ h ≤ hour_max ∧ 0 ≤ h ≤ 23
      ∧ ∃ fare, mean = Some fare ∧ (0 < fare)%Q ∧ (fare <= 500)%Q.
Proof.
  intros Hok%reachable_ok df. unfold df.
  destruct (get_filtered_df_ok remote
              (start_datetime, end_datetime, hour_min, hour_max,
               payment_labels, selected_zone_names) σ Hok) as [-> _].
  clear df.
  set (df := result_of remote
               (start_datetime, end_datetime, hour_min, hour_max,
                payment_labels, selected_zone_names)).
  assert (Hhours : (avg_fare_hour df).*1
                   = merge_sort Z.le (Pandas.unique (omap pickup_hour (rows df)))).
  { unfold avg_fare_hour. rewrite <- list_fmap_compose.
    rewrite (list_fmap_ext _ id) by done. apply list_fmap_id. }
  assert (Hmem : ∀ h, h ∈ (avg_fare_hour df).*1
                      ↔ ∃ r, r ∈ rows df ∧ pickup_hour r = Some h).
  { intros h. rewrite Hhours, merge_sort_Permutation, elem_of_unique.
    apply list_elem_of_omap. }
  split_and!; [rewrite Hhours; apply sorted_unique_strict|done|].
  intros h mean Hin.
  assert (Hh : h ∈ (avg_fare_hour df).*1).
  { apply list_elem_of_fmap. by exists (h, mean). }
  apply Hmem in Hh as (r0 & Hr0 & Hhour0).
  unfold avg_fare_hour in Hin.
  apply list_elem_of_fmap in Hin as (h' & [= <- ->] & _).
  assert (Hrange : hour_min ≤ h ≤ hour_max ∧ 0 ≤ h ≤ 23).
  { pose proof Hr0 as (t & z & -> & Hsat & _)%result_row_inv'.
    destruct Hsat as (p & d & dist & fare & c & Hp & _ & _ & _ & _ & _ & Hh & _).
    simpl in Hhour0. rewrite Hp in Hhour0. simpl in Hhour0. simplify_eq.
    split; [done|apply dt_hour_range]. }
  split; [apply Hrange|]. split; [apply Hrange|].
  set (group := filter (λ r, pickup_hour r = Some h) (rows df)).
  assert (Hgroup : Forall (λ r, ∃ fare, Pandas.number (fare_amount (raw r)) = Some fare
                                   ∧ (0 < fare)%Q ∧ (fare <= 500)%Q) group).
  { apply Forall_forall. intros r [_ Hr]%list_elem_of_filter.
    by apply result_row_fare in Hr. }
  destruct (mean_of_positive ((λ r, Pandas.number (fare_amount (raw r))) <$> group))
    as (fare & Hfare & Hfare0 & Hfare500).
  - intros Hnil%fmap_nil_inv.
    eapply (filter_nil_not_elem_of _ _ _ Hnil); [exact Hhour0|done].
  - apply Forall_fmap. eapply Forall_impl; [exact Hgroup|].
    intros r (f & Hf & ? & _). eauto.
  - exists fare. split_and!; [done|done|].
    apply Hfare500, Forall_fmap. eapply Forall_impl; [exact Hgroup|].
    intros r (f & Hf & _ & ?) x Hx.
    simpl in Hx. congruence.
Qed.

Lemma length_omap_all {A B} (f : A → option B) (l : list A) :
  Forall (λ x, is_Some (f x)) l → length (omap f l) = length l.
Proof.
  induction 1 as [|x l [y Hy] _ IH]; [done|]. csimpl. rewrite Hy. simpl. by rewrite IH.
Qed.

(** X16. The trip counts of the heat map table of a result add up to the
    number of rows of the result, whether the table lists only the pairs of
    weekday and hour that occur or every weekday with every hour that
    occurs. *)
Theorem X16_heat_map_counts_add_up (σ : Session) (args : Args) (observed : bool) :
  reachable remote σ →
  total_count (heatmap_data observed (get_filtered_df remote args σ).1)
  = length (rows (get_filtered_df remote args σ).1).
Proof.
  intros Hok%reachable_ok.
  destruct (get_filtered_df_ok remote args σ Hok) as [-> _].
  destruct args as [[[[[s e] lo] hi] labels] names].
  set (df := result_of remote (s, e, lo, hi, labels, names)).
  assert (Hkeys : Forall (λ r, ∃ d h, group_key r = Some (d, h) ∧ (d < 7)%nat)
                    (rows df)).
  { apply Forall_forall. intros r Hr. by apply result_row_key in Hr. }
  unfold heatmap_data.
  change (total_count ?t) with (sum_list_with snd t).
  rewrite sum_list_with_fmap.
  transitivity (length (omap group_key (rows df))).
  2:{ apply length_omap_all. eapply Forall_impl; [exact Hkeys|].
      intros r (d & h & -> & _). eauto. }
  apply (sum_of_counts (group_index observed (omap group_key (rows df)))
           (omap group_key (rows df))).
  - apply group_index_NoDup.
  - intros k Hk. apply group_index_covers; [|done].
    apply Forall_forall. intros k' (r & Hr & Hkr)%list_elem_of_omap.
    rewrite Forall_forall in Hkeys.
    destruct (Hkeys r Hr) as (d & h & Hdh & Hd). by simplify_eq.
Qed.

End GroupedTables.

(** ** app.py: the cleaned frame and the default selection *)

Section InMemory.
Context (remote : Remote).



Lemma kept_by_load_data (t : Trip) :
  App.dropna_subset t = true ∧ App.clean_mask t = true
  ↔ clean (cols t)
    ∧ is_Some (PULocationID (cols t)) ∧ is_Some (DOLocationID (cols t)).
Proof.
  unfold App.dropna_subset, App.clean_mask, clean.
  rewrite !andb_true_iff, !bool_decide_eq_true, !pandas_cmp_true. split.
  - intros [[[[[_ _] Hpu] Hdo] _]
            [[[(dist & ? & Hdist & [= <-] & Hd0) (fare & ? & Hfare & [= <-] & Hf0)]
               (? & ? & Hfare' & [= <-] & Hf500)] (d & p & Hd & Hp & Hgt)]].
    rewrite Hfare in Hfare'. simplify_eq.
    apply pandas_number_Some in Hdist, Hfare.
    split; [|done]. eexists p, d, dist, _.
    split_and!; [done|done|done|done|by apply Qltb_lt|by apply Qltb_lt
                |by apply Qle_bool_iff|lia].
  - intros [(p & d & dist & fare & Hp & Hd & Hdist & Hfare & Hd0 & Hf0 & Hf500 & Hlt)
            [Hpu Hdo]].
    rewrite Hp, Hd, Hdist, Hfare. cbn [Pandas.number].
    split_and!; try done; try by eauto.
    + eexists _, _. split_and!; [done..|by apply Qltb_lt].
    + eexists _, _. split_and!; [done..|by apply Qltb_lt].
    + eexists _, _. split_and!; [done..|by apply Qle_bool_iff].
    + eexists _, _. split_and!; [done..|lia].
Qed.

Lemma load_data_inv (r : App.DerivedRow) :
  r ∈ App.load_data remote →
  ∃ t z, r = App.derive_row t z ∧ t ∈ TRIP_URL remote
         ∧ App.dropna_subset t = true ∧ App.clean_mask t = true.
Proof.
  unfold App.load_data. intros ([t z] & -> & Hin)%list_elem_of_fmap.
  apply merge_left_matches in Hin as [Ht _].
  apply list_elem_of_filter in Ht as [Hclean Ht].
  apply list_elem_of_filter in Ht as [Hdrop Ht].
  by exists t, z.
Qed.


Lemma pandas_min_max_bounds (vs : list (option Z)) x :
  Some x ∈ vs →
  ∃ lo hi, Pandas.min vs = Some lo ∧ Pandas.max vs = Some hi ∧ lo ≤ x ≤ hi.
Proof. apply agg_min_max_bounds. Qed.

Lemma filter_all {A} (P : A → Prop) `{!∀ x, Decision (P x)} (l : list A) :
  Forall P l → filter P l = l.
Proof.
  induction 1 as [|x l Hx _ IH]; [done|]. by rewrite filter_cons_True, IH.
Qed.

(** X18. With the default selection of [app.py], the dates of the earliest
    and the latest pickup of the cleaned frame, hours 0 to 23, every payment
    label of the frame and no zone, the filter keeps the whole cleaned
    frame. *)
Theorem X18_default_selection_keeps_everything (first_day last_day : Z) :
  App.min_date (App.load_data remote) = Some first_day →
  App.max_date (App.load_data remote) = Some last_day →
  ∃ start_datetime end_datetime,
    Sidebar.datetime_window (Sidebar.date_tuple [first_day; last_day])
      = Some (start_datetime, end_datetime)
    ∧ App.filtered_df (App.load_data remote) start_datetime end_datetime (0, 23)
        (App.payment_labels (App.load_data remote)) []
      = App.load_data remote.
Proof.
  intros Hmin Hmax. eexists _, _. split; [reflexivity|].
  unfold App.filtered_df. rewrite bool_decide_eq_true_2 by done.
  apply filter_all, Forall_forall. intros r Hr.
  pose proof Hr as (t & z & -> & Ht & Hd & Hc)%load_data_inv.
  destruct (proj1 (kept_by_load_data t) (conj Hd Hc)) as [Hclean _].
  destruct Hclean as (p & d & dist & fare & Hp & _).
  destruct (pandas_min_max_bounds
              ((λ r, tpep_pickup_datetime (cols (App.raw r))) <$> App.load_data remote) p)
    as (mn & mx & Hmn & Hmx & Hlo & Hhi).
  { apply list_elem_of_fmap. exists (App.derive_row t z). by rewrite <- Hp. }
  unfold App.min_date in Hmin. unfold App.max_date in Hmax.
  rewrite Hmn in Hmin. rewrite Hmx in Hmax. simpl in Hmin, Hmax. simplify_eq.
  assert (Hwin : Sidebar.to_datetime (dt_date mn) ≤ p
                 < Sidebar.to_datetime (dt_date mx) + Timedelta_days 1).
  { apply day_of_window. split; by apply dt_date_mono. }
  pose proof (dt_hour_range p) as Hhour.
  unfold App.sidebar_mask. cbn [App.raw App.derive_row App.pickup_hour App.payment_label].
  rewrite Hp. cbn [fmap option_fmap option_map Pandas.cmp Pandas.isin fst snd].
  rewrite !andb_true_iff. split_and!; try lia.
  apply bool_decide_eq_true. unfold App.payment_labels, Pandas.sorted.
  rewrite merge_sort_Permutation, elem_of_unique.
  apply list_elem_of_fmap. exists (App.derive_row t z). done.
Qed.

End InMemory.

(** ** newapp.py: the selections the sidebar offers *)

Section Offered.
Import NewApp.

Lemma elem_of_sorted (l : list string) x : x ∈ Pandas.sorted l ↔ x ∈ l.
Proof. unfold Pandas.sorted. by rewrite merge_sort_Permutation. Qed.

Lemma resolve_zones_NoDup zones_df names : NoDup (resolve_zones zones_df names).
Proof. apply NoDup_unique. Qed.

(** X19. The location ids a zone selection resolves to are distinct, and they
    are the ids of the zone rows with a selected name. When every row of the
    zone table has a location id, a non-empty selection among the names the
    sidebar offers always resolves to at least one id, so the zone clause is
    part of the query. *)
Theorem X19_offered_zones_resolve (zones_df : list Zones.Row)
    (selected_zone_names : list string) :
  NoDup (resolve_zones zones_df selected_zone_names)
  ∧ (∀ loc, loc ∈ resolve_zones zones_df selected_zone_names
            ↔ ∃ z name, z ∈ zones_df ∧ Zones.LocationID z = Some loc
                        ∧ Zones.Zone z = Some name ∧ name ∈ selected_zone_names)
  ∧ (Forall (λ z, is_Some (Zones.LocationID z)) zones_df →
     selected_zone_names ≠ [] →
     Forall (λ name, name ∈ zones_list zones_df) selected_zone_names →
     zone_filter_sql zones_df selected_zone_names
       = Some (resolve_zones zones_df selected_zone_names)
     ∧ resolve_zones zones_df selected_zone_names ≠ []).
Proof.
  split_and!; [apply resolve_zones_NoDup|apply elem_of_resolve_zones|].
  intros Hids Hne Hoffered.
  assert (Hres : resolve_zones zones_df selected_zone_names ≠ []).
  { destruct selected_zone_names as [|name names]; [done|].
    apply Forall_cons in Hoffered as [Hname _].
    unfold zones_list in Hname.
    rewrite elem_of_sorted, elem_of_unique, list_elem_of_omap in Hname.
    destruct Hname as (z & Hz & Hzn).
    rewrite Forall_forall in Hids. destruct (Hids z Hz) as [loc Hloc].
    intros Hnil.
    assert (Hin : loc ∈ resolve_zones zones_df (name :: names)).
    { apply elem_of_resolve_zones. exists z, name. split_and!; try done. by left. }
    rewrite Hnil in Hin. by apply not_elem_of_nil in Hin. }
  split; [|done]. rewrite zone_filter_sql_alt. by rewrite bool_decide_eq_false_2.
Qed.

Lemma payment_labels_all_known l : l ∈ payment_labels_all ↔ is_Some (LABEL_TO_CODE !! l).
Proof.
  unfold payment_labels_all. rewrite elem_of_sorted, list_elem_of_fmap. split.
  - intros ([l' c] & -> & Hin%elem_of_map_to_list). eauto.
  - intros [c Hc]. exists (l, c). split; [done|]. by apply elem_of_map_to_list.
Qed.

Lemma default_payment_codes c :
  c ∈ payment_codes_of payment_labels_all ↔ 1 ≤ c ≤ 6.
Proof.
  rewrite <- PAYMENT_MAP_codes. unfold payment_codes_of.
  rewrite list_elem_of_omap. split.
  - intros (l & _ & Hl%LABEL_TO_CODE_lookup). eauto.
  - intros [l Hl%LABEL_TO_CODE_lookup]. exists l. split; [|done].
    apply payment_labels_all_known. eauto.
Qed.

Lemma clean_for_the_engine_clean t :
  clean t ↔ clean_for_the_engine t ∧ trip_distance t ≠ Some NaN.
Proof.
  unfold clean, clean_for_the_engine. split.
  - intros (p & d & dist & fare & Hp & Hd & Hdist & Hrest). split.
    + exists p, d, (Num dist), fare. simpl. tauto.
    + by rewrite Hdist.
  - intros [(p & d & dist & fare & Hp & Hd & Hdist & Hrest) Hnan].
    destruct dist as [|miles]; [done|].
    exists p, d, miles, fare. simpl in Hrest. tauto.
Qed.

(** X20. With the default selection of [newapp.py], the date range from the
    earliest to the latest pickup of the file, hours 0 to 23, all payment
    labels and no zone, the query selects a trip of the file exactly when its
    payment code is one of 1 to 6 and it passes the cleaning predicates as
    the engine evaluates them: fare above 0 and at most 500, dropoff after
    pickup, and a distance that is above 0 or NaN. A trip whose distance is
    not NaN is selected exactly when it is clean and has such a code. *)
Theorem X20_default_selection_of_the_pushdown (remote : Remote)
    (date_range : Sidebar.DateInput) (start_datetime end_datetime : Z) (t : Trip) :
  default_date_range remote = Some date_range →
  Sidebar.datetime_window date_range = Some (start_datetime, end_datetime) →
  t ∈ TRIP_URL remote →
  let selected :=
    SQL.selected
      (where_clause
         {| q_start := start_datetime; q_end := end_datetime;
            q_hour_min := 0; q_hour_max := 23;
            q_payment_codes := payment_codes_of payment_labels_all;
            q_zone_filter := zone_filter_sql (ZONE_URL remote) [] |}
         (cols t)) = true in
  (selected
   ↔ clean_for_the_engine (cols t)
     ∧ ∃ code, payment_type (cols t) = Some code ∧ 1 ≤ code ≤ 6)
  ∧ (trip_distance (cols t) ≠ Some NaN →
     selected
     ↔ clean (cols t) ∧ ∃ code, payment_type (cols t) = Some code ∧ 1 ≤ code ≤ 6).
Proof.
  intros Hdr Hwin Ht selected.
  assert (Hsel : selected
                 ↔ clean_for_the_engine (cols t)
                   ∧ ∃ code, payment_type (cols t) = Some code ∧ 1 ≤ code ≤ 6).
  { unfold selected. rewrite where_clause_selects, resolve_zones_nil.
    unfold selects, clean_for_the_engine. split.
    - intros (p & d & dist & fare & c & Hp & Hd & Hdist & Hfare & Hc & _ & _ & Hin
              & Hd0 & Hf0 & Hf500 & Hlt & _).
      split; [by exists p, d, dist, fare|].
      exists c. split; [done|]. by apply default_payment_codes.
    - intros [(p & d & dist & fare & Hp & Hd & Hdist & Hfare & Hd0 & Hf0 & Hf500 & Hlt)
              (c & Hc & Hrange)].
      destruct (default_window_holds remote t p Ht Hp) as (mn & mx & _ & _ & Hdr' & Hw).
      rewrite Hdr' in Hdr. simplify_eq. cbn in Hwin. simplify_eq.
      pose proof (dt_hour_range p).
      exists p, d, dist, fare, c.
      split_and!; try done; try lia.
      by apply default_payment_codes. }
  split; [exact Hsel|].
  intros Hnan. rewrite Hsel, clean_for_the_engine_clean. tauto.
Qed.

End Offered.

(** ** newapp.py: what the query returns *)

Section Retrieved.
Import NewApp.

(** X21. For a filter specification whose payment labels translate to at
    least one code, [get_filtered_df] derives its frame from the answer to
    one query. The answer consists of the rows at the positions of the trip
    file where the predicates hold as the engine evaluates them (date window,
    hour range, payment code, distance above 0 or NaN, fare in (0, 500],
    dropoff after pickup and, when the zone names resolved to ids, pickup
    location among them), each position once, in some order. On a row whose
    distance is not NaN these are the predicates of the specification. *)
Theorem X21_query_returns_the_selected_rows
    (remote : Remote) (σ : Session)
    (start_datetime end_datetime hour_min hour_max : Z)
    (payment_labels selected_zone_names : list string) :
  reachable remote σ →
  payment_codes_of payment_labels ≠ [] →
  let zones_df := ZONE_URL remote in
  let sql := {| q_start := start_datetime; q_end := end_datetime;
                q_hour_min := hour_min; q_hour_max := hour_max;
                q_payment_codes := payment_codes_of payment_labels;
                q_zone_filter := zone_filter_sql zones_df selected_zone_names |} in
  let ok := selects start_datetime end_datetime hour_min hour_max
              (payment_codes_of payment_labels)
              (resolve_zones zones_df selected_zone_names) in
  (get_filtered_df_body remote
     (start_datetime, end_datetime, hour_min, hour_max,
      payment_labels, selected_zone_names) σ).1
    = derive (run_query remote sql) zones_df
  ∧ Forall ok (run_query remote sql)
  ∧ (∃ idxs : list nat,
       NoDup idxs
       ∧ (∀ i, i ∈ idxs ↔ ∃ t, TRIP_URL remote !! i = Some t ∧ ok (cols t))
       ∧ run_query remote sql ≡ₚ omap (λ i, cols <$> TRIP_URL remote !! i) idxs)
  ∧ ∀ t, trip_distance t ≠ Some NaN →
      ok t ↔ satisfies start_datetime end_datetime hour_min hour_max
               (payment_codes_of payment_labels)
               (resolve_zones zones_df selected_zone_names) t.
Proof.
  intros Hok%reachable_ok Hcodes zones_df sql ok. split_and!.
  - destruct (body_result remote
                (start_datetime, end_datetime, hour_min, hour_max,
                 payment_labels, selected_zone_names) σ Hok) as [-> _].
    unfold result_of. by rewrite bool_decide_eq_false_2.
  - unfold run_query.
    apply Forall_fmap, Forall_forall. intros t [Ht _]%list_elem_of_filter.
    by apply where_clause_selects in Ht.
  - unfold run_query.
    destruct (filter_positions
                (λ t, SQL.selected (where_clause sql (cols t)) = true)
                (TRIP_URL remote)) as (idxs & Hnd & Hin & Heq).
    exists idxs. split_and!; [done| |].
    + intros i. rewrite Hin. unfold sql, ok.
      by setoid_rewrite where_clause_selects.
    + rewrite Heq, list_fmap_omap. done.
  - intros t Hnan. unfold ok. rewrite satisfies_selects. tauto.
Qed.

End Retrieved.

(** ** The further properties on the sample data *)

Section FurtherSamples.
Import NewApp.

Lemma sample_session_reachable : reachable Sample.remote SampleRun.session.
Proof. apply reachable_get_filtered_df, reachable_fresh. Defined.

(** X1 on the sample data. *)
Lemma X1_witness :
  reachable Sample.remote fresh
  ∧ (load_zones Sample.remote fresh).1 = ZONE_URL Sample.remote
  ∧ length (zone_fetches (remote_log (load_zones Sample.remote fresh).2)) = 1%nat.
Proof.
  pose proof (X1_zone_file_fetched_once Sample.remote fresh
                (reachable_fresh Sample.remote)) as (_ & H1 & H2 & _).
  split_and!; [apply reachable_fresh|exact H1|exact H2].
Defined.

(** X2 on the sample data. *)
Lemma X2_witness :
  reachable Sample.remote SampleRun.session
  ∧ QueryTrips SampleRun.query ∈ remote_log SampleRun.session
  ∧ q_payment_codes SampleRun.query ≠ []
  ∧ q_zone_filter SampleRun.query ≠ Some [].
Proof.
  assert (Hq : QueryTrips SampleRun.query ∈ remote_log SampleRun.session).
  { vm_compute. right. left. }
  pose proof (X2_queries_have_nonempty_in_lists Sample.remote SampleRun.session
                SampleRun.query sample_session_reachable Hq) as (H1 & _ & H2).
  split_and!; [apply sample_session_reachable|exact Hq|exact H1|exact H2].
Defined.

(** X3 on the sample data. *)
Lemma X3_witness :
  ∃ sent,
    remote_log (get_filtered_df Sample.remote SampleRun.args fresh).2
    = remote_log fresh ++ sent
    ∧ (length (trip_queries sent) ≤ 1)%nat.
Proof.
  destruct (X3_a_call_sends_at_most_one_query Sample.remote fresh
              Sample.january.1 Sample.january.2 0 23 ["Credit Card"] ["JFK Airport"])
    as (sent & H1 & H2 & _).
  exists sent. split; [exact H1|exact H2].
Defined.

(** X4 on the sample data. *)
Lemma X4_witness :
  reachable Sample.remote SampleRun.session
  ∧ (get_filtered_df Sample.remote SampleRun.args SampleRun.session).1
    = (get_filtered_df_body Sample.remote SampleRun.args fresh).1.
Proof.
  split; [apply sample_session_reachable|].
  exact (X4_cache_is_transparent Sample.remote SampleRun.session SampleRun.args
           sample_session_reachable).
Defined.

(** X7 on the sample data. *)
Lemma X7_witness :
  Sidebar.selected_dates (Sidebar.date_tuple [19723; 19727]) = Some (19723, 19727)
  ∧ ∃ start_datetime end_datetime,
      Sidebar.datetime_window (Sidebar.date_tuple [19723; 19727])
        = Some (start_datetime, end_datetime)
      ∧ ∀ t, start_datetime ≤ t < end_datetime ↔ 19723 ≤ dt_date t ≤ 19727.
Proof.
  split; [reflexivity|].
  exact (proj2 (proj2 (X7_window_is_the_selected_days
                         (Sidebar.date_tuple [19723; 19727])))
           19723 19727 eq_refl).
Defined.

(** X8 on the sample data. *)
Lemma X8_witness :
  {| cols := Sample.jfk_trip; passenger_count := Some 1%Q |} ∈ TRIP_URL Sample.remote
  ∧ ∃ min_dt max_dt date_range start_datetime end_datetime,
      get_min_max_dates Sample.remote = (Some min_dt, Some max_dt)
      ∧ min_dt ≤ Timestamp 2024 1 5 5 10 ≤ max_dt
      ∧ default_date_range Sample.remote = Some date_range
      ∧ Sidebar.datetime_window date_range = Some (start_datetime, end_datetime)
      ∧ start_datetime ≤ Timestamp 2024 1 5 5 10 < end_datetime.
Proof.
  assert (Ht : {| cols := Sample.jfk_trip; passenger_count := Some 1%Q |}
               ∈ TRIP_URL Sample.remote) by (simpl; by left).
  split; [exact Ht|].
  exact (proj2 (X8_default_dates_hold_every_pickup Sample.remote) _ _ Ht eq_refl).
Defined.

Lemma sample_row : SampleRun.jfk_row ∈ rows (get_filtered_df Sample.remote SampleRun.args fresh).1.
Proof. vm_compute. left. Defined.

(** X9 on the sample data. *)
Lemma X9_witness :
  reachable Sample.remote fresh
  ∧ SampleRun.jfk_row ∈ rows (get_filtered_df Sample.remote SampleRun.args fresh).1
  ∧ ∃ pickup dropoff minutes,
      tpep_pickup_datetime (raw SampleRun.jfk_row) = Some pickup
      ∧ tpep_dropoff_datetime (raw SampleRun.jfk_row) = Some dropoff
      ∧ Sample.january.1 ≤ pickup < Sample.january.2
      ∧ pickup_date SampleRun.jfk_row = Some (dt_date pickup)
      ∧ pickup_hour SampleRun.jfk_row = Some (dt_hour pickup)
      ∧ 0 ≤ dt_hour pickup ≤ 23
      ∧ pickup < dropoff
      ∧ trip_duration_minutes SampleRun.jfk_row = Some minutes
      ∧ (0 < minutes)%Q.
Proof.
  split_and!; [apply reachable_fresh|apply sample_row|].
  exact (X9_derived_columns_agree_with_filter Sample.remote fresh
           Sample.january.1 Sample.january.2 0 23 ["Credit Card"] ["JFK Airport"]
           SampleRun.jfk_row (reachable_fresh Sample.remote) sample_row).
Defined.

(** X10 on the sample data. *)
Lemma X10_witness :
  reachable Sample.remote fresh
  ∧ resolve_zones (ZONE_URL Sample.remote) ["JFK Airport"] ≠ []
  ∧ NoDup (Zones.LocationID <$> ZONE_URL Sample.remote)
  ∧ ∃ name, pickup_zone SampleRun.jfk_row = Some name ∧ name ∈ ["JFK Airport"].
Proof.
  assert (Hr : resolve_zones (ZONE_URL Sample.remote) ["JFK Airport"] ≠ [])
    by (vm_compute; discriminate).
  assert (Hnd : NoDup (Zones.LocationID <$> ZONE_URL Sample.remote)).
  { apply (bool_decide_unpack _). vm_compute. exact I. }
  split_and!; [apply reachable_fresh|exact Hr|exact Hnd|].
  exact (proj2 (proj2 (X10_rows_are_in_the_selected_zones Sample.remote fresh
                         Sample.january.1 Sample.january.2 0 23
                         ["Credit Card"] ["JFK Airport"] SampleRun.jfk_row
                         (reachable_fresh Sample.remote) Hr sample_row) Hnd)).
Defined.

(** X11 on the sample data. *)
Lemma X11_witness :
  reachable Sample.remote fresh
  ∧ (empty (get_filtered_df Sample.remote (Sample.args [] []) fresh).1 = true
     ↔ rows (get_filtered_df Sample.remote (Sample.args [] []) fresh).1 = []).
Proof.
  split; [apply reachable_fresh|].
  exact (X11_empty_means_no_rows Sample.remote fresh (Sample.args [] [])
           (reachable_fresh Sample.remote)).
Defined.

(** X12 on the sample data. *)
Lemma X12_witness :
  reachable Sample.remote fresh
  ∧ empty (get_filtered_df Sample.remote SampleRun.args fresh).1 = false
  ∧ (0 < total_trips (key_metrics (get_filtered_df Sample.remote SampleRun.args fresh).1))%nat.
Proof.
  assert (He : empty (get_filtered_df Sample.remote SampleRun.args fresh).1 = false)
    by (vm_compute; reflexivity).
  split_and!; [apply reachable_fresh|exact He|].
  exact (proj1 (proj2 (X12_key_metrics_are_defined Sample.remote fresh SampleRun.args
                         (reachable_fresh Sample.remote) He))).
Defined.

(** X13 on the sample data. *)
Lemma X13_witness :
  ("JFK Airport", 1%nat) ∈ top_zones (get_filtered_df Sample.remote SampleRun.args fresh).1
  ∧ 1%nat = length (filter (λ r, pickup_zone r = Some "JFK Airport")
                      (rows (get_filtered_df Sample.remote SampleRun.args fresh).1)).
Proof.
  assert (Hin : ("JFK Airport", 1%nat)
                ∈ top_zones (get_filtered_df Sample.remote SampleRun.args fresh).1).
  { vm_compute. left. }
  split; [exact Hin|].
  exact (proj1 (proj1 (proj2 (proj2 (proj2
           (X13_top_zones_are_the_most_frequent
              (get_filtered_df Sample.remote SampleRun.args fresh).1))))
           "JFK Airport" 1%nat Hin)).
Defined.

(** X15 on the sample data. *)
Lemma X15_witness :
  reachable Sample.remote fresh
  ∧ StronglySorted Z.lt
      (avg_fare_hour
         (get_filtered_df Sample.remote
            (Sample.january.1, Sample.january.2, 0, 23,
             ["Credit Card"], ["JFK Airport"]) fresh).1).*1.
Proof.
  split; [apply reachable_fresh|].
  exact (proj1 (X15_average_fare_by_hour Sample.remote fresh
                  Sample.january.1 Sample.january.2 0 23
                  ["Credit Card"] ["JFK Airport"] (reachable_fresh Sample.remote))).
Defined.

(** X16 on the sample data. *)
Lemma X16_witness :
  reachable Sample.remote fresh
  ∧ total_count (heatmap_data false (get_filtered_df Sample.remote SampleRun.args fresh).1)
    = length (rows (get_filtered_df Sample.remote SampleRun.args fresh).1).
Proof.
  split; [apply reachable_fresh|].
  exact (X16_heat_map_counts_add_up Sample.remote fresh SampleRun.args false
           (reachable_fresh Sample.remote)).
Defined.


(** X18 on the sample data. *)
Lemma X18_witness :
  App.min_date (App.load_data Sample.remote) = Some 19727
  ∧ App.max_date (App.load_data Sample.remote) = Some 19727
  ∧ ∃ start_datetime end_datetime,
      Sidebar.datetime_window (Sidebar.date_tuple [19727; 19727])
        = Some (start_datetime, end_datetime)
      ∧ App.filtered_df (App.load_data Sample.remote) start_datetime end_datetime
          (0, 23) (App.payment_labels (App.load_data Sample.remote)) []
        = App.load_data Sample.remote.
Proof.
  assert (Hmin : App.min_date (App.load_data Sample.remote) = Some 19727)
    by (vm_compute; reflexivity).
  assert (Hmax : App.max_date (App.load_data Sample.remote) = Some 19727)
    by (vm_compute; reflexivity).
  split_and!; [exact Hmin|exact Hmax|].
  exact (X18_default_selection_keeps_everything Sample.remote 19727 19727 Hmin Hmax).
Defined.

(** X19 on the sample data. *)
Lemma X19_witness :
  Forall (λ z, is_Some (Zones.LocationID z)) Sample.zones
  ∧ ["JFK Airport"] ≠ []
  ∧ Forall (λ name, name ∈ zones_list Sample.zones) ["JFK Airport"]
  ∧ resolve_zones Sample.zones ["JFK Airport"] ≠ [].
Proof.
  assert (Hids : Forall (λ z, is_Some (Zones.LocationID z)) Sample.zones).
  { apply (bool_decide_unpack _). vm_compute. exact I. }
  assert (Hne : ["JFK Airport"] ≠ @nil string) by discriminate.
  assert (Hoff : Forall (λ name, name ∈ zones_list Sample.zones) ["JFK Airport"]).
  { apply (bool_decide_unpack _). vm_compute. exact I. }
  split_and!; [exact Hids|exact Hne|exact Hoff|].
  exact (proj2 (proj2 (proj2 (X19_offered_zones_resolve Sample.zones ["JFK Airport"]))
                  Hids Hne Hoff)).
Defined.

(** X20 on the sample data. *)
Lemma X20_witness :
  default_date_range Sample.remote = Some (Sidebar.date_tuple [19727; 19727])
  ∧ Sidebar.datetime_window (Sidebar.date_tuple [19727; 19727])
    = Some (Timestamp 2024 1 5 0 0, Timestamp 2024 1 6 0 0)
  ∧ {| cols := Sample.jfk_trip; passenger_count := Some 1%Q |} ∈ TRIP_URL Sample.remote
  ∧ (SQL.selected
       (where_clause
          {| q_start := Timestamp 2024 1 5 0 0; q_end := Timestamp 2024 1 6 0 0;
             q_hour_min := 0; q_hour_max := 23;
             q_payment_codes := payment_codes_of payment_labels_all;
             q_zone_filter := zone_filter_sql (ZONE_URL Sample.remote) [] |}
          Sample.jfk_trip) = true
     ↔ clean_for_the_engine Sample.jfk_trip
       ∧ ∃ code, payment_type Sample.jfk_trip = Some code ∧ 1 ≤ code ≤ 6).
Proof.
  assert (Hdr : default_date_range Sample.remote
                = Some (Sidebar.date_tuple [19727; 19727])) by (vm_compute; reflexivity).
  assert (Hw : Sidebar.datetime_window (Sidebar.date_tuple [19727; 19727])
               = Some (Timestamp 2024 1 5 0 0, Timestamp 2024 1 6 0 0))
    by (vm_compute; reflexivity).
  assert (Ht : {| cols := Sample.jfk_trip; passenger_count := Some 1%Q |}
               ∈ TRIP_URL Sample.remote) by (simpl; by left).
  split_and!; [exact Hdr|exact Hw|exact Ht|].
  exact (proj1 (X20_default_selection_of_the_pushdown Sample.remote _ _ _ _ Hdr Hw Ht)).
Defined.

(** X21 on the sample data. *)
Lemma X21_witness :
  reachable Sample.remote_nan_distance fresh
  ∧ payment_codes_of ["Credit Card"] ≠ []
  ∧ Forall (selects Sample.january.1 Sample.january.2 0 23
              (payment_codes_of ["Credit Card"])
              (resolve_zones (ZONE_URL Sample.remote_nan_distance) ["JFK Airport"]))
      (run_query Sample.remote_nan_distance
         {| q_start := Sample.january.1; q_end := Sample.january.2;
            q_hour_min := 0; q_hour_max := 23;
            q_payment_codes := payment_codes_of ["Credit Card"];
            q_zone_filter :=
              zone_filter_sql (ZONE_URL Sample.remote_nan_distance) ["JFK Airport"] |}).
Proof.
  assert (Hc : payment_codes_of ["Credit Card"] ≠ []) by (vm_compute; discriminate).
  split_and!; [apply reachable_fresh|exact Hc|].
  exact (proj1 (proj2 (X21_query_returns_the_selected_rows Sample.remote_nan_distance
                         fresh Sample.january.1 Sample.january.2 0 23
                         ["Credit Card"] ["JFK Airport"]
                         (reachable_fresh Sample.remote_nan_distance) Hc))).
Defined.

End FurtherSamples.
